(** * ncempy.io.emd: the Berkeley EMD interface, embedded in Rocq

    A shallow embedding of [src/ncempy/io/emd.py]: the classes [fileEMD] and
    [fileEMD_v05] and the helpers [defaultDims] and [emdReader].  The HDF5
    container that the module drives through h5py is modelled as a tree of
    groups and datasets; Python exceptions, [print] and the mutation of
    [self] are modelled by a state-and-exception monad over the record of
    the object's fields.  The library behaviour taken as given is that of
    h5py 3 with its default settings and of numpy 1.25 or 1.26: the module
    calls [np.string_], which numpy 2 no longer has. *)

From Stdlib Require Import ZArith String Ascii List Lia Bool.
From stdpp Require Import base option strings list gmap pretty.

Set Default Proof Using "Type".
Set Warnings "-register-all".

(** ** Python values that do not depend on the array element type *)

(** The exceptions the module raises or meets.  [TypeError], [RuntimeError],
    [ValueError] and [Exception] carry the message of the [raise] statement;
    the others come from the interpreter, from numpy or from h5py. *)
Inductive exn : Type :=
| TypeError (msg : string)
| RuntimeError (msg : string)
| ValueError (msg : string)
| Exception (msg : string)
| KeyError (key : string)
| IndexError
| AttributeError (msg : string)
| AssertionError
| OSError (msg : string)
| UnicodeEncodeError
| UnicodeDecodeError.

(** The result of running a piece of Python: a value or a raised exception. *)
Inductive outcome (A : Type) : Type :=
| Return (a : A)
| Raise (e : exn).
Arguments Return {A} a.
Arguments Raise {A} e.

Definition is_return {A : Type} (o : outcome A) : bool :=
  match o with Return _ => true | Raise _ => false end.

(** An HDF5 attribute value as h5py reads it: a number (a numpy scalar,
    given by its integer value), a fixed-length byte string ([np.bytes_]), a
    variable-length string (a [str], given by its UTF-8 bytes), or a
    one-dimensional numpy array of numbers or of byte strings. *)
Inductive attr_val : Type :=
| AInt (z : Z)
| ABytes (s : string)
| AStr (s : string)
| AIntArr (l : list Z)
| ABytesArr (l : list string).

(** A handle to an HDF5 object is the list of link names from the root. *)
Definition path : Type := list string.

(** [group.name]: the absolute HDF5 name of a handle; the root is ["/"]. *)
Definition h5_name (p : path) : string :=
  match p with
  | [] => "/"
  | _ => foldr (fun c rest => "/" +:+ c +:+ rest) "" p
  end.

(** [s.split(sep)] for a one-character separator. *)
Fixpoint split_on (sep : ascii) (s : string) : list string :=
  match s with
  | EmptyString => [EmptyString]
  | String a s' =>
      if Ascii.eqb a sep then EmptyString :: split_on sep s'
      else match split_on sep s' with
           | [] => [String a EmptyString]
           | w :: ws => String a w :: ws
           end
  end.

(** [l[-k]] for [k >= 1]: [None] stands for [IndexError]. *)
Definition index_from_end {A : Type} (l : list A) (k : nat) : option A :=
  if decide (1 <= k <= length l) then l !! (length l - k) else None.

(** [l[i]] for any Python integer [i]: [None] stands for [IndexError]. *)
Definition py_index {A : Type} (l : list A) (i : Z) : option A :=
  if decide (0 <= i)%Z then l !! Z.to_nat i
  else index_from_end l (Z.to_nat (- i)).

(** What numpy raises when an array of two or more elements is used as a
    truth value. *)
Definition ambiguous_truth : exn :=
  ValueError
    "The truth value of an array with more than one element is ambiguous. Use a.any() or a.all()".

(** [bool(a)] for a one-dimensional numpy array of booleans: the element of
    an array of one, [False] for an empty array, and no truth value
    otherwise. *)
Definition array_truth (l : list bool) : outcome bool :=
  match l with
  | [] => Return false
  | [b] => Return b
  | _ :: _ :: _ => Raise ambiguous_truth
  end.

(** The truth value of [v == z] for an attribute value and an integer
    literal, as [if] and [not] and the comparison of tuples take it.  On an
    array [==] compares element by element; an array of byte strings gives
    an array of [False]. *)
Definition py_eq_int (v : attr_val) (z : Z) : outcome bool :=
  match v with
  | AInt z' => Return (bool_decide (z' = z))
  | ABytes _ => Return false
  | AStr _ => Return false
  | AIntArr l => array_truth (map (fun z' => bool_decide (z' = z)) l)
  | ABytesArr l => array_truth (map (fun _ => false) l)
  end.

(** [(major, minor) == (a, b)]: tuples are compared item by item, and the
    second items only when the first are equal. *)
Definition version_is (v : attr_val * attr_val) (a b : Z) : outcome bool :=
  match py_eq_int v.1 a with
  | Raise e => Raise e
  | Return false => Return false
  | Return true => py_eq_int v.2 b
  end.

(** [a[k]] on an attribute table. *)
Definition attr_getitem (a : gmap string attr_val) (k : string) : outcome attr_val :=
  match a !! k with
  | Some v => Return v
  | None => Raise (KeyError k)
  end.

(** [l[i]] for [i] from a [range]. *)
Definition list_getitem {A : Type} (l : list A) (i : nat) : outcome A :=
  match l !! i with
  | Some x => Return x
  | None => Raise IndexError
  end.

(** A [name] or [units] attribute as [get_emddims] reads it: [a[k][0]] if
    [a[k]] is an array, else [a[k]]. *)
Definition attr_scalar (a : gmap string attr_val) (k : string) : outcome attr_val :=
  match a !! k with
  | None => Raise (KeyError k)
  | Some (ABytesArr (s :: _)) => Return (ABytes s)
  | Some (ABytesArr []) => Raise IndexError
  | Some (AIntArr (z :: _)) => Return (AInt z)
  | Some (AIntArr []) => Raise IndexError
  | Some v => Return v
  end.

(** *** Text *)

(** A [str] is given by its UTF-8 bytes, a byte string by its bytes. *)

Fixpoint string_forall (P : ascii -> bool) (s : string) : bool :=
  match s with
  | EmptyString => true
  | String c s' => P c && string_forall P s'
  end.

Definition byte_between (lo hi : N) (c : ascii) : bool :=
  (lo <=? N_of_ascii c)%N && (N_of_ascii c <=? hi)%N.

(** Every character is ASCII. *)
Definition is_ascii (s : string) : bool := string_forall (byte_between 0 127) s.

(** ASCII text that holds no NUL character. *)
Definition plain_text (s : string) : bool := string_forall (byte_between 1 127) s.

(** No NUL character: the text is a C string as it stands. *)
Definition no_nul (s : string) : bool := string_forall (byte_between 1 255) s.

(** The bytes are well-formed UTF-8: what [bytes.decode('utf-8')] accepts. *)
Definition utf8_cont (c : ascii) : bool := byte_between 128 191 c.

Definition utf8_lead3 (c0 c1 : ascii) : bool :=
  (byte_between 224 224 c0 && byte_between 160 191 c1)
  || (byte_between 225 236 c0 && utf8_cont c1)
  || (byte_between 237 237 c0 && byte_between 128 159 c1)
  || (byte_between 238 239 c0 && utf8_cont c1).

Definition utf8_lead4 (c0 c1 : ascii) : bool :=
  (byte_between 240 240 c0 && byte_between 144 191 c1)
  || (byte_between 241 243 c0 && utf8_cont c1)
  || (byte_between 244 244 c0 && byte_between 128 143 c1).

Fixpoint utf8_valid (s : string) : bool :=
  match s with
  | EmptyString => true
  | String c0 s1 =>
      if byte_between 0 127 c0 then utf8_valid s1
      else
        match s1 with
        | EmptyString => false
        | String c1 s2 =>
            if byte_between 194 223 c0 then utf8_cont c1 && utf8_valid s2
            else
              match s2 with
              | EmptyString => false
              | String c2 s3 =>
                  if utf8_lead3 c0 c1 then utf8_cont c2 && utf8_valid s3
                  else
                    match s3 with
                    | EmptyString => false
                    | String c3 s4 =>
                        utf8_lead4 c0 c1 && utf8_cont c2 && utf8_cont c3
                        && utf8_valid s4
                    end
              end
        end
  end.

(** A numpy byte string drops the NUL characters at its end. *)
Fixpoint rstrip_nul (s : string) : string :=
  match s with
  | EmptyString => EmptyString
  | String c s' =>
      match rstrip_nul s' with
      | EmptyString =>
          if byte_between 0 0 c then EmptyString else String c EmptyString
      | String c' r => String c (String c' r)
      end
  end.

(** [np.string_(s)] for a [str]: its ASCII encoding as a numpy byte string;
    a character outside ASCII cannot be encoded. *)
Definition np_string_ (s : string) : outcome string :=
  if is_ascii s then Return (rstrip_nul s) else Raise UnicodeEncodeError.

(** [v.decode('utf-8')]: only a byte string has the method, and it refuses
    bytes that are not UTF-8. *)
Definition decode (v : attr_val) : outcome string :=
  match v with
  | ABytes s => if utf8_valid s then Return s else Raise UnicodeDecodeError
  | _ => Raise (AttributeError "object has no attribute 'decode'")
  end.

(** [old + b] for an attribute value as read and a numpy byte string: the
    sum of two byte strings is a Python [bytes]; a [str], a number and an
    array have no sum with a byte string. *)
Definition bytes_add (old : attr_val) (b : string) : outcome string :=
  match old with
  | ABytes o => Return (o +:+ b)
  | _ => Raise (TypeError "unsupported operand type(s) for +")
  end.

(** What h5py stores for a Python [bytes]: a variable-length string, which
    cannot hold a NUL and which reads back as a [str]. *)
Definition vlen_of_bytes (b : string) : outcome attr_val :=
  if no_nul b then Return (AStr b)
  else Raise (ValueError "VLEN strings do not support embedded NULLs").

(** The line-feed character of ['\n'] and the double quote of the messages. *)
Definition nl : string := String (ascii_of_nat 10) EmptyString.
Definition dq : string := String (ascii_of_nat 34) EmptyString.

(** ['"{}"'.format(s)] *)
Definition quoted (s : string) : string := dq +:+ s +:+ dq.

(** *** Text of values, for [format] *)

Definition hex_digit (n : N) : ascii :=
  match n with
  | 0 => "0" | 1 => "1" | 2 => "2" | 3 => "3" | 4 => "4" | 5 => "5" | 6 => "6"
  | 7 => "7" | 8 => "8" | 9 => "9" | 10 => "a" | 11 => "b" | 12 => "c"
  | 13 => "d" | 14 => "e" | _ => "f"
  end%N%char.

(** One byte inside the text of a [bytes] delimited by the quote [q]. *)
Definition escape_byte (q c : ascii) : string :=
  let n := N_of_ascii c in
  if Ascii.eqb c "\" || Ascii.eqb c q then String "\" (String c EmptyString)
  else if (n =? 9)%N then "\t"
  else if (n =? 10)%N then "\n"
  else if (n =? 13)%N then "\r"
  else if (n <? 32)%N || (127 <=? n)%N
       then String "\" (String "x" (String (hex_digit (n / 16)%N)
                                       (String (hex_digit (n mod 16)%N) EmptyString)))
  else String c EmptyString.

Fixpoint string_exists (P : ascii -> bool) (s : string) : bool :=
  match s with
  | EmptyString => false
  | String c s' => P c || string_exists P s'
  end.

Fixpoint escape_bytes (q : ascii) (s : string) : string :=
  match s with
  | EmptyString => EmptyString
  | String c s' => escape_byte q c +:+ escape_bytes q s'
  end.

(** [str(b)] for a byte string: [b'...'], or with double quotes when the
    text holds a single quote and no double quote. *)
Definition bytes_str (s : string) : string :=
  let q := if string_exists (Ascii.eqb "'") s
              && negb (string_exists (Ascii.eqb (ascii_of_nat 34)) s)
           then ascii_of_nat 34 else "'"%char in
  String "b" (String q (escape_bytes q s +:+ String q EmptyString)).

Fixpoint spaces (n : nat) : string :=
  match n with
  | 0 => EmptyString
  | S n' => String " " (spaces n')
  end.

(** [str(a)] for a short one-dimensional array of integers: the numbers
    right-aligned to one width. *)
Definition int_array_str (l : list Z) : string :=
  let texts := map (fun z : Z => pretty z) l in
  let w := foldr (fun t m => Nat.max (String.length t) m) 0 texts in
  "[" +:+ String.concat " "
            (map (fun t => spaces (w - String.length t) +:+ t) texts)
  +:+ "]".

(** [str(v)] as used in the [format] calls on version numbers. *)
Definition attr_str (v : attr_val) : string :=
  match v with
  | AInt z => pretty z
  | ABytes s => bytes_str s
  | AStr s => s
  | AIntArr l => int_array_str l
  | ABytesArr l => "[" +:+ String.concat " " (map bytes_str l) +:+ "]"
  end.

(** The two classes of the module; method calls on [self] dispatch on it. *)
Inductive emd_class : Type := Class_fileEMD | Class_fileEMD_v05.

(** The [filename] argument of the constructor. *)
Inductive filename_arg : Type :=
| FnStr (s : string)
| FnPath (s : string)
| FnOther.

(** *** HDF5 names *)

(** The pieces of an HDF5 path: the empty pieces that doubled, leading and
    trailing slashes leave are ignored. *)
Definition path_pieces (name : string) : list string :=
  filter (fun c => c ≠ "") (split_on "/" name).

(** A path that starts with a slash is resolved from the root. *)
Definition is_absolute (name : string) : bool :=
  match name with
  | String c _ => Ascii.eqb c "/"
  | EmptyString => false
  end.

(** The pieces HDF5 walks to create or unlink an object: the piece ["."]
    stands for the group itself. *)
Definition name_pieces (name : string) : list string :=
  filter (fun c => c ≠ ".") (path_pieces name).

(** The group a path is resolved from. *)
Definition name_base (here : path) (name : string) : path :=
  if is_absolute name then [] else here.

(** The member of a group's link table called [k]. *)
Fixpoint child {A : Type} (k : string) (l : list (string * A)) : option A :=
  match l with
  | [] => None
  | (k', x) :: l' => if decide (k = k') then Some x else child k l'
  end.

(** Replace the member called [k], keeping its place in the enumeration. *)
Fixpoint set_child {A : Type} (k : string) (x : A) (l : list (string * A))
  : list (string * A) :=
  match l with
  | [] => []
  | (k', y) :: l' =>
      if decide (k = k') then (k', x) :: l' else (k', y) :: set_child k x l'
  end.

(** Unlink the member called [k]: no member of that name is left. *)
Definition del_child {A : Type} (k : string) (l : list (string * A))
  : list (string * A) :=
  filter (fun kc => kc.1 ≠ k) l.

(** Link a new member: h5py enumerates the members of a group by name, so it
    comes before the first member of a greater name. *)
Fixpoint insert_child {A : Type} (k : string) (x : A) (l : list (string * A))
  : list (string * A) :=
  match l with
  | [] => [(k, x)]
  | (k', y) :: l' =>
      if String.ltb k k' then (k, x) :: (k', y) :: l'
      else (k', y) :: insert_child k x l'
  end.

Section EMD.

(** Array elements are numpy scalars.  The module only moves them around,
    except in [defaultDims], which converts an index to a scalar and multiplies
    it by a pixel size. *)
Variable scalar : Type.
Variable of_index : nat -> scalar.
Variable fmul : scalar -> scalar -> scalar.
Variable one : scalar.

(** ** The container: h5py groups, datasets and attributes *)

(** A numpy array: its [shape] and its elements in row-major order. *)
Record ndarray : Type := mk_ndarray { shape : list nat; elems : list scalar }.

(** [data.ndim] *)
Definition ndim (a : ndarray) : nat := length (shape a).

Inductive node : Type :=
| Group (attrs : gmap string attr_val) (children : list (string * node))
| Dataset (attrs : gmap string attr_val) (value : ndarray).

(** An open [h5py.File]: mode ['r'] is [writable = false], ['a'] is [true]. *)
Record h5file : Type := mk_h5file { writable : bool; root : node }.

Definition node_attrs (n : node) : gmap string attr_val :=
  match n with Group a _ => a | Dataset a _ => a end.

Definition is_group (n : node) : bool :=
  match n with Group _ _ => true | Dataset _ _ => false end.

(** Resolve a handle against the tree. *)
Fixpoint get_node (n : node) (p : path) : option node :=
  match p with
  | [] => Some n
  | k :: p' =>
      match n with
      | Group _ cs =>
          match child k cs with
          | Some c => get_node c p'
          | None => None
          end
      | Dataset _ _ => None
      end
  end.

(** Rewrite the object a handle points to; [None] when the handle does not
    resolve or [f] refuses. *)
Fixpoint alter_node (f : node -> option node) (n : node) (p : path)
  : option node :=
  match p with
  | [] => f n
  | k :: p' =>
      match n with
      | Group a cs =>
          match child k cs with
          | Some c =>
              match alter_node f c p' with
              | Some c' => Some (Group a (set_child k c' cs))
              | None => None
              end
          | None => None
          end
      | Dataset _ _ => None
      end
  end.

(** Link a new object under the name [label], which must be free. *)
Definition link_new (label : string) (new : node) (n : node) : option node :=
  match n with
  | Group a cs =>
      match child label cs with
      | Some _ => None
      | None => Some (Group a (insert_child label new cs))
      end
  | Dataset _ _ => None
  end.

(** Unlink the member called [label]. *)
Definition unlink (label : string) (n : node) : option node :=
  match n with
  | Group a cs =>
      match child label cs with
      | Some _ => Some (Group a (del_child label cs))
      | None => None
      end
  | Dataset _ _ => None
  end.

(** Link a new object at the end of a path of pieces: h5py has HDF5 create
    the groups that are missing on the way.  The last piece must be free,
    and what is on the way must be a group. *)
Fixpoint link_at (pieces : list string) (new : node) (n : node) : option node :=
  match pieces with
  | [] => None
  | k :: rest =>
      match rest with
      | [] => link_new k new n
      | _ :: _ =>
          match n with
          | Group a cs =>
              match child k cs with
              | Some c =>
                  match link_at rest new c with
                  | Some c' => Some (Group a (set_child k c' cs))
                  | None => None
                  end
              | None =>
                  match link_at rest new (Group ∅ []) with
                  | Some c' => Some (Group a (insert_child k c' cs))
                  | None => None
                  end
              end
          | Dataset _ _ => None
          end
      end
  end.

(** Unlink the object at the end of a path of pieces. *)
Fixpoint unlink_at (pieces : list string) (n : node) : option node :=
  match pieces with
  | [] => None
  | k :: rest =>
      match rest with
      | [] => unlink k n
      | _ :: _ =>
          match n with
          | Group a cs =>
              match child k cs with
              | Some c =>
                  match unlink_at rest c with
                  | Some c' => Some (Group a (set_child k c' cs))
                  | None => None
                  end
              | None => None
              end
          | Dataset _ _ => None
          end
      end
  end.

(** The loop of h5py's test [name in group] over the pieces of the name:
    the piece ["."] is skipped, every other piece must be linked, and all
    but the last must be groups. *)
Fixpoint path_valid (n : node) (pieces : list string) : bool :=
  match pieces with
  | [] => true
  | p :: rest =>
      if decide (p = ".") then path_valid n rest
      else
        match n with
        | Group _ cs =>
            match child p cs with
            | None => false
            | Some c =>
                match rest with
                | [] => true
                | _ :: _ => is_group c && path_valid c rest
                end
            end
        | Dataset _ _ => false
        end
  end.

(** [obj.attrs[k] = v] *)
Definition put_attr (k : string) (v : attr_val) (n : node) : option node :=
  match n with
  | Group a cs => Some (Group (<[k:=v]> a) cs)
  | Dataset a d => Some (Dataset (<[k:=v]> a) d)
  end.

(** ** Group discovery *)

(** ['emd_group_type' in item.attrs] and [item.attrs['emd_group_type'] == 1]:
    the truth value the [if] takes, when there is one. *)
Definition emd_type_test (a : gmap string attr_val) : outcome bool :=
  match a !! "emd_group_type" with
  | Some v => py_eq_int v 1
  | None => Return false
  end.

(** The inner function [proc_group(group, emds)] of [find_emdgroups].  The
    list [emds] is threaded through the loop; [here] is the handle of
    [group], so that [here ++ [name]] is the handle [group.get(item)].  A
    dataset given as [group] is iterated by its rows, which have no
    [get]. *)
Fixpoint proc_group (group : node) (here : path) (emds : list path)
  {struct group} : outcome (list path) :=
  match group with
  | Group _ items =>
      (fix each (items : list (string * node)) (emds : list path)
         {struct items} : outcome (list path) :=
         match items with
         | [] => Return emds
         | (name, item) :: rest =>
             match item with
             | Group item_attrs _ =>
                 match emd_type_test item_attrs with
                 | Raise e => Raise e
                 | Return found =>
                     match proc_group item (here ++ [name])
                             (if found then emds ++ [here ++ [name]] else emds)
                     with
                     | Raise e => Raise e
                     | Return emds => each rest emds
                     end
                 end
             | Dataset _ _ => each rest emds
             end
         end) items emds
  | Dataset _ value =>
      match shape value with
      | [] => Raise (TypeError "Can't iterate over a scalar dataset")
      | 0 :: _ => Return emds
      | S _ :: _ => Raise (AttributeError "'Dataset' object has no attribute 'get'")
      end
  end.

(** [find_emdgroups(parent)] on the tree [n] that [parent] points to. *)
Definition find_emdgroups (n : node) (parent : path) : outcome (list path) :=
  proc_group n parent [].


(** ** The object and the effects of its methods *)

(** A dim vector as the module passes it around: [(vector, name, units)]. *)
Definition dim : Type := ndarray * string * string.

(** The fields of a [fileEMD] object.  [file_hdl] holds the open file, mode
    and contents.  [emd_stdout] is not a field of the object: it collects the
    lines the methods [print], oldest first. *)
Record fileEMD : Type := mk_fileEMD {
  self_class : emd_class;
  filename : filename_arg;
  readonly : bool;
  file_hdl : h5file;
  version : option (attr_val * attr_val);
  data : option path;
  microscope : option path;
  sample : option path;
  user : option path;
  comments : option path;
  list_emds : list path;
  emd_stdout : list string
}.

Definition set_file_hdl (h : h5file) (s : fileEMD) : fileEMD :=
  mk_fileEMD (self_class s) (filename s) (readonly s) h (version s) (data s)
    (microscope s) (sample s) (user s) (comments s) (list_emds s) (emd_stdout s).

Definition set_version (v : option (attr_val * attr_val)) (s : fileEMD) : fileEMD :=
  mk_fileEMD (self_class s) (filename s) (readonly s) (file_hdl s) v (data s)
    (microscope s) (sample s) (user s) (comments s) (list_emds s) (emd_stdout s).

Definition set_data (p : option path) (s : fileEMD) : fileEMD :=
  mk_fileEMD (self_class s) (filename s) (readonly s) (file_hdl s) (version s) p
    (microscope s) (sample s) (user s) (comments s) (list_emds s) (emd_stdout s).

Definition set_microscope (p : option path) (s : fileEMD) : fileEMD :=
  mk_fileEMD (self_class s) (filename s) (readonly s) (file_hdl s) (version s) (data s)
    p (sample s) (user s) (comments s) (list_emds s) (emd_stdout s).

Definition set_sample (p : option path) (s : fileEMD) : fileEMD :=
  mk_fileEMD (self_class s) (filename s) (readonly s) (file_hdl s) (version s) (data s)
    (microscope s) p (user s) (comments s) (list_emds s) (emd_stdout s).

Definition set_user (p : option path) (s : fileEMD) : fileEMD :=
  mk_fileEMD (self_class s) (filename s) (readonly s) (file_hdl s) (version s) (data s)
    (microscope s) (sample s) p (comments s) (list_emds s) (emd_stdout s).

Definition set_comments (p : option path) (s : fileEMD) : fileEMD :=
  mk_fileEMD (self_class s) (filename s) (readonly s) (file_hdl s) (version s) (data s)
    (microscope s) (sample s) (user s) p (list_emds s) (emd_stdout s).

Definition set_list_emds (l : list path) (s : fileEMD) : fileEMD :=
  mk_fileEMD (self_class s) (filename s) (readonly s) (file_hdl s) (version s) (data s)
    (microscope s) (sample s) (user s) (comments s) l (emd_stdout s).

Definition set_stdout (l : list string) (s : fileEMD) : fileEMD :=
  mk_fileEMD (self_class s) (filename s) (readonly s) (file_hdl s) (version s) (data s)
    (microscope s) (sample s) (user s) (comments s) (list_emds s) l.

(** A method body: it may change the object and the file, print, and either
    return or raise.  What was changed before a [raise] stays changed. *)
Definition M (A : Type) : Type := fileEMD -> fileEMD * outcome A.

Definition ret {A : Type} (a : A) : M A := fun s => (s, Return a).

Definition raise {A : Type} (e : exn) : M A := fun s => (s, Raise e).

Definition bind {A B : Type} (m : M A) (k : A -> M B) : M B :=
  fun s =>
    match m s with
    | (s', Return a) => k a s'
    | (s', Raise e) => (s', Raise e)
    end.

(** [try: m  except: h]: a bare [except] catches every exception. *)
Definition try_except {A : Type} (m : M A) (h : exn -> M A) : M A :=
  fun s =>
    match m s with
    | (s', Return a) => (s', Return a)
    | (s', Raise e) => h e s'
    end.

Definition gets {A : Type} (f : fileEMD -> A) : M A := fun s => (s, Return (f s)).

Definition modify (f : fileEMD -> fileEMD) : M unit := fun s => (f s, Return tt).

Definition lift {A : Type} (o : outcome A) : M A := fun s => (s, o).

(** [print(line)] *)
Definition print (line : string) : M unit :=
  modify (fun s => set_stdout (emd_stdout s ++ [line]) s).

(** [assert b] *)
Definition assert (b : bool) : M unit :=
  if b then ret tt else raise AssertionError.

Declare Scope py_scope.
Delimit Scope py_scope with py.
Notation "x <- m ;; k" := (bind m (fun x => k))
  (at level 100, m at next level, right associativity) : py_scope.
Notation "m ;; k" := (bind m (fun _ => k))
  (at level 100, right associativity) : py_scope.
Open Scope py_scope.

(** [for x in l: body(x)] *)
Fixpoint for_each {A : Type} (l : list A) (body : A -> M unit) : M unit :=
  match l with
  | [] => ret tt
  | x :: l' => body x ;; for_each l' body
  end.

(** A [for] loop that appends to a local list. *)
Fixpoint for_collect {A B : Type} (l : list A) (acc : list B)
  (body : A -> M B) : M (list B) :=
  match l with
  | [] => ret acc
  | x :: l' => y <- body x ;; for_collect l' (acc ++ [y]) body
  end.

(** *** h5py calls on [self.file_hdl] *)

(** [parent[name]] and every other use of a handle: the object, or
    [KeyError] when nothing is linked there. *)
Definition h5_get (p : path) : M node :=
  fun s =>
    match get_node (root (file_hdl s)) p with
    | Some n => (s, Return n)
    | None => (s, Raise (KeyError (h5_name p)))
    end.

(** [obj.attrs] *)
Definition h5_attrs (p : path) : M (gmap string attr_val) :=
  n <- h5_get p ;; ret (node_attrs n).

(** [label in dataset]: a dataset has no [__contains__], so Python iterates
    over its rows and compares each with the label.  No row equals a [str],
    and the comparison with a row of two or more elements has no truth
    value. *)
Definition dataset_contains (a : ndarray) : outcome bool :=
  match shape a with
  | [] => Raise (TypeError "Can't iterate over a scalar dataset")
  | 0 :: _ => Return false
  | S _ :: rest =>
      if decide (foldr Nat.mul 1 rest ≤ 1) then Return false
      else Raise ambiguous_truth
  end.

(** [label in parent]: no object has the empty name; a name that starts
    with a slash is looked up from the root of the file. *)
Definition h5_contains (parent : path) (label : string) : M bool :=
  n <- h5_get parent ;;
  match n with
  | Group _ _ =>
      if decide (label = "") then ret false
      else
        r <- gets (fun s => root (file_hdl s)) ;;
        ret (path_valid (if is_absolute label then r else n) (path_pieces label))
  | Dataset _ a => lift (dataset_contains a)
  end.

(** A method that only a group has, called on the object [p]. *)
Definition h5_group_method (p : path) (method : string) : M unit :=
  n <- h5_get p ;;
  match n with
  | Group _ _ => ret tt
  | Dataset _ _ =>
      raise (AttributeError ("'Dataset' object has no attribute '" +:+ method +:+ "'"))
  end.

(** A change of the file: refused in mode ['r'], and when [f] refuses. *)
Definition h5_change (f : node -> option node) (p : path) (e : exn) : M unit :=
  fun s =>
    if writable (file_hdl s) then
      match alter_node f (root (file_hdl s)) p with
      | Some r => (set_file_hdl (mk_h5file true r) s, Return tt)
      | None => (s, Raise e)
      end
    else (s, Raise (OSError "file is not open for writing")).

(** [parent.create_group(label)]: the handle of the new group. *)
Definition h5_create_group (parent : path) (label : string) : M path :=
  h5_group_method parent "create_group" ;;
  h5_change (link_at (name_pieces label) (Group ∅ [])) (name_base parent label)
    (ValueError "unable to create group") ;;
  ret (name_base parent label ++ name_pieces label).

(** [parent.create_dataset(label, data=a)]: the handle of the new dataset. *)
Definition h5_create_dataset (parent : path) (label : string) (a : ndarray)
  : M path :=
  h5_group_method parent "create_dataset" ;;
  h5_change (link_at (name_pieces label) (Dataset ∅ a)) (name_base parent label)
    (ValueError "unable to create dataset") ;;
  ret (name_base parent label ++ name_pieces label).

(** [del parent[label]] *)
Definition h5_delete (parent : path) (label : string) : M unit :=
  n <- h5_get parent ;;
  match n with
  | Group _ _ =>
      h5_change (unlink_at (name_pieces label)) (name_base parent label)
        (KeyError label)
  | Dataset _ _ => raise (TypeError "'Dataset' object doesn't support item deletion")
  end.

(** [obj.attrs[k] = v] *)
Definition h5_set_attr (p : path) (k : string) (v : attr_val) : M unit :=
  h5_change (put_attr k v) p (KeyError (h5_name p)).

(** [dset[:]] and [dset.shape]: only a dataset has them, and the slice [:]
    is refused on a zero-dimensional dataset. *)
Definition dataset_value (n : node) : outcome ndarray :=
  match n with
  | Dataset _ a => Return a
  | Group _ _ => Raise (AttributeError "'Group' object is not a dataset")
  end.

Definition slice_all (a : ndarray) : outcome ndarray :=
  match shape a with
  | [] => Raise (ValueError "Illegal slicing argument for scalar dataspace")
  | _ => Return a
  end.

(** ** [class fileEMD] *)

(** The values that reach a method as positional or keyword arguments where
    the module does not fix their type. *)
Inductive pyval : Type :=
| PyNone
| PyBool (b : bool)
| PyInt (z : Z)
| PyStr (s : string)
| PyArray (a : ndarray)
| PyDim (d : dim)
| PyGroup (p : path).

(** The [group] argument of [get_emdgroup]: an [h5py.Group], an [int], or
    anything else. *)
Inductive group_arg : Type :=
| GroupHandle (p : path)
| GroupInt (i : Z)
| GroupOther.

(** The [pixel_size] argument of [defaultDims]: [None], a tuple or list, or a
    numpy array. *)
Inductive pixel_arg : Type :=
| PixelNone
| PixelSeq (l : list scalar)
| PixelArray (a : ndarray).

Definition version_warning (v : attr_val * attr_val) : string :=
  "WARNING: You are reading a version " +:+ attr_str v.1 +:+ "." +:+ attr_str v.2
  +:+ " EMD file, this implementation assumes version 0.2!".

Definition version_warning_v05 (v : attr_val * attr_val) : string :=
  "WARNING: You are reading a version " +:+ attr_str v.1 +:+ "." +:+ attr_str v.2
  +:+ " EMD file,this implementation assumes version 0.5!".

(** [fileEMD.check_version] *)
Definition check_version_fileEMD : M unit :=
  a <- h5_attrs [] ;;
  match a !! "version_major", a !! "version_minor" with
  | Some major, Some minor =>
      modify (set_version (Some (major, minor))) ;;
      same <- lift (version_is (major, minor) 0 2) ;;
      if negb same then print (version_warning (major, minor)) else ret tt
  | _, _ =>
      ro <- gets readonly ;;
      if negb ro then
        h5_set_attr [] "version_major" (AInt 0) ;;
        h5_set_attr [] "version_minor" (AInt 2)
      else ret tt
  end.

(** [fileEMD_v05.check_version] *)
Definition check_version_fileEMD_v05 : M unit :=
  a <- h5_attrs [] ;;
  match a !! "version_major", a !! "version_minor" with
  | Some major, Some minor =>
      modify (set_version (Some (major, minor))) ;;
      same <- lift (version_is (major, minor) 0 5) ;;
      if negb same then print (version_warning_v05 (major, minor)) else ret tt
  | _, _ => ret tt
  end.

(** [self.check_version()] *)
Definition check_version : M unit :=
  c <- gets self_class ;;
  match c with
  | Class_fileEMD => check_version_fileEMD
  | Class_fileEMD_v05 => check_version_fileEMD_v05
  end.

(** [fileEMD._get_dset_string] *)
Definition _get_dset_string_fileEMD (group : path) : M string := ret "data".

(** [group.name.split('/')[-2]] *)
Definition parent_name (group : path) : option string :=
  index_from_end (split_on "/" (h5_name group)) 2.

(** [fileEMD_v05._get_dset_string] *)
Definition _get_dset_string_fileEMD_v05 (group : path) : M string :=
  match parent_name group with
  | None => raise IndexError
  | Some parent_name =>
      if decide (parent_name = "datacubes") then ret "datacube"
      else if decide (parent_name = "diffractionslices") then ret "diffractionslice"
      else if decide (parent_name = "pointlistarrayss") then ret "pointlistarray"
      else if decide (parent_name = "pointlists") then ret "pointlist"
      else if decide (parent_name = "realslices") then ret "realslice"
      else raise (ValueError "dset name not supported")
  end.

(** [self._get_dset_string(group)] *)
Definition _get_dset_string (group : path) : M string :=
  c <- gets self_class ;;
  match c with
  | Class_fileEMD => _get_dset_string_fileEMD group
  | Class_fileEMD_v05 => _get_dset_string_fileEMD_v05 group
  end.

(** ['dim{}'.format(i + 1)] and ['unit{}'.format(i + 1)] *)
Definition dim_label (i : nat) : string := "dim" +:+ pretty (i + 1).
Definition unit_label (i : nat) : string := "unit" +:+ pretty (i + 1).

(** The body of the loop of [get_emddims] for axis [i]. *)
Definition get_emddim (group : path) (i : nat) : M dim :=
  d <- h5_get (group ++ [dim_label i]) ;;
  name <- lift (attr_scalar (node_attrs d) "name") ;;
  units <- lift (attr_scalar (node_attrs d) "units") ;;
  vec <- lift (dataset_value d) ;;
  vec <- lift (slice_all vec) ;;
  name <- lift (decode name) ;;
  units <- lift (decode units) ;;
  ret (vec, name, units).

(** [fileEMD.get_emddims] *)
Definition get_emddims (group : path) : M (list dim) :=
  dname <- _get_dset_string group ;;
  dset <- h5_get (group ++ [dname]) ;;
  a <- lift (dataset_value dset) ;;
  for_collect (seq 0 (length (shape a))) [] (get_emddim group).

Definition content_message (group : path) : string :=
  "Content of " +:+ quoted (h5_name group)
  +:+ " does not seem to be in emd specified shape".

Definition not_emd_group : exn := TypeError "group is not a emd_group_type group!".

(** The [try] block of [get_emdgroup].  With [memmap] the dataset itself is
    handed out; it is represented by the array it maps. *)
Definition get_emdgroup_try (group : path) (memmap : bool)
  : M (option (ndarray * list dim)) :=
  dname <- _get_dset_string group ;;
  dset <- h5_get (group ++ [dname]) ;;
  arr <- lift (dataset_value dset) ;;
  arr <- (if memmap then ret arr else lift (slice_all arr)) ;;
  dims <- get_emddims group ;;
  ret (Some (arr, dims)).

(** [get_emdgroup] from the two checks of [emd_group_type] on, [group] being
    an [h5py.Group]. *)
Definition get_emdgroup_of (group : path) (memmap : bool)
  : M (option (ndarray * list dim)) :=
  a <- h5_attrs group ;;
  match a !! "emd_group_type" with
  | None => raise not_emd_group
  | Some v =>
      is_emd <- lift (py_eq_int v 1) ;;
      if negb is_emd then raise not_emd_group
      else
        try_except (get_emdgroup_try group memmap)
          (fun _ => print (content_message group) ;; ret None)
  end.

(** [fileEMD.get_emdgroup] *)
Definition get_emdgroup (group : group_arg) (memmap : bool)
  : M (option (ndarray * list dim)) :=
  match group with
  | GroupHandle g => get_emdgroup_of g memmap
  | GroupInt i =>
      l <- gets list_emds ;;
      match py_index l i with
      | Some g => get_emdgroup_of g memmap
      | None => print "group does not exist" ;; ret None
      end
  | GroupOther => raise (TypeError "group needs to refer to a valid HDF5 group!")
  end.

(** [fileEMD.get_memmap] *)
Definition get_memmap (group : group_arg) : M (option (ndarray * list dim)) :=
  get_emdgroup group true.

(** The interpreter's error for a call with too few or too many arguments. *)
Definition write_dim_arity : exn :=
  TypeError "write_dim() got the wrong number of positional arguments".

(** [fileEMD.write_dim(self, label, dim, parent)], applied to the positional
    arguments of a call.  Binding them to the three parameters fails with
    [TypeError] unless there are exactly three. *)
Definition write_dim (args : list pyval) : M path :=
  match args with
  | [label; dim; parent] =>
      try_except
        (match label, dim, parent with
         | PyStr label, PyDim (vec, name, units), PyGroup parent =>
             dset <- h5_create_dataset parent label vec ;;
             name <- lift (np_string_ name) ;;
             h5_set_attr dset "name" (ABytes name) ;;
             units <- lift (np_string_ units) ;;
             h5_set_attr dset "units" (ABytes units) ;;
             ret dset
         | _, _, _ => raise (TypeError "bad argument type")
         end)
        (fun _ => raise (RuntimeError "Error during writing dim dataset"))
  | _ => raise write_dim_arity
  end.

(** The first [try] block of [put_emdgroup]: the three assertions on [dims].
    [len(dims[i]) == 3] holds by the type of [dim]. *)
Definition check_dims (data : ndarray) (dims : list dim) : M unit :=
  assert (bool_decide (length dims = length (shape data))) ;;
  for_each (seq 0 (length dims)) (fun i =>
    d <- lift (list_getitem dims i) ;;
    n <- lift (list_getitem (shape d.1.1) 0) ;;
    m <- lift (list_getitem (shape data) i) ;;
    assert (bool_decide (n = m))).

Definition overwriting_message (label : string) (target : path) : string :=
  "overwriting " +:+ quoted label +:+ " in " +:+ quoted (h5_name target).

Definition exists_message (label : string) (target : path) : string :=
  quoted label +:+ " already exists in " +:+ quoted (h5_name target).

Definition write_failed_message : string :=
  "Something went wrong trying to write the dataset.".

(** The second [try] block of [put_emdgroup] from [create_group] on, [target]
    being [parent] or [self.data]. *)
Definition put_emdgroup_create (target : path) (label : string)
  (data_arr : ndarray) (dims : list dim) : M (option path) :=
  grp <- h5_create_group target label ;;
  h5_set_attr grp "emd_group_type" (AInt 1) ;;
  _ <- h5_create_dataset grp "data" data_arr ;;
  for_each (seq 0 (length dims)) (fun i =>
    d <- lift (list_getitem dims i) ;;
    _ <- write_dim [PyDim d; PyGroup grp] ;;
    ret tt) ;;
  r <- gets (fun s => root (file_hdl s)) ;;
  l <- lift (find_emdgroups r []) ;;
  modify (set_list_emds l) ;;
  ret (Some grp).

(** Where [put_emdgroup] writes: [parent] if given, else [self.data]. *)
Definition put_target (parent : option path) : M path :=
  match parent with
  | Some p => ret p
  | None =>
      d <- gets data ;;
      match d with
      | Some p => ret p
      | None => raise (TypeError "argument of type 'NoneType' is not iterable")
      end
  end.

(** The second [try] block of [put_emdgroup].  The source writes the
    occupied-label test twice, for [parent] and for [self.data]; [target] is
    the one that applies. *)
Definition put_emdgroup_body (label : string) (data_arr : ndarray)
  (dims : list dim) (parent : option path) (overwrite : bool) : M (option path) :=
  target <- put_target parent ;;
  occupied <- h5_contains target label ;;
  (if occupied then
     if overwrite then
       print (overwriting_message label target) ;;
       h5_delete target label
     else
       print (exists_message label target) ;;
       raise (RuntimeError (exists_message label target))
   else ret tt) ;;
  put_emdgroup_create target label data_arr dims.

Definition dims_error : exn := TypeError "Something wrong with the provided dims".

(** [fileEMD.put_emdgroup] once [label] is known to be a [str] and [data] an
    [ndarray]: the two [try] blocks. *)
Definition put_emdgroup_checked (label : string) (data_arr : ndarray)
  (dims : list dim) (parent : option path) (overwrite : bool) : M (option path) :=
  try_except (check_dims data_arr dims) (fun _ => raise dims_error) ;;
  try_except (put_emdgroup_body label data_arr dims parent overwrite)
    (fun _ => print write_failed_message ;; ret None).

(** [fileEMD.put_emdgroup]; [**kwargs] only tunes the storage of the
    dataset. *)
Definition put_emdgroup (label data : pyval) (dims : list dim)
  (parent : option path) (overwrite : bool) : M (option path) :=
  match label with
  | PyStr label =>
      match data with
      | PyArray data_arr => put_emdgroup_checked label data_arr dims parent overwrite
      | _ => raise (TypeError "data needs to be a numpy.ndarray!")
      end
  | _ => raise (TypeError "label needs to be string!")
  end.

(** The key [put_comment] files a message under: [timestamp] when it is
    given and not empty, else the clock reading [utcnow], already formatted. *)
Definition comment_key (timestamp : option string) (utcnow : string) : string :=
  match timestamp with
  | None => utcnow
  | Some t => if decide (t = "") then utcnow else t
  end.

(** [fileEMD.put_comment].  The sum that [+=] stores is a Python [bytes],
    where the first message is stored as a numpy byte string. *)
Definition put_comment (msg : pyval) (timestamp : option string)
  (utcnow : string) : M unit :=
  match msg with
  | PyStr msg =>
      let timestamp := comment_key timestamp utcnow in
      c <- gets comments ;;
      match c with
      | None => raise (AttributeError "'NoneType' object has no attribute 'attrs'")
      | Some cg =>
          a <- h5_attrs cg ;;
          match a !! timestamp with
          | Some old =>
              b <- lift (np_string_ (nl +:+ msg)) ;;
              new <- lift (bytes_add old b) ;;
              v <- lift (vlen_of_bytes new) ;;
              h5_set_attr cg timestamp v
          | None =>
              b <- lift (np_string_ msg) ;;
              h5_set_attr cg timestamp (ABytes b)
          end
      end
  | _ => raise (TypeError "msg needs to be a string!")
  end.

(** [h5py.File(filename, 'r')] and [h5py.File(filename, 'a')]; [disk] is what
    is stored under [filename], if anything. *)
Definition h5py_File (disk : option node) (append : bool) : outcome h5file :=
  match disk with
  | Some r => Return (mk_h5file append r)
  | None =>
      if append then Return (mk_h5file true (Group ∅ []))
      else Raise (OSError "unable to open file")
  end.

(** One of the five blocks of [__init__] that look for a root group. *)
Definition init_group (name : string)
  (set_field : option path -> fileEMD -> fileEMD) : M unit :=
  present <- h5_contains [] name ;;
  if negb present then
    ro <- gets readonly ;;
    if negb ro then
      g <- h5_create_group [] name ;;
      modify (set_field (Some g))
    else ret tt
  else modify (set_field (Some [name])).

(** [fileEMD.__init__] once the file is open. *)
Definition init_opened : M unit :=
  check_version ;;
  init_group "data" set_data ;;
  init_group "microscope" set_microscope ;;
  init_group "sample" set_sample ;;
  init_group "user" set_user ;;
  init_group "comments" set_comments ;;
  r <- gets (fun s => root (file_hdl s)) ;;
  l <- lift (find_emdgroups r []) ;;
  modify (set_list_emds l).

Definition filename_text (f : filename_arg) : option string :=
  match f with
  | FnStr s => Some s
  | FnPath s => Some s
  | FnOther => None
  end.

(** [fileEMD.__init__(self, filename, readonly)] for an object of class [c]:
    the lines printed, and the object or the exception. *)
Definition __init__ (c : emd_class) (disk : option node)
  (fname : filename_arg) (ro : bool) : list string * outcome fileEMD :=
  match filename_text fname with
  | None => ([], Raise (TypeError "Filename is supposed to be a string or pathlib.Path"))
  | Some f =>
      match h5py_File disk (negb ro) with
      | Raise e =>
          ([(if ro then "Error opening file for readonly: "
             else "Error opening file for read/write: ") +:+ quoted f], Raise e)
      | Return h =>
          let self := mk_fileEMD c fname ro h None None None None None None [] [] in
          match init_opened self with
          | (s, Return _) => (emd_stdout s, Return s)
          | (s, Raise e) => (emd_stdout s, Raise e)
          end
      end
  end.

(** ** [class fileEMD_v05(fileEMD)] *)

(** [fileEMD_v05.__init__(self, filename, *args, **kwargs)] *)
Definition fileEMD_v05__init__ (disk : option node) (fname : filename_arg)
  (args : list pyval) (kwargs : list (string * pyval))
  : list string * outcome fileEMD :=
  __init__ Class_fileEMD_v05 disk fname true.

(** ** [defaultDims] *)

(** [np.linspace(0, n - 1, n) * px] *)
Definition linspace_times (n : nat) (px : scalar) : ndarray :=
  mk_ndarray [n] (map (fun k => fmul (of_index k) px) (seq 0 n)).

(** The loop of [defaultDims] over [range(num)]. *)
Fixpoint defaultDims_loop (data_arr : ndarray) (pixel_size : list scalar)
  (range : list nat) (dims : list dim) : outcome (list dim) :=
  match range with
  | [] => Return dims
  | ii :: range' =>
      match shape data_arr !! ii, pixel_size !! ii with
      | Some n, Some px =>
          defaultDims_loop data_arr pixel_size range'
            (dims ++ [(linspace_times n px, dim_label ii, unit_label ii)])
      | _, _ => Raise IndexError
      end
  end.

Definition defaultDims (data_arr : ndarray) (pixel_size : pixel_arg)
  : outcome (list dim) :=
  match pixel_size with
  | PixelArray _ => Raise (Exception "pixel_size must be a tuple")
  | _ =>
      let num := ndim data_arr in
      let pixel_size :=
        match pixel_size with
        | PixelSeq (x :: l) => x :: l
        | _ => replicate num one
        end in
      if negb (bool_decide (length pixel_size = ndim data_arr))
      then Raise (ValueError "pixel_size and data dimensions must match")
      else defaultDims_loop data_arr pixel_size (seq 0 num) []
  end.

(** ** [emdReader] *)

(** The subtraction of numpy scalars, which [emdReader] uses for the pixel
    sizes. *)
Variable fsub : scalar -> scalar -> scalar.

(** [a[i]] on a numpy array: the [i]-th slice along the first axis. *)
Definition np_index0 (a : ndarray) (i : nat) : outcome ndarray :=
  match shape a with
  | [] => Raise IndexError
  | n :: rest =>
      if decide (i < n) then
        let stride := foldr Nat.mul 1 rest in
        Return (mk_ndarray rest (take stride (drop (i * stride) (elems a))))
      else Raise IndexError
  end.

(** [x - y] on numpy arrays of one shape. *)
Definition np_sub (x y : ndarray) : ndarray :=
  mk_ndarray (shape x) (zip_with fsub (elems x) (elems y)).

(** An entry of [out['pixelSize']]: a numpy value, or the [int] 0 that the
    [except] branch puts there. *)
Inductive pixel_entry : Type :=
| PixelDiff (a : ndarray)
| PixelZero.

(** [try: d = dim[0][1] - dim[0][0]  except: d = 0] *)
Definition pixel_size_of (d : dim) : pixel_entry :=
  match np_index0 d.1.1 1 with
  | Raise _ => PixelZero
  | Return x1 =>
      match np_index0 d.1.1 0 with
      | Raise _ => PixelZero
      | Return x0 => PixelDiff (np_sub x1 x0)
      end
  end.

(** The dictionary [emdReader] returns. *)
Record reader_out : Type := mk_reader_out {
  out_data : ndarray;
  out_filename : filename_arg;
  out_pixelSize : list pixel_entry;
  out_pixelUnit : list string;
  out_pixelName : list string
}.

(** The version [emdReader] makes out from the root [f0] of the file. *)
Definition emdReader_version (f0 : node) : outcome (attr_val * attr_val) :=
  match node_attrs f0 !! "version_major", node_attrs f0 !! "version_minor" with
  | Some major, Some minor => Return (major, minor)
  | _, _ =>
      match f0 with
      | Group _ cs =>
          if bool_decide (is_Some (child "4DSTEM_simulation" cs))
             || bool_decide (is_Some (child "4DSTEM_experiment" cs))
          then
            match cs with
            | (root_name, n) :: _ =>
                match attr_getitem (node_attrs n) "version_major" with
                | Raise e => Raise e
                | Return major =>
                    match attr_getitem (node_attrs n) "version_minor" with
                    | Raise e => Raise e
                    | Return minor => Return (major, minor)
                    end
                end
            | [] => Raise IndexError
            end
          else Return (AInt 0, AInt 2)
      | Dataset _ _ => Raise (TypeError "argument of type 'Dataset' is not iterable")
      end
  end.

(** [fileEMD_v05 if version == (0, 5) else fileEMD] *)
Definition emdReader_class (version : attr_val * attr_val) : outcome emd_class :=
  match version_is version 0 5 with
  | Raise e => Raise e
  | Return true => Return Class_fileEMD_v05
  | Return false => Return Class_fileEMD
  end.

Definition unpack_error : exn :=
  TypeError "cannot unpack non-iterable NoneType object".

(** The body of the second [with] block of [emdReader]; [repr] is the text
    [print(emd0)] writes, which holds the address of the object. *)
Definition emdReader_body (fname : filename_arg) (dsetNum : Z) (repr : string)
  : M reader_out :=
  print repr ;;
  r <- get_emdgroup (GroupInt dsetNum) false ;;
  match r with
  | None => raise unpack_error
  | Some (d, dims) =>
      ret (mk_reader_out d fname (map pixel_size_of dims)
             (map (fun aa => aa.2) dims) (map (fun aa => aa.1.2) dims))
  end.

(** [emdReader(filename, dsetNum)]: the lines printed, and the dictionary or
    the exception.  [disk] is what is stored under [filename], if anything.
    Both [with] blocks close the file on every way out, which the result
    does not depend on. *)
Definition emdReader (disk : option node) (fname : filename_arg) (dsetNum : Z)
  (repr : string) : list string * outcome reader_out :=
  match h5py_File disk false with
  | Raise e => ([], Raise e)
  | Return f0 =>
      match emdReader_version (root f0) with
      | Raise e => ([], Raise e)
      | Return version =>
          match emdReader_class version with
          | Raise e => ([], Raise e)
          | Return c =>
              match
                match c with
                | Class_fileEMD_v05 =>
                    fileEMD_v05__init__ disk fname [] [("readonly", PyBool true)]
                | Class_fileEMD => __init__ Class_fileEMD disk fname true
                end
              with
              | (out, Raise e) => (out, Raise e)
              | (_, Return emd0) =>
                  let (s, o) := emdReader_body fname dsetNum repr emd0 in
                  (emd_stdout s, o)
              end
          end
      end
  end.

(** ** Notions the properties are stated with *)

(** Link names are unique within every group of the tree, as HDF5 has it. *)
Fixpoint wf_node (n : node) : bool :=
  match n with
  | Group _ cs =>
      bool_decide (NoDup cs.*1) && forallb (fun kc => wf_node kc.2) cs
  | Dataset _ _ => true
  end.

(** The attribute table carries [emd_group_type] with the value 1: the test
    of [proc_group] and of [get_emdgroup] comes out true. *)
Definition has_emd_type (a : gmap string attr_val) : bool :=
  match emd_type_test a with
  | Return b => b
  | Raise _ => false
  end.

(** The test of [emd_group_type] has a truth value on every group strictly
    below [n]: no such group carries the attribute as an array of two or
    more elements. *)
Fixpoint types_comparable (n : node) : bool :=
  match n with
  | Group _ cs =>
      forallb (fun kc => match kc.2 with
                         | Group a _ =>
                             is_return (emd_type_test a) && types_comparable kc.2
                         | Dataset _ _ => true
                         end) cs
  | Dataset _ _ => true
  end.

(** The groups strictly below [n] in depth-first pre-order: a group comes
    before the groups below it, siblings come in enumeration order.  Each is
    given by its handle relative to [n] and its attributes. *)
Fixpoint groups_below (n : node) : list (path * gmap string attr_val) :=
  match n with
  | Group _ cs =>
      (fix go (cs : list (string * node)) : list (path * gmap string attr_val) :=
         match cs with
         | [] => []
         | (k, c) :: rest =>
             match c with
             | Group a _ =>
                 ([k], a) :: map (fun qa => (k :: qa.1, qa.2)) (groups_below c)
                   ++ go rest
             | Dataset _ _ => go rest
             end
         end) cs
  | Dataset _ _ => []
  end.

(** The handles of the EMD-typed groups among [groups_below n]. *)
Definition emd_groups_below (n : node) : list path :=
  (filter (fun qa => has_emd_type qa.2 = true) (groups_below n)).*1.

(** [x] occurs in [l] at an earlier position than [y]. *)
Definition before {A : Type} (x y : A) (l : list A) : Prop :=
  ∃ l1 l2 l3, l = l1 ++ x :: l2 ++ y :: l3.

(** [p] is the handle of a group of the tree [r] that carries
    [emd_group_type] equal to 1. *)
Definition is_emd_group (r : node) (p : path) : Prop :=
  ∃ a cs, get_node r p = Some (Group a cs) ∧ has_emd_type a = true.

(** The loop of [proc_group] over the items of a group, on its own. *)
Definition proc_items (here : path)
  : list (string * node) -> list path -> outcome (list path) :=
  fix each (items : list (string * node)) (emds : list path)
    : outcome (list path) :=
    match items with
    | [] => Return emds
    | (name, item) :: rest =>
        match item with
        | Group item_attrs _ =>
            match emd_type_test item_attrs with
            | Raise e => Raise e
            | Return found =>
                match proc_group item (here ++ [name])
                        (if found then emds ++ [here ++ [name]] else emds)
                with
                | Raise e => Raise e
                | Return emds => each rest emds
                end
            end
        | Dataset _ _ => each rest emds
        end
    end.

(** [groups_below] for the members of a link table. *)
Definition groups_in
  : list (string * node) -> list (path * gmap string attr_val) :=
  fix go (cs : list (string * node)) : list (path * gmap string attr_val) :=
    match cs with
    | [] => []
    | (k, c) :: rest =>
        match c with
        | Group a _ =>
            ([k], a) :: map (fun qa => (k :: qa.1, qa.2)) (groups_below c)
              ++ go rest
        | Dataset _ _ => go rest
        end
    end.

Definition emd_groups_in (cs : list (string * node)) : list path :=
  (filter (fun qa => has_emd_type qa.2 = true) (groups_in cs)).*1.

(** [types_comparable] for the members of a link table. *)
Definition comparable_in (cs : list (string * node)) : bool :=
  forallb (fun kc => match kc.2 with
                     | Group a _ =>
                         is_return (emd_type_test a) && types_comparable kc.2
                     | Dataset _ _ => true
                     end) cs.

(** [len(dims[i][0])], the length of a dim vector along its first axis; a
    zero-dimensional array has none. *)
Definition vec_len (d : dim) : option nat := shape d.1.1 !! 0.

(** [len(dims) != data.ndim], or [len] of some dim vector differs from the
    extent of its axis. *)
Definition dims_mismatch (data_arr : ndarray) (dims : list dim) : Prop :=
  length dims ≠ ndim data_arr
  ∨ ∃ i d, dims !! i = Some d ∧ vec_len d ≠ shape data_arr !! i.

(** One dim vector per axis, each as long as its axis. *)
Definition dims_consistent (data_arr : ndarray) (dims : list dim) : Prop :=
  length dims = ndim data_arr
  ∧ ∀ i d, dims !! i = Some d → vec_len d = shape data_arr !! i.

(** A method body that leaves the object, the file and the output alone. *)
Definition unchanged {A : Type} (m : M A) : Prop := ∀ s, (m s).1 = s.

(** A link name holds no ['/']. *)
Fixpoint slash_free (s : string) : bool :=
  match s with
  | EmptyString => true
  | String a s' => negb (Ascii.eqb a "/") && slash_free s'
  end.

(** A name that is one link name as it stands: not empty, not ["."], and
    holding neither a slash nor a NUL. *)
Definition link_name (s : string) : bool :=
  negb (String.eqb s "") && negb (String.eqb s ".") && slash_free s && no_nul s.

(** A name that is an attribute name as it stands: not empty, no NUL. *)
Definition attr_name (s : string) : bool := negb (String.eqb s "") && no_nul s.

(** The parent names the 0.5 layout gives a dataset name for. *)
Definition v05_parents : list string :=
  ["datacubes"; "diffractionslices"; "pointlistarrayss"; "pointlists"; "realslices"].

(** The dim triple of axis [i] (counted from 0) of extent [n] with pixel size
    [px]: the values [0 * px, 1 * px, ..., (n - 1) * px] and the names
    [dim{i+1}] and [unit{i+1}]. *)
Definition default_dim (i n : nat) (px : scalar) : dim :=
  (mk_ndarray [n] (map (fun k => fmul (of_index k) px) (seq 0 n)),
   "dim" +:+ pretty (i + 1), "unit" +:+ pretty (i + 1)).

(** The attributes of the root of the open file. *)
Definition root_attrs (s : fileEMD) : gmap string attr_val :=
  node_attrs (root (file_hdl s)).

(** The file was opened in the mode [self.readonly] asks for, as [__init__]
    does. *)
Definition mode_consistent (s : fileEMD) : Prop :=
  writable (file_hdl s) = negb (readonly s).

(** The minor version a class is written for, and its warning. *)
Definition expected_minor (c : emd_class) : Z :=
  match c with Class_fileEMD => 2 | Class_fileEMD_v05 => 5 end.

Definition warning_of (c : emd_class) (v : attr_val * attr_val) : string :=
  match c with
  | Class_fileEMD => version_warning v
  | Class_fileEMD_v05 => version_warning_v05 v
  end.

(** The version the root attributes [a] give, if both are there. *)
Definition version_read (a : gmap string attr_val) : option (attr_val * attr_val) :=
  match a !! "version_major", a !! "version_minor" with
  | Some major, Some minor => Some (major, minor)
  | _, _ => None
  end.

(** The comparison of the stored version, if there is one, with the version
    of class [c] has a truth value. *)
Definition version_comparable (c : emd_class) (a : gmap string attr_val) : bool :=
  match version_read a with
  | Some v => is_return (version_is v 0 (expected_minor c))
  | None => true
  end.

(** A method body that, on a read-only object, keeps it read-only and
    leaves the open file as it is. *)
Definition keeps_file {A : Type} (m : M A) : Prop :=
  ∀ s, readonly s = true →
       readonly (m s).1 = true ∧ file_hdl (m s).1 = file_hdl s.

(** The handle [put_emdgroup] writes under, if there is one. *)
Definition target_of (s : fileEMD) (parent : option path) : option path :=
  match parent with
  | Some p => Some p
  | None => data s
  end.

(** The group [put_emdgroup] makes for an array, before any dim is written. *)
Definition new_emd_group (data_arr : ndarray) : node :=
  Group {[ "emd_group_type" := AInt 1 ]} [("data", Dataset ∅ data_arr)].

(** ** Text and names *)

Lemma string_forall_weaken (P Q : ascii → bool) s :
  (∀ c, P c = true → Q c = true) →
  string_forall P s = true → string_forall Q s = true.
Proof.
  intros HPQ. induction s as [| c s IH]; [done |]. cbn [string_forall].
  rewrite !andb_true_iff. intros [Hc Hs]. split; [by apply HPQ | by apply IH].
Qed.

Lemma string_forall_app (P : ascii → bool) s t :
  string_forall P (s +:+ t) = string_forall P s && string_forall P t.
Proof.
  induction s as [| c s IH]; [done |].
  change (String c s +:+ t) with (String c (s +:+ t)). cbn [string_forall].
  by rewrite IH, andb_assoc.
Qed.

Lemma byte_between_weaken lo hi lo' hi' c :
  (lo' ≤ lo)%N → (hi ≤ hi')%N →
  byte_between lo hi c = true → byte_between lo' hi' c = true.
Proof.
  unfold byte_between. rewrite !andb_true_iff, !N.leb_le. lia.
Qed.

Lemma plain_text_is_ascii s : plain_text s = true → is_ascii s = true.
Proof. apply string_forall_weaken. intros c. by apply byte_between_weaken. Qed.

Lemma plain_text_no_nul s : plain_text s = true → no_nul s = true.
Proof. apply string_forall_weaken. intros c. by apply byte_between_weaken. Qed.

Lemma is_ascii_utf8_valid s : is_ascii s = true → utf8_valid s = true.
Proof.
  induction s as [| c s IH]; [done |]. unfold is_ascii. cbn [string_forall].
  rewrite andb_true_iff. intros [Hc Hs]. cbn [utf8_valid]. rewrite Hc.
  by apply IH.
Qed.

Lemma plain_text_utf8_valid s : plain_text s = true → utf8_valid s = true.
Proof. intros H. by apply is_ascii_utf8_valid, plain_text_is_ascii. Qed.

Lemma rstrip_nul_no_nul s : no_nul s = true → rstrip_nul s = s.
Proof.
  induction s as [| c s IH]; [done |]. unfold no_nul. cbn [string_forall].
  rewrite andb_true_iff. intros [Hc Hs]. cbn [rstrip_nul]. rewrite (IH Hs).
  destruct s as [| c' s']; [| done].
  assert (Hz : byte_between 0 0 c = false); [| by rewrite Hz].
  unfold byte_between in *. apply andb_true_iff in Hc as [Hc _].
  apply N.leb_le in Hc. apply andb_false_iff. right. apply N.leb_gt. lia.
Qed.

(** [np.string_] of plain text is the text. *)
Lemma np_string_plain s : plain_text s = true → np_string_ s = Return s.
Proof.
  intros H. unfold np_string_. rewrite (plain_text_is_ascii s H).
  by rewrite (rstrip_nul_no_nul s (plain_text_no_nul s H)).
Qed.

Lemma np_string_not_ascii s : is_ascii s = false → np_string_ s = Raise UnicodeEncodeError.
Proof. intros H. unfold np_string_. by rewrite H. Qed.

Lemma plain_text_nl : plain_text nl = true.
Proof. reflexivity. Qed.

Lemma plain_text_app s t :
  plain_text (s +:+ t) = plain_text s && plain_text t.
Proof. apply string_forall_app. Qed.

Lemma no_nul_app s t : no_nul (s +:+ t) = no_nul s && no_nul t.
Proof. apply string_forall_app. Qed.

Lemma decode_utf8 s : utf8_valid s = true → decode (ABytes s) = Return s.
Proof. intros H. cbn. by rewrite H. Qed.

Lemma split_on_slash_free_one s : slash_free s = true → split_on "/" s = [s].
Proof.
  induction s as [| c s IH]; [done |]. cbn [slash_free split_on].
  rewrite andb_true_iff. intros [Hc Hs]. apply negb_true_iff in Hc.
  by rewrite Hc, (IH Hs).
Qed.

Lemma link_name_inv s :
  link_name s = true → s ≠ "" ∧ s ≠ "." ∧ slash_free s = true ∧ no_nul s = true.
Proof.
  unfold link_name. rewrite !andb_true_iff, !negb_true_iff.
  intros [[[H1 H2] H3] H4]. repeat split; [| | done | done].
  - intros ->. done.
  - intros ->. done.
Qed.

Lemma path_pieces_link_name s : link_name s = true → path_pieces s = [s].
Proof.
  intros H. apply link_name_inv in H as (Hne & _ & Hs & _).
  unfold path_pieces. rewrite (split_on_slash_free_one s Hs).
  rewrite filter_cons, decide_True by done. done.
Qed.

Lemma name_pieces_link_name s : link_name s = true → name_pieces s = [s].
Proof.
  intros H. unfold name_pieces. rewrite (path_pieces_link_name s H).
  apply link_name_inv in H as (_ & Hdot & _).
  rewrite filter_cons, decide_True by done. done.
Qed.

Lemma is_absolute_link_name s : link_name s = true → is_absolute s = false.
Proof.
  intros H. apply link_name_inv in H as (_ & _ & Hs & _).
  destruct s as [| c s]; [done |]. cbn in *.
  apply andb_true_iff in Hs as [Hc _]. by apply negb_true_iff in Hc.
Qed.

Lemma name_base_link_name here s : link_name s = true → name_base here s = here.
Proof. intros H. unfold name_base. by rewrite (is_absolute_link_name s H). Qed.

(** ** Trees: induction and link tables *)

(** Induction on a tree with the hypothesis available for every member. *)
Lemma node_ind_children (P : node -> Prop) :
  (∀ a cs, Forall (fun kc => P kc.2) cs → P (Group a cs)) →
  (∀ a d, P (Dataset a d)) →
  ∀ n, P n.
Proof.
  intros HG HD. fix IH 1. intros [a cs | a d]; [| apply HD].
  apply HG. induction cs as [| [k c] cs IHcs]; constructor.
  - apply IH.
  - exact IHcs.
Qed.

Lemma wf_node_group a cs :
  wf_node (Group a cs) = true ↔
  NoDup cs.*1 ∧ Forall (fun kc => wf_node kc.2 = true) cs.
Proof.
  simpl. rewrite andb_true_iff, bool_decide_eq_true, forallb_forall, Forall_forall.
  split; intros [H1 H2]; split; auto; intros x Hx; apply H2;
    [ by apply list_elem_of_In | by apply list_elem_of_In ].
Qed.

Lemma child_Some_elem_of {A : Type} k (x : A) l :
  child k l = Some x → (k, x) ∈ l.
Proof.
  induction l as [| [k' y] l IH]; simpl; [done |].
  destruct (decide (k = k')) as [-> | Hne].
  - intros [= ->]. left.
  - intros H. right. by apply IH.
Qed.

Lemma child_None {A : Type} k (l : list (string * A)) :
  child k l = None ↔ k ∉ l.*1.
Proof.
  induction l as [| [k' y] l IH]; simpl.
  - split; [intros _; apply not_elem_of_nil | done].
  - destruct (decide (k = k')) as [-> | Hne].
    + split; [done | intros H; exfalso; apply H; left].
    + rewrite IH, not_elem_of_cons. split; [intros H; by split | by intros [_ H]].
Qed.

Lemma elem_of_child {A : Type} k (x : A) l :
  NoDup l.*1 → (k, x) ∈ l → child k l = Some x.
Proof.
  induction l as [| [k' y] l IH]; simpl; intros Hnd Hin.
  - by apply elem_of_nil in Hin.
  - apply NoDup_cons in Hnd as [Hk' Hnd].
    apply elem_of_cons in Hin as [[= -> ->] | Hin].
    + by rewrite decide_True.
    + destruct (decide (k = k')) as [-> | Hne]; [| by apply IH].
      exfalso. apply Hk'. apply list_elem_of_fmap. by exists (k', x).
Qed.

(** The new member of a link table is found under its name, and the other
    names resolve as before. *)
Lemma child_insert_child {A : Type} k (x : A) l :
  child k l = None → child k (insert_child k x l) = Some x.
Proof.
  induction l as [| [k' y] l IH]; cbn [insert_child child].
  - intros _. by rewrite decide_True.
  - destruct (decide (k = k')) as [-> | Hne]; [done |]. intros H.
    destruct (String.ltb k k'); cbn [child].
    + by rewrite decide_True.
    + rewrite decide_False by done. by apply IH.
Qed.

Lemma child_insert_child_ne {A : Type} k k' (x : A) l :
  k' ≠ k → child k' (insert_child k x l) = child k' l.
Proof.
  intros Hne. induction l as [| [k0 y] l IH]; cbn [insert_child child].
  - by rewrite decide_False.
  - destruct (String.ltb k k0); cbn [child].
    + by rewrite (decide_False (P := k' = k)) by done.
    + destruct (decide (k' = k0)); [done | apply IH].
Qed.

Lemma insert_child_perm {A : Type} k (x : A) l :
  insert_child k x l ≡ₚ (k, x) :: l.
Proof.
  induction l as [| [k' y] l IH]; [done |]. cbn [insert_child].
  destruct (String.ltb k k'); [done |]. rewrite IH. apply Permutation_swap.
Qed.

Lemma insert_child_Forall {A : Type} (P : string * A → Prop) k (x : A) l :
  Forall P l → P (k, x) → Forall P (insert_child k x l).
Proof.
  intros Hl Hx. rewrite (insert_child_perm k x l). by apply Forall_cons.
Qed.

Lemma insert_child_NoDup {A : Type} k (x : A) l :
  child k l = None → NoDup l.*1 → NoDup (insert_child k x l).*1.
Proof.
  intros Hk Hnd. rewrite (insert_child_perm k x l). cbn. apply NoDup_cons.
  split; [by apply child_None | done].
Qed.

Lemma set_child_insert_child {A : Type} k (x y : A) l :
  child k l = None → set_child k y (insert_child k x l) = insert_child k y l.
Proof.
  induction l as [| [k' z] l IH]; cbn [insert_child set_child child].
  - intros _. by rewrite decide_True.
  - destruct (decide (k = k')) as [-> | Hne]; [done |]. intros H.
    destruct (String.ltb k k'); cbn [set_child].
    + by rewrite decide_True.
    + rewrite decide_False by done. by rewrite IH.
Qed.

(** ** Discovery *)

Lemma proc_group_items a items here emds :
  proc_group (Group a items) here emds = proc_items here items emds.
Proof. reflexivity. Qed.

Lemma groups_below_group a cs : groups_below (Group a cs) = groups_in cs.
Proof. reflexivity. Qed.

Lemma emd_groups_below_group a cs :
  emd_groups_below (Group a cs) = emd_groups_in cs.
Proof. reflexivity. Qed.

Lemma types_comparable_group a cs :
  types_comparable (Group a cs) = comparable_in cs.
Proof. reflexivity. Qed.

Lemma emd_groups_in_cons_group k a cs rest :
  emd_groups_in ((k, Group a cs) :: rest) =
  (if has_emd_type a then [[k]] else [])
    ++ map (cons k) (emd_groups_below (Group a cs)) ++ emd_groups_in rest.
Proof.
  unfold emd_groups_in, emd_groups_below. cbn [groups_in].
  fold (groups_in rest). fold (groups_below (Group a cs)).
  rewrite filter_cons. cbn [snd].
  assert (Hmap : ∀ l : list (path * gmap string attr_val),
    (filter (fun qa => has_emd_type qa.2 = true)
       (map (fun qa => (k :: qa.1, qa.2)) l)).*1
    = map (cons k) (filter (fun qa => has_emd_type qa.2 = true) l).*1).
  { induction l as [| [q b] l IHl]; [done |].
    cbn [map]. rewrite !filter_cons. cbn [snd fst].
    destruct (decide (has_emd_type b = true)); cbn; by rewrite IHl. }
  destruct (decide (has_emd_type a = true)) as [Ha | Ha].
  - rewrite Ha. cbn [fmap list_fmap app]. f_equal.
    rewrite filter_app, fmap_app. by rewrite Hmap.
  - apply not_true_is_false in Ha. rewrite Ha. cbn [app].
    rewrite filter_app, fmap_app. by rewrite Hmap.
Qed.

Lemma emd_groups_in_cons_dataset k a d rest :
  emd_groups_in ((k, Dataset a d) :: rest) = emd_groups_in rest.
Proof. reflexivity. Qed.

(** The comparison with 1 raises nothing but the error of an ambiguous
    truth value, and whether it raises does not depend on the number. *)
Lemma array_truth_raise l e : array_truth l = Raise e → e = ambiguous_truth.
Proof. destruct l as [| b [| b' l]]; [done | done |]. by intros [= <-]. Qed.

Lemma py_eq_int_raise v z e : py_eq_int v z = Raise e → e = ambiguous_truth.
Proof. destruct v; cbn; try done; apply array_truth_raise. Qed.

Lemma array_truth_is_return_length l :
  is_return (array_truth l) = bool_decide (length l ≤ 1).
Proof.
  destruct l as [| b [| b' l]]; cbn; [done | done |].
  symmetry. apply bool_decide_eq_false. lia.
Qed.

Lemma py_eq_int_is_return v z z' :
  is_return (py_eq_int v z) = is_return (py_eq_int v z').
Proof.
  destruct v; cbn; try done;
    by rewrite !array_truth_is_return_length, !length_map.
Qed.

Lemma emd_type_test_raise a e : emd_type_test a = Raise e → e = ambiguous_truth.
Proof.
  unfold emd_type_test. destruct (a !! "emd_group_type"); [| done].
  apply py_eq_int_raise.
Qed.

Lemma emd_type_test_array a l :
  a !! "emd_group_type" = Some (AIntArr l) → 2 ≤ length l →
  emd_type_test a = Raise ambiguous_truth.
Proof.
  intros Ha Hl. unfold emd_type_test. rewrite Ha. cbn.
  destruct l as [| z [| z' l]]; cbn in *; [lia | lia | done].
Qed.

Lemma has_emd_type_test a : has_emd_type a = true ↔ emd_type_test a = Return true.
Proof.
  unfold has_emd_type. destruct (emd_type_test a) as [[|] | e]; split; congruence.
Qed.

(** [proc_group] on a group appends to [emds] the EMD groups below it, in
    pre-order, each handle prefixed by the handle of the group, unless the
    test has no truth value on one of the groups below. *)
Lemma proc_group_spec n :
  match n with
  | Group a cs =>
      ∀ here emds,
        proc_group n here emds
        = if types_comparable n
          then Return (emds ++ map (app here) (emd_groups_below n))
          else Raise ambiguous_truth
  | Dataset _ _ => True
  end.
Proof.
  induction n as [a cs IH | a d] using node_ind_children; [| done].
  intros here emds.
  rewrite proc_group_items, emd_groups_below_group, types_comparable_group.
  revert emds. induction cs as [| [k c] cs IHcs]; intros emds.
  - simpl. by rewrite app_nil_r.
  - apply Forall_cons in IH as [IHc IH]. specialize (IHcs IH).
    destruct c as [a' cs' | a' d'].
    + rewrite emd_groups_in_cons_group. cbn [proc_items comparable_in forallb snd].
      fold (proc_items here). fold (comparable_in cs).
      unfold has_emd_type.
      destruct (emd_type_test a') as [found | e] eqn:Htest.
      2: { by rewrite (emd_type_test_raise a' e Htest). }
      cbn [is_return andb]. cbn [snd] in IHc. rewrite IHc.
      destruct (types_comparable (Group a' cs')); [| done]. cbn [andb].
      rewrite IHcs. destruct (comparable_in cs); [| done]. f_equal.
      assert (Hpre : map (app (here ++ [k])) (emd_groups_below (Group a' cs'))
                     = map (app here) (map (cons k) (emd_groups_below (Group a' cs')))).
      { rewrite map_map. apply map_ext. intros q. by rewrite <- app_assoc. }
      rewrite Hpre, !map_app.
      destruct found; cbn [map app]; by rewrite <- !app_assoc.
    + rewrite emd_groups_in_cons_dataset. cbn [proc_items comparable_in forallb snd].
      fold (proc_items here). fold (comparable_in cs). apply IHcs.
Qed.

Lemma find_emdgroups_group a cs here :
  find_emdgroups (Group a cs) here
  = if types_comparable (Group a cs)
    then Return (map (app here) (emd_groups_below (Group a cs)))
    else Raise ambiguous_truth.
Proof. unfold find_emdgroups. by rewrite (proc_group_spec (Group a cs)). Qed.

Lemma find_emdgroups_root a cs :
  types_comparable (Group a cs) = true →
  find_emdgroups (Group a cs) [] = Return (emd_groups_below (Group a cs)).
Proof.
  intros Hc. rewrite find_emdgroups_group, Hc. f_equal. cbn [app].
  rewrite <- (map_id (emd_groups_below (Group a cs))) at 2. by apply map_ext.
Qed.

(** What is comparable in a tree is so at every group strictly below. *)
Lemma types_comparable_get q : ∀ r a cs,
  types_comparable r = true → q ≠ [] → get_node r q = Some (Group a cs) →
  is_return (emd_type_test a) = true ∧ types_comparable (Group a cs) = true.
Proof.
  induction q as [| k q IH]; intros r a cs Hr Hq Hget; [done |].
  destruct r as [a0 cs0 | a0 d0]; [| done]. cbn [get_node] in Hget.
  destruct (child k cs0) as [c |] eqn:Hc; [| done].
  rewrite types_comparable_group in Hr. unfold comparable_in in Hr.
  rewrite forallb_forall in Hr.
  apply child_Some_elem_of, list_elem_of_In, Hr in Hc. cbn [snd] in Hc.
  destruct q as [| k' q'].
  - injection Hget as ->. by apply andb_true_iff in Hc.
  - destruct c as [a1 cs1 | a1 d1]; [| done].
    apply andb_true_iff in Hc as [_ Hc]. by apply (IH (Group a1 cs1)).
Qed.

Lemma types_comparable_array q r a cs l :
  q ≠ [] → get_node r q = Some (Group a cs) →
  a !! "emd_group_type" = Some (AIntArr l) → 2 ≤ length l →
  types_comparable r = false.
Proof.
  intros Hq Hget Ha Hl. destruct (types_comparable r) eqn:Hr; [| done].
  destruct (types_comparable_get q r a cs Hr Hq Hget) as [Ht _].
  by rewrite (emd_type_test_array a l Ha Hl) in Ht.
Qed.

Lemma get_node_dataset_cons a d k q : get_node (Dataset a d) (k :: q) = None.
Proof. reflexivity. Qed.

(** Under unique link names, the listed groups are those a non-empty handle
    resolves to. *)
Lemma groups_below_elem n :
  wf_node n = true →
  ∀ q a, (q, a) ∈ groups_below n ↔
         q ≠ [] ∧ ∃ cs, get_node n q = Some (Group a cs).
Proof.
  induction n as [a0 cs IH | a0 d] using node_ind_children; intros Hwf q a.
  2: { simpl. split; [intros H; by apply elem_of_nil in H |].
       intros [Hq [cs' H]]. destruct q; [done | discriminate]. }
  rewrite groups_below_group. apply wf_node_group in Hwf as [Hnd Hwf].
  assert (Hin : (q, a) ∈ groups_in cs ↔
    ∃ k q' c cs', q = k :: q' ∧ child k cs = Some c
                  ∧ get_node c q' = Some (Group a cs')).
  { clear a0. revert q a.
    induction cs as [| [k0 c0] cs IHcs]; intros q a.
    { simpl. split; [intros H; by apply elem_of_nil in H |].
      by intros (k & q' & c & cs' & _ & H & _). }
    apply Forall_cons in IH as [IHc IH]. apply Forall_cons in Hwf as [Hwfc Hwf].
    cbn [fmap list_fmap fst] in Hnd. apply NoDup_cons in Hnd as [Hk0 Hnd].
    specialize (IHcs IH Hnd Hwf). cbn [snd] in IHc, Hwfc.
    specialize (IHc Hwfc).
    assert (Hrest : (q, a) ∈ groups_in cs ↔
      ∃ k q' c cs', q = k :: q' ∧ child k ((k0, c0) :: cs) = Some c
                    ∧ get_node c q' = Some (Group a cs') ∧ k ≠ k0).
    { rewrite IHcs. split.
      - intros (k & q' & c & cs' & -> & Hc & Hg).
        assert (k ≠ k0).
        { intros ->. apply Hk0. apply child_Some_elem_of in Hc.
          apply list_elem_of_fmap. by exists (k0, c). }
        exists k, q', c, cs'. cbn [child]. by rewrite decide_False.
      - intros (k & q' & c & cs' & -> & Hc & Hg & Hne).
        cbn [child] in Hc. rewrite decide_False in Hc by done.
        by exists k, q', c, cs'. }
    destruct c0 as [a' cs0 | a' d'].
    - cbn [groups_in]. fold (groups_in cs). fold (groups_below (Group a' cs0)).
      rewrite elem_of_cons, elem_of_app, Hrest. split.
      + intros [[= -> ->] | [Hm | (k & q' & c & cs' & -> & Hc & Hg & _)]].
        * exists k0, [], (Group a' cs0), cs0. cbn [child].
          by rewrite decide_True.
        * apply list_elem_of_In, in_map_iff in Hm as [[q1 a1] [[= <- <-] Hm]].
          apply list_elem_of_In, IHc in Hm as [_ [cs' Hg]].
          exists k0, q1, (Group a' cs0), cs'. cbn [child].
          by rewrite decide_True.
        * by exists k, q', c, cs'.
      + intros (k & q' & c & cs' & -> & Hc & Hg).
        destruct (decide (k = k0)) as [-> | Hne].
        * cbn [child] in Hc. rewrite decide_True in Hc by done.
          injection Hc as <-. destruct q' as [| k1 q1].
          -- injection Hg as -> ->. by left.
          -- right; left. apply list_elem_of_In, in_map_iff.
             exists (k1 :: q1, a). split; [done |].
             apply list_elem_of_In, IHc. split; [done | by exists cs'].
        * right; right. by exists k, q', c, cs'.
    - cbn [groups_in]. fold (groups_in cs). rewrite Hrest. split.
      + intros (k & q' & c & cs' & -> & Hc & Hg & _). by exists k, q', c, cs'.
      + intros (k & q' & c & cs' & -> & Hc & Hg).
        destruct (decide (k = k0)) as [-> | Hne].
        * cbn [child] in Hc. rewrite decide_True in Hc by done.
          injection Hc as <-. destruct q'; discriminate.
        * by exists k, q', c, cs'. }
  rewrite Hin. split.
  - intros (k & q' & c & cs' & -> & Hc & Hg). split; [done |].
    exists cs'. cbn [get_node]. by rewrite Hc.
  - intros [Hq [cs' Hg]]. destruct q as [| k q']; [done |].
    cbn [get_node] in Hg. destruct (child k cs) as [c |] eqn:Hc; [| done].
    by exists k, q', c, cs'.
Qed.

Lemma emd_groups_below_elem n :
  wf_node n = true →
  ∀ q, q ∈ emd_groups_below n ↔ q ≠ [] ∧ is_emd_group n q.
Proof.
  intros Hwf q. unfold emd_groups_below, is_emd_group.
  rewrite list_elem_of_fmap. split.
  - intros ([q' a] & -> & Hin). apply list_elem_of_filter in Hin as [Ha Hin].
    apply (groups_below_elem n Hwf) in Hin as [Hq [cs Hg]].
    split; [done |]. by exists a, cs.
  - intros [Hq (a & cs & Hg & Ha)]. exists (q, a). split; [done |].
    apply list_elem_of_filter. split; [done |].
    apply (groups_below_elem n Hwf). split; [done | by exists cs].
Qed.

(** Every handle found in a link table starts with one of its names. *)
Lemma emd_groups_in_head cs q :
  q ∈ emd_groups_in cs → ∃ k q', q = k :: q' ∧ k ∈ cs.*1.
Proof.
  induction cs as [| [k c] cs IH]; intros Hq.
  - by apply elem_of_nil in Hq.
  - assert (Hrest : q ∈ emd_groups_in cs → ∃ k' q', q = k' :: q' ∧ k' ∈ ((k, c) :: cs).*1).
    { intros H. destruct (IH H) as (k' & q' & -> & Hk'). exists k', q'.
      split; [done |]. cbn. by right. }
    destruct c as [a cs0 | a d].
    + rewrite emd_groups_in_cons_group in Hq.
      apply elem_of_app in Hq as [Hq | Hq]; [| apply elem_of_app in Hq as [Hq | Hq]].
      * destruct (has_emd_type a); [| by apply elem_of_nil in Hq].
        apply list_elem_of_singleton in Hq as ->. exists k, []. split; [done |]. cbn. left.
      * apply list_elem_of_fmap in Hq as (q' & -> & _). exists k, q'.
        split; [done |]. cbn. left.
      * by apply Hrest.
    + rewrite emd_groups_in_cons_dataset in Hq. by apply Hrest.
Qed.

Lemma emd_groups_below_NoDup n :
  wf_node n = true → NoDup (emd_groups_below n).
Proof.
  induction n as [a0 cs IH | a0 d] using node_ind_children; intros Hwf.
  2: { apply NoDup_nil_2. }
  rewrite emd_groups_below_group. apply wf_node_group in Hwf as [Hnd Hwf].
  clear a0. induction cs as [| [k c] cs IHcs]; [apply NoDup_nil_2 |].
  apply Forall_cons in IH as [IHc IH]. apply Forall_cons in Hwf as [Hwfc Hwf].
  cbn [fmap list_fmap fst] in Hnd. apply NoDup_cons in Hnd as [Hk Hnd].
  specialize (IHcs IH Hnd Hwf). cbn [snd] in IHc, Hwfc.
  destruct c as [a cs0 | a d]; [| by rewrite emd_groups_in_cons_dataset].
  rewrite emd_groups_in_cons_group.
  assert (Hrest : ∀ q', k :: q' ∉ emd_groups_in cs).
  { intros q' Hin. apply emd_groups_in_head in Hin as (k' & q'' & [= <- <-] & Hk').
    by apply Hk. }
  assert (Hmid : NoDup (map (cons k) (emd_groups_below (Group a cs0)) ++ emd_groups_in cs)).
  { apply NoDup_app. split; [| split; [| done]].
    - apply (NoDup_fmap_2 (cons k)). by apply IHc.
    - intros q Hq. apply list_elem_of_fmap in Hq as (q' & -> & _). apply Hrest. }
  destruct (has_emd_type a); [| done].
  cbn [app]. apply NoDup_cons. split; [| done].
  intros Hin. apply elem_of_app in Hin as [Hin | Hin]; [| by apply Hrest in Hin].
  apply list_elem_of_fmap in Hin as (q' & [= <-] & Hin).
  by apply (emd_groups_below_elem _ Hwfc) in Hin as [? _].
Qed.

Lemma before_app_r {A : Type} (x y : A) l0 l :
  before x y l → before x y (l0 ++ l).
Proof.
  intros (l1 & l2 & l3 & ->). exists (l0 ++ l1), l2, l3. by rewrite <- app_assoc.
Qed.

Lemma before_app_l {A : Type} (x y : A) l0 l :
  before x y l → before x y (l ++ l0).
Proof.
  intros (l1 & l2 & l3 & ->). exists l1, l2, (l3 ++ l0).
  by rewrite <- !app_assoc, <- !app_comm_cons, <- app_assoc.
Qed.

Lemma before_map {A B : Type} (f : A → B) (x y : A) l :
  before x y l → before (f x) (f y) (map f l).
Proof.
  intros (l1 & l2 & l3 & ->). exists (map f l1), (map f l2), (map f l3).
  by rewrite !map_app, !map_cons, map_app.
Qed.

Lemma before_head {A : Type} (x y : A) l : y ∈ l → before x y (x :: l).
Proof.
  intros Hy. apply list_elem_of_split in Hy as (l2 & l3 & ->).
  by exists [], l2, l3.
Qed.

(** A found group comes before every found group below it. *)
Lemma emd_groups_below_before n :
  wf_node n = true →
  ∀ p q, p ∈ emd_groups_below n → q ∈ emd_groups_below n →
         p `prefix_of` q → p ≠ q → before p q (emd_groups_below n).
Proof.
  induction n as [a0 cs IH | a0 d] using node_ind_children; intros Hwf.
  2: { intros p q Hp. by apply elem_of_nil in Hp. }
  rewrite emd_groups_below_group. apply wf_node_group in Hwf as [Hnd Hwf].
  clear a0. induction cs as [| [k c] cs IHcs].
  { intros p q Hp. by apply elem_of_nil in Hp. }
  apply Forall_cons in IH as [IHc IH]. apply Forall_cons in Hwf as [Hwfc Hwf].
  cbn [fmap list_fmap fst] in Hnd. apply NoDup_cons in Hnd as [Hk Hnd].
  specialize (IHcs IH Hnd Hwf). cbn [snd] in IHc, Hwfc. specialize (IHc Hwfc).
  destruct c as [a cs0 | a d]; [| by rewrite emd_groups_in_cons_dataset].
  rewrite emd_groups_in_cons_group.
  assert (Hrest : ∀ q', k :: q' ∉ emd_groups_in cs).
  { intros q' Hin. apply emd_groups_in_head in Hin as (k' & q'' & [= <- <-] & Hk').
    by apply Hk. }
  assert (Hhead : ∀ x, x ∈ (if has_emd_type a then [[k]] else []) →
                       x = [k] ∧ has_emd_type a = true).
  { intros x Hx. destruct (has_emd_type a); [| by apply elem_of_nil in Hx].
    by apply list_elem_of_singleton in Hx as ->. }
  assert (Hmid : ∀ x, x ∈ map (cons k) (emd_groups_below (Group a cs0)) →
                      ∃ x', x = k :: x' ∧ x' ≠ [] ∧ x' ∈ emd_groups_below (Group a cs0)).
  { intros x Hx. apply list_elem_of_fmap in Hx as (x' & -> & Hx'). exists x'.
    split; [done |]. split; [| done].
    by apply (emd_groups_below_elem _ Hwfc) in Hx' as [? _]. }
  intros p q Hp Hq Hpre Hne.
  apply elem_of_app in Hp as [Hp | Hp]; [| apply elem_of_app in Hp as [Hp | Hp]];
    (apply elem_of_app in Hq as [Hq | Hq]; [| apply elem_of_app in Hq as [Hq | Hq]]).
  - apply Hhead in Hp as [-> _]. by apply Hhead in Hq as [-> _].
  - apply Hhead in Hp as [-> Ha]. rewrite Ha. cbn [app].
    apply before_head. apply elem_of_app. by left.
  - apply Hhead in Hp as [-> _].
    apply emd_groups_in_head in Hq as H. destruct H as (k' & q' & -> & Hk').
    apply prefix_cons_inv_1 in Hpre as <-. by apply Hrest in Hq.
  - apply Hmid in Hp as (p' & -> & Hp' & _). apply Hhead in Hq as [-> _].
    apply prefix_cons_inv_2, prefix_nil_inv in Hpre. done.
  - apply Hmid in Hp as (p' & -> & _ & Hp'). apply Hmid in Hq as (q' & -> & _ & Hq').
    apply before_app_r, before_app_l, before_map, IHc; [done | done | |].
    + by apply prefix_cons_inv_2 in Hpre.
    + by intros ->.
  - apply Hmid in Hp as (p' & -> & _ & _).
    apply emd_groups_in_head in Hq as H. destruct H as (k' & q' & -> & Hk').
    apply prefix_cons_inv_1 in Hpre as <-. by apply Hrest in Hq.
  - apply Hhead in Hq as [-> _].
    apply emd_groups_in_head in Hp as H. destruct H as (k' & p' & -> & Hk').
    apply prefix_cons_inv_1 in Hpre as ->. by apply Hrest in Hp.
  - apply Hmid in Hq as (q' & -> & _ & _).
    apply emd_groups_in_head in Hp as H. destruct H as (k' & p' & -> & Hk').
    apply prefix_cons_inv_1 in Hpre as ->. by apply Hrest in Hp.
  - by apply before_app_r, before_app_r, IHcs.
Qed.


(** ** Method bodies that only read *)

Lemma unchanged_ret {A : Type} (a : A) : unchanged (ret a).
Proof. by intros s. Qed.

Lemma unchanged_raise {A : Type} e : unchanged (raise (A:=A) e).
Proof. by intros s. Qed.

Lemma unchanged_lift {A : Type} (o : outcome A) : unchanged (lift o).
Proof. by intros s. Qed.

Lemma unchanged_gets {A : Type} (f : fileEMD → A) : unchanged (gets f).
Proof. by intros s. Qed.

Lemma unchanged_assert b : unchanged (assert b).
Proof. by destruct b; intros s. Qed.

Lemma unchanged_bind {A B : Type} (m : M A) (k : A → M B) :
  unchanged m → (∀ a, unchanged (k a)) → unchanged (bind m k).
Proof.
  intros Hm Hk s. unfold bind. specialize (Hm s).
  destruct (m s) as [s' [a | e]]; simpl in Hm; subst s'; [apply Hk | done].
Qed.

Lemma unchanged_try_except {A : Type} (m : M A) (h : exn → M A) :
  unchanged m → (∀ e, unchanged (h e)) → unchanged (try_except m h).
Proof.
  intros Hm Hh s. unfold try_except. specialize (Hm s).
  destruct (m s) as [s' [a | e]]; simpl in Hm; subst s'; [done | apply Hh].
Qed.

Lemma unchanged_for_each {A : Type} (l : list A) (body : A → M unit) :
  (∀ x, unchanged (body x)) → unchanged (for_each l body).
Proof.
  intros Hb. induction l as [| x l IH]; [apply unchanged_ret |].
  apply unchanged_bind; [apply Hb | by intros _].
Qed.

Lemma unchanged_for_collect {A B : Type} (l : list A) (body : A → M B) :
  (∀ x, unchanged (body x)) → ∀ acc, unchanged (for_collect l acc body).
Proof.
  intros Hb. induction l as [| x l IH]; intros acc; [apply unchanged_ret |].
  apply unchanged_bind; [apply Hb | intros y; apply IH].
Qed.

Lemma unchanged_h5_get p : unchanged (h5_get p).
Proof. intros s. unfold h5_get. by destruct (get_node _ _). Qed.

Lemma unchanged_h5_attrs p : unchanged (h5_attrs p).
Proof.
  apply unchanged_bind; [apply unchanged_h5_get | intros n; apply unchanged_ret].
Qed.

Lemma unchanged_h5_contains p label : unchanged (h5_contains p label).
Proof.
  apply unchanged_bind; [apply unchanged_h5_get |].
  intros [a cs | a d]; [| apply unchanged_lift].
  destruct (decide (label = "")); [apply unchanged_ret |].
  apply unchanged_bind; [apply unchanged_gets | intros r; apply unchanged_ret].
Qed.

Lemma unchanged_h5_group_method p method : unchanged (h5_group_method p method).
Proof.
  apply unchanged_bind; [apply unchanged_h5_get |].
  intros [a cs | a d]; [apply unchanged_ret | apply unchanged_raise].
Qed.

(** What an unchanged body evaluates to is fixed by its outcome. *)
Lemma unchanged_run {A : Type} (m : M A) s : unchanged m → m s = (s, (m s).2).
Proof. intros Hm. specialize (Hm s). destruct (m s) as [s' o]. simpl in *. by subst. Qed.

(** A loop of reading bodies raises as soon as one of them does. *)
Lemma for_each_raises {A : Type} (l : list A) (body : A → M unit) s :
  (∀ x, unchanged (body x)) →
  (∃ x e, x ∈ l ∧ (body x s).2 = Raise e) →
  ∃ e, for_each l body s = (s, Raise e).
Proof.
  intros Hb. induction l as [| x l IH]; intros (x0 & e & Hin & Hx0).
  { by apply elem_of_nil in Hin. }
  cbn [for_each]. unfold bind at 1. rewrite (unchanged_run (body x) s (Hb x)).
  destruct (body x s).2 as [[] | e'] eqn:Hx; [| by exists e'].
  apply IH. apply elem_of_cons in Hin as [-> | Hin]; [congruence |].
  by exists x0, e.
Qed.

Lemma for_each_returns {A : Type} (l : list A) (body : A → M unit) s :
  (∀ x, x ∈ l → body x s = (s, Return tt)) →
  for_each l body s = (s, Return tt).
Proof.
  induction l as [| x l IH]; intros Hb; [done |].
  cbn [for_each]. unfold bind at 1. rewrite (Hb x) by left.
  apply IH. intros y Hy. apply Hb. by right.
Qed.

(** ** [put_emdgroup]: the check of [dims] *)

Lemma check_dims_unchanged data_arr dims : unchanged (check_dims data_arr dims).
Proof.
  apply unchanged_bind; [apply unchanged_assert | intros _].
  apply unchanged_for_each. intros i.
  repeat (apply unchanged_bind; [apply unchanged_lift | intros ?]).
  apply unchanged_assert.
Qed.

Lemma check_dims_mismatch data_arr dims s :
  dims_mismatch data_arr dims → ∃ e, check_dims data_arr dims s = (s, Raise e).
Proof.
  intros Hmis. unfold check_dims.
  destruct (decide (length dims = length (shape data_arr))) as [Hlen | Hlen].
  2: { exists AssertionError. unfold bind. by rewrite bool_decide_eq_false_2. }
  unfold bind at 1. rewrite bool_decide_eq_true_2 by done. cbn [assert ret].
  destruct Hmis as [Hne | (i & d & Hd & Hne)]; [done |].
  apply for_each_raises.
  { intros j. repeat (apply unchanged_bind; [apply unchanged_lift | intros ?]).
    apply unchanged_assert. }
  assert (Hi : i < length dims) by (by apply lookup_lt_Some in Hd).
  unfold vec_len in Hne.
  destruct (shape data_arr !! i) as [m |] eqn:Hm;
    [| apply lookup_ge_None in Hm; lia].
  destruct (shape d.1.1 !! 0) as [n |] eqn:Hn.
  - exists i, AssertionError. split; [apply elem_of_seq; lia |].
    unfold bind, lift, list_getitem. rewrite Hd, Hn, Hm.
    rewrite bool_decide_eq_false_2; [done | congruence].
  - exists i, IndexError. split; [apply elem_of_seq; lia |].
    unfold bind, lift, list_getitem. by rewrite Hd, Hn.
Qed.

Lemma check_dims_consistent data_arr dims s :
  dims_consistent data_arr dims → check_dims data_arr dims s = (s, Return tt).
Proof.
  intros [Hlen Hvec]. unfold check_dims, bind at 1.
  rewrite bool_decide_eq_true_2 by done. cbn [assert ret].
  apply for_each_returns. intros i Hi. apply elem_of_seq in Hi.
  destruct (dims !! i) as [d |] eqn:Hd; [| apply lookup_ge_None in Hd; lia].
  specialize (Hvec i d Hd). unfold vec_len in Hvec.
  destruct (shape data_arr !! i) as [m |] eqn:Hm;
    [| apply lookup_ge_None in Hm; unfold ndim in Hlen; lia].
  unfold bind, lift, list_getitem. rewrite Hd, Hvec, Hm.
  by rewrite bool_decide_eq_true_2.
Qed.


(** C2.  Whenever the number of dims differs from the rank of the array, or
    the length of some dim vector differs from the extent of its axis,
    [put_emdgroup] raises its dims error, whatever the label, the parent and
    the overwrite flag, and the object, the file and the output are exactly
    as before the call. *)
Theorem put_emdgroup_rejects_mismatch label data_arr dims parent overwrite s :
  dims_mismatch data_arr dims →
  put_emdgroup (PyStr label) (PyArray data_arr) dims parent overwrite s
  = (s, Raise (TypeError "Something wrong with the provided dims")).
Proof.
  intros Hmis. destruct (check_dims_mismatch data_arr dims s Hmis) as [e He].
  unfold put_emdgroup, put_emdgroup_checked, bind, try_except. by rewrite He.
Qed.

(** ** Dataset names *)

Lemma split_on_nonempty sep s : split_on sep s ≠ [].
Proof.
  destruct s as [| a s]; simpl; [done |].
  destruct (Ascii.eqb a sep); [done |]. by destruct (split_on sep s).
Qed.

Lemma split_on_slash_free c rest w ws :
  slash_free c = true →
  split_on "/" rest = w :: ws →
  split_on "/" (c +:+ rest) = (c +:+ w) :: ws.
Proof.
  intros Hc Hrest. induction c as [| a c IH]; simpl in *; [done |].
  apply andb_true_iff in Hc as [Ha Hc]. apply negb_true_iff in Ha.
  rewrite Ha. by rewrite (IH Hc).
Qed.

Lemma string_app_empty_r (s : string) : s +:+ "" = s.
Proof. induction s as [| a s IH]; [done |]. by rewrite <- IH at 2. Qed.

(** Splitting the name of a handle at ['/'] gives an empty first piece and
    then the link names. *)
Lemma split_on_h5_name (p : path) :
  Forall (fun c => slash_free c = true) p →
  split_on "/" (h5_name p) = match p with [] => [""; ""] | _ => "" :: p end.
Proof.
  intros Hp. destruct p as [| c0 p0]; [done |].
  assert (H : ∀ p, Forall (fun c => slash_free c = true) p →
    split_on "/" (foldr (fun c rest => "/" +:+ c +:+ rest) "" p)
    = match p with [] => [""] | _ => "" :: p end).
  { clear. induction p as [| c p IH]; intros Hp; [done |].
    apply Forall_cons in Hp as [Hc Hp]. specialize (IH Hp).
    cbn [foldr]. change ("/" +:+ ?x) with (String "/" x).
    cbn [split_on]. rewrite Ascii.eqb_refl. f_equal.
    destruct p as [| c' p'].
    - cbn [foldr]. rewrite (split_on_slash_free c "" "" []); [| done | done].
      by rewrite string_app_empty_r.
    - by rewrite (split_on_slash_free c _ "" (c' :: p') Hc IH), string_app_empty_r. }
  unfold h5_name. by rewrite (H (c0 :: p0) Hp).
Qed.

Lemma parent_name_nested q pn name :
  Forall (fun c => slash_free c = true) (q ++ [pn; name]) →
  parent_name (q ++ [pn; name]) = Some pn.
Proof.
  intros Hp. unfold parent_name. rewrite (split_on_h5_name _ Hp).
  destruct (q ++ [pn; name]) as [| c l] eqn:Hq.
  { by destruct q. }
  rewrite <- Hq. unfold index_from_end. cbn [length].
  rewrite length_app. cbn [length].
  rewrite decide_True by lia.
  replace (S (length q + 2) - 2) with (S (length q)) by lia.
  by apply (list_lookup_middle ("" :: q) [name] pn).
Qed.

Lemma parent_name_shallow g :
  Forall (fun c => slash_free c = true) g →
  length g ≤ 1 → parent_name g = Some "".
Proof.
  intros Hg Hlen. unfold parent_name. rewrite (split_on_h5_name _ Hg).
  destruct g as [| c [| c' g]]; [done | done | simpl in Hlen; lia].
Qed.

(** C4.  [_get_dset_string] is the layout mapping.  On an object of class
    [fileEMD] (spec 0.2) it returns ["data"] for every group.  On an object
    of class [fileEMD_v05] it looks at the name of the group's parent, the
    last but one piece of the group's name, and returns [datacube] for
    [datacubes], [diffractionslice] for [diffractionslices], [pointlistarray]
    for [pointlistarrayss], [pointlist] for [pointlists], [realslice] for
    [realslices], and raises its unsupported-name error for every other
    parent name.  For a group at depth two or more the piece is the link
    name of its parent; for the root and its members it is the empty name.
    Nothing is changed in either case. *)
Theorem get_dset_string_layout (g : path) (s : fileEMD) :
  (self_class s = Class_fileEMD → _get_dset_string g s = (s, Return "data"))
  ∧ (self_class s = Class_fileEMD_v05 → ∀ pn, parent_name g = Some pn →
       (pn = "datacubes" → _get_dset_string g s = (s, Return "datacube"))
     ∧ (pn = "diffractionslices" →
          _get_dset_string g s = (s, Return "diffractionslice"))
     ∧ (pn = "pointlistarrayss" →
          _get_dset_string g s = (s, Return "pointlistarray"))
     ∧ (pn = "pointlists" → _get_dset_string g s = (s, Return "pointlist"))
     ∧ (pn = "realslices" → _get_dset_string g s = (s, Return "realslice"))
     ∧ (pn ∉ v05_parents →
          _get_dset_string g s
          = (s, Raise (ValueError "dset name not supported"))))
  ∧ (∀ q pn name, g = q ++ [pn; name] →
       Forall (fun c => slash_free c = true) g → parent_name g = Some pn)
  ∧ (Forall (fun c => slash_free c = true) g → length g ≤ 1 →
       parent_name g = Some "").
Proof.
  split; [| split; [| split]].
  - intros Hc. unfold _get_dset_string, bind, gets. by rewrite Hc.
  - intros Hc pn Hpn.
    unfold _get_dset_string, bind, gets, _get_dset_string_fileEMD_v05.
    rewrite Hc, Hpn.
    repeat split; try (by intros ->).
    intros Hnot. unfold v05_parents in Hnot.
    repeat (apply not_elem_of_cons in Hnot as [? Hnot]).
    by rewrite !decide_False by done.
  - intros q pn name -> Hg. by apply parent_name_nested.
  - apply parent_name_shallow.
Qed.

(** ** [defaultDims] *)

Lemma defaultDims_loop_spec data_arr pxs k : ∀ a acc,
  a + k ≤ length (shape data_arr) → a + k ≤ length pxs →
  ∃ l, defaultDims_loop data_arr pxs (seq a k) acc = Return (acc ++ l)
       ∧ length l = k
       ∧ ∀ j n px, shape data_arr !! (a + j) = Some n → pxs !! (a + j) = Some px →
                   j < k → l !! j = Some (default_dim (a + j) n px).
Proof.
  induction k as [| k IH]; intros a acc Hs Hp.
  { exists []. rewrite app_nil_r. split; [done |]. split; [done |]. intros; lia. }
  cbn [seq defaultDims_loop].
  destruct (shape data_arr !! a) as [n |] eqn:Hn;
    [| apply lookup_ge_None in Hn; lia].
  destruct (pxs !! a) as [px |] eqn:Hpx;
    [| apply lookup_ge_None in Hpx; lia].
  destruct (IH (S a) (acc ++ [(linspace_times n px, dim_label a, unit_label a)]))
    as (l & Hl & Hlen & Hlk); [lia | lia |].
  exists ((linspace_times n px, dim_label a, unit_label a) :: l).
  split; [by rewrite Hl, <- app_assoc |]. split; [simpl; lia |].
  intros j n' px' Hn' Hpx' Hj. destruct j as [| j].
  - rewrite Nat.add_0_r in *. by simplify_eq.
  - cbn [lookup list_lookup]. replace (a + S j) with (S a + j) in * by lia.
    apply Hlk; [done | done | lia].
Qed.

Lemma defaultDims_with data_arr ps pxs :
  (∀ a, ps ≠ PixelArray a) →
  pxs = match ps with PixelSeq (x :: l) => x :: l | _ => replicate (ndim data_arr) one end →
  length pxs = ndim data_arr →
  ∃ dims, defaultDims data_arr ps = Return dims
          ∧ length dims = ndim data_arr
          ∧ ∀ i n px, shape data_arr !! i = Some n → pxs !! i = Some px →
                      dims !! i = Some (default_dim i n px).
Proof.
  intros Hps -> Hlen.
  destruct (defaultDims_loop_spec data_arr
              (match ps with PixelSeq (x :: l) => x :: l
                           | _ => replicate (ndim data_arr) one end)
              (ndim data_arr) 0 [])
    as (dims & Hd & Hl & Hlk); [unfold ndim; lia | lia |].
  exists dims. split; [| split; [done |]].
  - unfold defaultDims. destruct ps as [| l | a]; [| | by destruct (Hps a)];
      by rewrite bool_decide_eq_true_2.
  - intros i n px Hn Hpx. apply (Hlk i n px); [done | done |].
    apply lookup_lt_Some in Hn. by unfold ndim.
Qed.

(** C8, amended.  [defaultDims] rejects a numpy array as [pixel_size].
    Without [pixel_size] it returns one triple per axis [i], with the values
    [0, 1, ..., shape[i] - 1] times 1 and the names [dim{i+1}] and
    [unit{i+1}]; an empty [pixel_size] sequence counts as none given.  A
    non-empty [pixel_size] sequence whose length differs from the rank of the
    array is refused with the dimension-mismatch error; one of matching
    length gives the triples with the values multiplied by [pixel_size[i]]. *)
Theorem defaultDims_spec (data_arr : ndarray) :
  (∀ a, defaultDims data_arr (PixelArray a)
        = Raise (Exception "pixel_size must be a tuple"))
  ∧ (∃ dims, defaultDims data_arr PixelNone = Return dims
             ∧ length dims = ndim data_arr
             ∧ ∀ i n, shape data_arr !! i = Some n →
                      dims !! i = Some (default_dim i n one))
  ∧ defaultDims data_arr (PixelSeq []) = defaultDims data_arr PixelNone
  ∧ (∀ l, l ≠ [] → length l ≠ ndim data_arr →
          defaultDims data_arr (PixelSeq l)
          = Raise (ValueError "pixel_size and data dimensions must match"))
  ∧ (∀ l, l ≠ [] → length l = ndim data_arr →
          ∃ dims, defaultDims data_arr (PixelSeq l) = Return dims
                  ∧ length dims = ndim data_arr
                  ∧ ∀ i n px, shape data_arr !! i = Some n → l !! i = Some px →
                              dims !! i = Some (default_dim i n px)).
Proof.
  split; [done |]. split; [| split; [done |]; split].
  - destruct (defaultDims_with data_arr PixelNone (replicate (ndim data_arr) one))
      as (dims & Hd & Hl & Hlk); [done | done | apply length_replicate |].
    exists dims. split; [done |]. split; [done |].
    intros i n Hn. apply Hlk; [done |].
    apply lookup_replicate_2. apply lookup_lt_Some in Hn. by unfold ndim.
  - intros [| x l] Hne Hlen; [done |]. unfold defaultDims.
    by rewrite bool_decide_eq_false_2.
  - intros [| x l] Hne Hlen; [done |].
    by apply (defaultDims_with data_arr (PixelSeq (x :: l)) (x :: l)).
Qed.

(** ** Version attributes *)

Lemma h5_attrs_root s : h5_attrs [] s = (s, Return (root_attrs s)).
Proof. reflexivity. Qed.

Lemma put_attr_attrs k v n :
  ∃ n', put_attr k v n = Some n' ∧ node_attrs n' = <[k:=v]> (node_attrs n).
Proof. destruct n as [a cs | a d]; eexists; by split. Qed.

Lemma h5_set_attr_root k v s :
  writable (file_hdl s) = true →
  ∃ r', h5_set_attr [] k v s = (set_file_hdl (mk_h5file true r') s, Return tt)
        ∧ node_attrs r' = <[k:=v]> (root_attrs s).
Proof.
  intros Hw. destruct (put_attr_attrs k v (root (file_hdl s))) as (r' & Hr' & Ha).
  exists r'. split; [| done].
  unfold h5_set_attr, h5_change. rewrite Hw. cbn [alter_node]. by rewrite Hr'.
Qed.

Lemma check_version_fileEMD_sets s :
  readonly s = false → writable (file_hdl s) = true →
  root_attrs s !! "version_major" = None ∨ root_attrs s !! "version_minor" = None →
  ∃ s', check_version_fileEMD s = (s', Return tt)
        ∧ root_attrs s' !! "version_major" = Some (AInt 0)
        ∧ root_attrs s' !! "version_minor" = Some (AInt 2)
        ∧ emd_stdout s' = emd_stdout s.
Proof.
  intros Hro Hw Hnone.
  destruct (h5_set_attr_root "version_major" (AInt 0) s Hw) as (r1 & H1 & Ha1).
  destruct (h5_set_attr_root "version_minor" (AInt 2)
              (set_file_hdl (mk_h5file true r1) s) eq_refl) as (r2 & H2 & Ha2).
  exists (set_file_hdl (mk_h5file true r2) s).
  split; [| split; [| split; [| done]]].
  - unfold check_version_fileEMD. unfold bind at 1. rewrite h5_attrs_root.
    assert (Helse : (ro <- gets readonly ;;
                     if negb ro then
                       h5_set_attr [] "version_major" (AInt 0) ;;
                       h5_set_attr [] "version_minor" (AInt 2)
                     else ret tt) s
                    = (set_file_hdl (mk_h5file true r2) s, Return tt)).
    { unfold bind at 1. cbn [gets]. rewrite Hro. cbn [negb].
      unfold bind. by rewrite H1, H2. }
    destruct Hnone as [Hn | Hn]; rewrite Hn; [done |].
    by destruct (root_attrs s !! "version_major").
  - unfold root_attrs. cbn. rewrite Ha2. unfold root_attrs. cbn. rewrite Ha1.
    by rewrite lookup_insert_ne, lookup_insert_eq.
  - unfold root_attrs. cbn. rewrite Ha2. by rewrite lookup_insert_eq.
Qed.

(** [check_version] when both attributes are there: the version is recorded
    first, then compared. *)
Lemma check_version_present s major minor :
  root_attrs s !! "version_major" = Some major →
  root_attrs s !! "version_minor" = Some minor →
  check_version s
  = match version_is (major, minor) 0 (expected_minor (self_class s)) with
    | Return true => (set_version (Some (major, minor)) s, Return tt)
    | Return false =>
        (set_stdout (emd_stdout s ++ [warning_of (self_class s) (major, minor)])
           (set_version (Some (major, minor)) s),
         Return tt)
    | Raise e => (set_version (Some (major, minor)) s, Raise e)
    end.
Proof.
  intros Hmaj Hmin. unfold check_version, bind at 1. cbn [gets].
  destruct (self_class s) eqn:Hc.
  - unfold check_version_fileEMD, bind at 1. rewrite h5_attrs_root, Hmaj, Hmin.
    unfold bind, modify, lift. cbn [expected_minor warning_of].
    by destruct (version_is (major, minor) 0 2) as [[|] | e].
  - unfold check_version_fileEMD_v05, bind at 1. rewrite h5_attrs_root, Hmaj, Hmin.
    unfold bind, modify, lift. cbn [expected_minor warning_of].
    by destruct (version_is (major, minor) 0 5) as [[|] | e].
Qed.

Lemma version_read_Some a major minor :
  a !! "version_major" = Some major → a !! "version_minor" = Some minor →
  version_read a = Some (major, minor).
Proof. intros H1 H2. unfold version_read. by rewrite H1, H2. Qed.

Lemma version_read_None a :
  a !! "version_major" = None ∨ a !! "version_minor" = None →
  version_read a = None.
Proof.
  unfold version_read. intros [H | H]; rewrite H; [done |].
  by destruct (a !! "version_major").
Qed.

Lemma version_is_raise v a b e : version_is v a b = Raise e → e = ambiguous_truth.
Proof.
  unfold version_is. destruct (py_eq_int v.1 a) as [[|] | e1] eqn:H1.
  - apply py_eq_int_raise.
  - done.
  - intros [= <-]. by apply (py_eq_int_raise v.1 a).
Qed.

Lemma version_is_array l minor a b :
  2 ≤ length l → version_is (AIntArr l, minor) a b = Raise ambiguous_truth.
Proof.
  intros Hl. unfold version_is. cbn.
  destruct l as [| z [| z' l]]; cbn in *; [lia | lia | done].
Qed.

Lemma check_version_returns s :
  mode_consistent s →
  version_comparable (self_class s) (root_attrs s) = true →
  ∃ s', check_version s = (s', Return tt).
Proof.
  intros Hmode Hcmp.
  destruct (root_attrs s !! "version_major") as [major |] eqn:Hmaj;
    [destruct (root_attrs s !! "version_minor") as [minor |] eqn:Hmin |].
  - rewrite (check_version_present s major minor Hmaj Hmin).
    unfold version_comparable in Hcmp.
    rewrite (version_read_Some _ major minor Hmaj Hmin) in Hcmp.
    destruct (version_is (major, minor) 0 _) as [[|] | e]; [| | done]; by eexists.
  - unfold check_version, bind at 1. cbn [gets]. destruct (self_class s).
    + destruct (readonly s) eqn:Hro.
      * exists s. unfold check_version_fileEMD, bind at 1.
        rewrite h5_attrs_root, Hmaj, Hmin. unfold bind. cbn [gets]. by rewrite Hro.
      * destruct (check_version_fileEMD_sets s Hro) as (s' & Hs' & _);
          [by rewrite Hmode, Hro | by right | by exists s'].
    + exists s. unfold check_version_fileEMD_v05, bind at 1.
      by rewrite h5_attrs_root, Hmaj, Hmin.
  - unfold check_version, bind at 1. cbn [gets]. destruct (self_class s).
    + destruct (readonly s) eqn:Hro.
      * exists s. unfold check_version_fileEMD, bind at 1.
        rewrite h5_attrs_root, Hmaj. unfold bind. cbn [gets]. by rewrite Hro.
      * destruct (check_version_fileEMD_sets s Hro) as (s' & Hs' & _);
          [by rewrite Hmode, Hro | by left | by exists s'].
    + exists s. unfold check_version_fileEMD_v05, bind at 1.
      by rewrite h5_attrs_root, Hmaj.
Qed.

Lemma init_new_store_version f :
  ∃ s', __init__ Class_fileEMD None (FnStr f) false = ([], Return s')
        ∧ root_attrs s' !! "version_major" = Some (AInt 0)
        ∧ root_attrs s' !! "version_minor" = Some (AInt 2).
Proof. eexists. split; [by vm_compute | by vm_compute]. Qed.


(** ** Changing the object a handle points to *)

Lemma child_set_child {A : Type} k (x y : A) l :
  child k l = Some x → child k (set_child k y l) = Some y.
Proof.
  induction l as [| [k' z] l IH]; simpl; [done |].
  destruct (decide (k = k')) as [-> | Hne]; simpl.
  - intros _. by rewrite decide_True.
  - intros H. rewrite decide_False by done. by apply IH.
Qed.

Lemma alter_node_get f p : ∀ r n n',
  get_node r p = Some n → f n = Some n' →
  ∃ r', alter_node f r p = Some r' ∧ get_node r' p = Some n'.
Proof.
  induction p as [| k p IH]; intros r n n' Hget Hf.
  - injection Hget as ->. exists n'. by split.
  - destruct r as [a cs | a d]; [| done]. cbn [get_node alter_node] in *.
    destruct (child k cs) as [c |] eqn:Hc; [| done].
    destruct (IH c n n' Hget Hf) as (c' & Hc' & Hg'). rewrite Hc'.
    eexists. split; [done |]. cbn [get_node].
    by rewrite (child_set_child k c c' cs Hc).
Qed.

Lemma h5_set_attr_at cg k v s n :
  writable (file_hdl s) = true →
  get_node (root (file_hdl s)) cg = Some n →
  ∃ r' n', h5_set_attr cg k v s = (set_file_hdl (mk_h5file true r') s, Return tt)
           ∧ get_node r' cg = Some n'
           ∧ node_attrs n' = <[k:=v]> (node_attrs n).
Proof.
  intros Hw Hget. destruct (put_attr_attrs k v n) as (n' & Hn' & Ha).
  destruct (alter_node_get (put_attr k v) cg _ n n' Hget Hn') as (r' & Hr' & Hg').
  exists r', n'. split; [| done].
  unfold h5_set_attr, h5_change. by rewrite Hw, Hr'.
Qed.

(** ** Comments *)

(** What [put_comment] computes for the attribute before it stores it. *)
Definition comment_value (old : option attr_val) (msg : string) : outcome attr_val :=
  match old with
  | Some old =>
      match np_string_ (nl +:+ msg) with
      | Raise e => Raise e
      | Return b =>
          match bytes_add old b with
          | Raise e => Raise e
          | Return new => vlen_of_bytes new
          end
      end
  | None =>
      match np_string_ msg with
      | Raise e => Raise e
      | Return b => Return (ABytes b)
      end
  end.

Lemma put_comment_raises msg timestamp utcnow s cg n e :
  comments s = Some cg →
  get_node (root (file_hdl s)) cg = Some n →
  comment_value (node_attrs n !! comment_key timestamp utcnow) msg = Raise e →
  put_comment (PyStr msg) timestamp utcnow s = (s, Raise e).
Proof.
  intros Hc Hget Hv.
  unfold put_comment, bind at 1. cbn [gets]. rewrite Hc.
  unfold bind at 1, h5_attrs, bind at 1, h5_get. rewrite Hget. cbn [ret].
  unfold comment_value in Hv.
  destruct (node_attrs n !! comment_key timestamp utcnow) as [old |].
  - unfold bind, lift.
    destruct (np_string_ (nl +:+ msg)) as [b | e0]; [| congruence].
    destruct (bytes_add old b) as [new | e0]; [| congruence].
    destruct (vlen_of_bytes new) as [v | e0]; [done | congruence].
  - unfold bind, lift. destruct (np_string_ msg) as [b | e0]; [done | congruence].
Qed.

Lemma put_comment_run msg timestamp utcnow s cg n v :
  writable (file_hdl s) = true →
  comments s = Some cg →
  get_node (root (file_hdl s)) cg = Some n →
  comment_value (node_attrs n !! comment_key timestamp utcnow) msg = Return v →
  ∃ s' n', put_comment (PyStr msg) timestamp utcnow s = (s', Return tt)
           ∧ writable (file_hdl s') = true
           ∧ comments s' = Some cg
           ∧ get_node (root (file_hdl s')) cg = Some n'
           ∧ node_attrs n' = <[comment_key timestamp utcnow := v]> (node_attrs n).
Proof.
  intros Hw Hc Hget Hv.
  destruct (h5_set_attr_at cg (comment_key timestamp utcnow) v s n Hw Hget)
    as (r' & n' & Hset & Hg' & Ha').
  exists (set_file_hdl (mk_h5file true r') s), n'.
  split; [| by repeat split].
  unfold put_comment, bind at 1. cbn [gets]. rewrite Hc.
  unfold bind at 1, h5_attrs, bind at 1, h5_get. rewrite Hget. cbn [ret].
  unfold comment_value in Hv.
  destruct (node_attrs n !! comment_key timestamp utcnow) as [old |].
  - unfold bind, lift. destruct (np_string_ (nl +:+ msg)) as [b | e0]; [| done].
    destruct (bytes_add old b) as [new | e0]; [| done].
    destruct (vlen_of_bytes new) as [v0 | e0]; [| done]. by injection Hv as ->.
  - unfold bind, lift. destruct (np_string_ msg) as [b | e0]; [| done].
    by injection Hv as <-.
Qed.

Lemma comment_value_fresh msg :
  plain_text msg = true → comment_value None msg = Return (ABytes msg).
Proof. intros Hm. unfold comment_value. by rewrite (np_string_plain msg Hm). Qed.

Lemma comment_value_bytes old msg :
  no_nul old = true → plain_text msg = true →
  comment_value (Some (ABytes old)) msg = Return (AStr (old +:+ nl +:+ msg)).
Proof.
  intros Ho Hm. unfold comment_value.
  assert (Hp : plain_text (nl +:+ msg) = true).
  { by rewrite plain_text_app, plain_text_nl, Hm. }
  rewrite (np_string_plain _ Hp). cbn [bytes_add]. unfold vlen_of_bytes.
  by rewrite no_nul_app, Ho, (plain_text_no_nul _ Hp).
Qed.

Lemma comment_value_str old msg :
  plain_text msg = true →
  comment_value (Some (AStr old)) msg
  = Raise (TypeError "unsupported operand type(s) for +").
Proof.
  intros Hm. unfold comment_value.
  assert (Hp : plain_text (nl +:+ msg) = true).
  { by rewrite plain_text_app, plain_text_nl, Hm. }
  by rewrite (np_string_plain _ Hp).
Qed.

Lemma comment_value_not_ascii old msg :
  is_ascii msg = false → comment_value old msg = Raise UnicodeEncodeError.
Proof.
  intros Hm. unfold comment_value. destruct old as [old |].
  - rewrite np_string_not_ascii; [done |].
    unfold is_ascii in *. by rewrite string_forall_app, Hm, andb_false_r.
  - by rewrite np_string_not_ascii.
Qed.

(** C7.  On a writable store whose comments group exists, [put_comment]
    files a message of plain ASCII text under the given timestamp, or under
    the clock reading when none is given; a timestamp that is given and not
    empty is used as it is.  The key is taken to be an attribute name as it
    stands, not empty and without NUL.  If the key is fresh, one attribute
    holding the message as a byte string is added, the others being kept.
    If the
    comments group holds a byte string under that key, the value becomes the
    old text, a newline and the message, stored as a variable-length string.
    If it holds a variable-length string, as every value an append has
    written is, the sum fails: [put_comment] raises [TypeError] and changes
    nothing.  So of three calls on the same fresh key the first two leave
    one entry whose text is the first message, a newline and the second
    message, and the third raises, leaving that entry as it is.  A message
    that holds a character outside ASCII is refused with
    [UnicodeEncodeError], and nothing is changed. *)
Theorem put_comment_append_merge (s : fileEMD) (msg : string)
  (timestamp : option string) (utcnow : string) (cg : path) (n : node) :
  writable (file_hdl s) = true →
  comments s = Some cg →
  get_node (root (file_hdl s)) cg = Some n →
  attr_name (comment_key timestamp utcnow) = true →
  plain_text msg = true →
  (∀ t, t ≠ "" → comment_key (Some t) utcnow = t)
  ∧ (node_attrs n !! comment_key timestamp utcnow = None →
       ∃ s' n', put_comment (PyStr msg) timestamp utcnow s = (s', Return tt)
                ∧ get_node (root (file_hdl s')) cg = Some n'
                ∧ node_attrs n'
                  = <[comment_key timestamp utcnow := ABytes msg]> (node_attrs n)
                ∧ size (node_attrs n') = S (size (node_attrs n)))
  ∧ (∀ old, node_attrs n !! comment_key timestamp utcnow = Some (ABytes old) →
       no_nul old = true →
       ∃ s' n', put_comment (PyStr msg) timestamp utcnow s = (s', Return tt)
                ∧ get_node (root (file_hdl s')) cg = Some n'
                ∧ node_attrs n'
                  = <[comment_key timestamp utcnow := AStr (old +:+ nl +:+ msg)]>
                      (node_attrs n)
                ∧ size (node_attrs n') = size (node_attrs n))
  ∧ (∀ old, node_attrs n !! comment_key timestamp utcnow = Some (AStr old) →
       ∃ m, put_comment (PyStr msg) timestamp utcnow s = (s, Raise (TypeError m)))
  ∧ (node_attrs n !! comment_key timestamp utcnow = None →
       ∀ msg2 timestamp2 utcnow2 msg3 timestamp3 utcnow3,
         plain_text msg2 = true → plain_text msg3 = true →
         comment_key timestamp2 utcnow2 = comment_key timestamp utcnow →
         comment_key timestamp3 utcnow3 = comment_key timestamp utcnow →
         ∃ s1 s2 n2,
           put_comment (PyStr msg) timestamp utcnow s = (s1, Return tt)
           ∧ put_comment (PyStr msg2) timestamp2 utcnow2 s1 = (s2, Return tt)
           ∧ get_node (root (file_hdl s2)) cg = Some n2
           ∧ node_attrs n2
             = <[comment_key timestamp utcnow := AStr (msg +:+ nl +:+ msg2)]>
                 (node_attrs n)
           ∧ size (node_attrs n2) = S (size (node_attrs n))
           ∧ ∃ m, put_comment (PyStr msg3) timestamp3 utcnow3 s2
                  = (s2, Raise (TypeError m)))
  ∧ (∀ msg', is_ascii msg' = false →
       put_comment (PyStr msg') timestamp utcnow s = (s, Raise UnicodeEncodeError)).
Proof.
  intros Hw Hc Hget _ Hm. split; [| split; [| split; [| split; [| split]]]].
  - intros t Ht. unfold comment_key. by rewrite decide_False.
  - intros Hnone.
    destruct (put_comment_run msg timestamp utcnow s cg n (ABytes msg) Hw Hc Hget)
      as (s' & n' & Hrun & _ & _ & Hg' & Ha');
      [by rewrite Hnone, comment_value_fresh |].
    exists s', n'. repeat split; [done | done | done |].
    rewrite Ha'. by apply map_size_insert_None.
  - intros old Hold Hnul.
    destruct (put_comment_run msg timestamp utcnow s cg n
                (AStr (old +:+ nl +:+ msg)) Hw Hc Hget)
      as (s' & n' & Hrun & _ & _ & Hg' & Ha');
      [by rewrite Hold, comment_value_bytes |].
    exists s', n'. repeat split; [done | done | done |].
    rewrite Ha'. apply map_size_insert_Some. by rewrite Hold.
  - intros old Hold. eexists.
    apply (put_comment_raises msg timestamp utcnow s cg n _ Hc Hget).
    by rewrite Hold, comment_value_str.
  - intros Hnone msg2 timestamp2 utcnow2 msg3 timestamp3 utcnow3 Hm2 Hm3 Hkey2 Hkey3.
    destruct (put_comment_run msg timestamp utcnow s cg n (ABytes msg) Hw Hc Hget)
      as (s1 & n1 & Hrun1 & Hw1 & Hc1 & Hg1 & Ha1);
      [by rewrite Hnone, comment_value_fresh |].
    destruct (put_comment_run msg2 timestamp2 utcnow2 s1 cg n1
                (AStr (msg +:+ nl +:+ msg2)) Hw1 Hc1 Hg1)
      as (s2 & n2 & Hrun2 & Hw2 & Hc2 & Hg2 & Ha2).
    { rewrite Hkey2, Ha1, lookup_insert_eq.
      apply comment_value_bytes; [by apply plain_text_no_nul | done]. }
    exists s1, s2, n2. repeat split; [done | done | done | | |].
    + by rewrite Ha2, Hkey2, Ha1, insert_insert_eq.
    + rewrite Ha2, Hkey2, Ha1, insert_insert_eq. by apply map_size_insert_None.
    + eexists.
      apply (put_comment_raises msg3 timestamp3 utcnow3 s2 cg n2 _ Hc2 Hg2).
      by rewrite Hkey3, Ha2, Hkey2, lookup_insert_eq, comment_value_str.
  - intros msg' Hm'.
    apply (put_comment_raises msg' timestamp utcnow s cg n _ Hc Hget).
    by apply comment_value_not_ascii.
Qed.

(** ** Reading a group *)

(** The attribute [k] holds the text [txt], which is well-formed UTF-8, as a
    scalar byte string or as the first element of an array of byte
    strings. *)
Definition stores_text (a : gmap string attr_val) (k txt : string) : Prop :=
  utf8_valid txt = true
  ∧ (a !! k = Some (ABytes txt) ∨ ∃ rest, a !! k = Some (ABytesArr (txt :: rest))).

(** Among the members [cs] of a group, [dim{i+1}] is a dataset holding the
    vector of [d], of at least one axis, with the name and units of [d]. *)
Definition dim_stored (cs : list (string * node)) (i : nat) (d : dim) : Prop :=
  ∃ da, child (dim_label i) cs = Some (Dataset da d.1.1)
        ∧ stores_text da "name" d.1.2
        ∧ stores_text da "units" d.2
        ∧ shape d.1.1 ≠ [].

Lemma get_node_snoc r g a cs k :
  get_node r g = Some (Group a cs) → get_node r (g ++ [k]) = child k cs.
Proof.
  revert r. induction g as [| k0 g IH]; intros r Hg.
  - injection Hg as ->. cbn. by destruct (child k cs).
  - destruct r as [a0 cs0 | a0 d0]; [| done]. cbn [get_node app] in *.
    destruct (child k0 cs0) as [c |]; [by apply IH | done].
Qed.

Lemma unchanged_get_dset_string g : unchanged (_get_dset_string g).
Proof.
  apply unchanged_bind; [apply unchanged_gets |].
  intros [|]; [apply unchanged_ret |].
  unfold _get_dset_string_fileEMD_v05.
  destruct (parent_name g); [| apply unchanged_raise].
  repeat (case_decide; [apply unchanged_ret |]). apply unchanged_raise.
Qed.

Lemma unchanged_get_emddim g i : unchanged (get_emddim g i).
Proof.
  apply unchanged_bind; [apply unchanged_h5_get | intros ?].
  repeat (apply unchanged_bind; [apply unchanged_lift | intros ?]).
  apply unchanged_ret.
Qed.

Lemma unchanged_get_emddims g : unchanged (get_emddims g).
Proof.
  apply unchanged_bind; [apply unchanged_get_dset_string | intros ?].
  apply unchanged_bind; [apply unchanged_h5_get | intros ?].
  apply unchanged_bind; [apply unchanged_lift | intros ?].
  apply unchanged_for_collect, unchanged_get_emddim.
Qed.

Lemma unchanged_get_emdgroup_try g memmap : unchanged (get_emdgroup_try g memmap).
Proof.
  apply unchanged_bind; [apply unchanged_get_dset_string | intros ?].
  apply unchanged_bind; [apply unchanged_h5_get | intros ?].
  apply unchanged_bind; [apply unchanged_lift | intros ?].
  apply unchanged_bind;
    [destruct memmap; [apply unchanged_ret | apply unchanged_lift] | intros ?].
  apply unchanged_bind; [apply unchanged_get_emddims | intros ?].
  apply unchanged_ret.
Qed.

Lemma for_collect_length {A B : Type} (l : list A) (body : A → M B) :
  ∀ acc s s' r, for_collect l acc body s = (s', Return r) →
                length r = length acc + length l.
Proof.
  induction l as [| x l IH]; intros acc s s' r Hrun.
  - injection Hrun as _ <-. simpl. lia.
  - cbn [for_collect] in Hrun. unfold bind at 1 in Hrun.
    destruct (body x s) as [s1 [y | e]]; [| done].
    apply IH in Hrun. rewrite length_app in Hrun. simpl in *. lia.
Qed.

Lemma for_collect_raises {A B : Type} (l : list A) (body : A → M B) s :
  (∀ x, unchanged (body x)) →
  (∃ x e, x ∈ l ∧ (body x s).2 = Raise e) →
  ∀ acc, ∃ e, for_collect l acc body s = (s, Raise e).
Proof.
  intros Hb. induction l as [| x l IH]; intros (x0 & e & Hin & Hx0) acc.
  { by apply elem_of_nil in Hin. }
  cbn [for_collect]. unfold bind at 1. rewrite (unchanged_run (body x) s (Hb x)).
  destruct (body x s).2 as [y | e'] eqn:Hx; [| by exists e'].
  apply IH. apply elem_of_cons in Hin as [-> | Hin]; [congruence |].
  by exists x0, e.
Qed.

Lemma for_collect_returns {A B : Type} (body : A → M B) s (l : list A) :
  ∀ (ys acc : list B),
    length ys = length l →
    (∀ j x y, l !! j = Some x → ys !! j = Some y → body x s = (s, Return y)) →
    for_collect l acc body s = (s, Return (acc ++ ys)).
Proof.
  induction l as [| x l IH]; intros ys acc Hlen Hb.
  - destruct ys; [| done]. by rewrite app_nil_r.
  - destruct ys as [| y ys]; [done |]. cbn [for_collect]. unfold bind at 1.
    rewrite (Hb 0 x y eq_refl eq_refl).
    rewrite (IH ys (acc ++ [y])); [by rewrite <- app_assoc | by injection Hlen |].
    intros j x' y' Hx Hy. by apply (Hb (S j)).
Qed.

(** What the [try] block returns, when it returns, is complete. *)
Lemma get_emdgroup_try_complete g memmap s r :
  (get_emdgroup_try g memmap s).2 = Return r →
  ∃ arr dims, r = Some (arr, dims) ∧ length dims = ndim arr.
Proof.
  unfold get_emdgroup_try, get_emddims.
  unfold bind at 1. rewrite (unchanged_run _ s (unchanged_get_dset_string g)).
  destruct (_get_dset_string g s).2 as [dname | e] eqn:Hname; [| done].
  unfold bind at 1. rewrite (unchanged_run _ s (unchanged_h5_get (g ++ [dname]))).
  destruct (h5_get (g ++ [dname]) s).2 as [dset | e] eqn:Hdset; [| done].
  unfold bind at 1, lift at 1.
  destruct (dataset_value dset) as [a0 | e] eqn:Hval; [| done].
  assert (Hdims : ∀ a1, shape a1 = shape a0 →
    ((dims0 <-
        (dname0 <- _get_dset_string g ;;
         dset0 <- h5_get (g ++ [dname0]) ;;
         a <- lift (dataset_value dset0) ;;
         for_collect (seq 0 (length (shape a))) [] (get_emddim g)) ;;
      ret (Some (a1, dims0))) s).2 = Return r →
    ∃ arr dims, r = Some (arr, dims) ∧ length dims = ndim arr).
  { intros a1 Ha1. unfold bind at 1, bind at 1.
    rewrite (unchanged_run _ s (unchanged_get_dset_string g)), Hname.
    unfold bind at 1.
    rewrite (unchanged_run _ s (unchanged_h5_get (g ++ [dname]))), Hdset.
    unfold bind at 1, lift at 1. rewrite Hval.
    destruct (for_collect (seq 0 (length (shape a0))) [] (get_emddim g) s)
      as [s' [r0 | e]] eqn:Hloop; [| done].
    apply for_collect_length in Hloop. rewrite length_seq in Hloop.
    cbn [ret snd]. intros [= <-]. exists a1, r0. split; [done |].
    unfold ndim. by rewrite Ha1, Hloop. }
  destruct memmap.
  - unfold bind at 1. cbn [ret]. by apply Hdims.
  - unfold bind at 1, lift at 1, slice_all.
    destruct (shape a0) eqn:Hsh; [done |]. apply Hdims. by rewrite Hsh.
Qed.

Lemma get_emdgroup_try_no_dataset g memmap s a cs dname :
  get_node (root (file_hdl s)) g = Some (Group a cs) →
  _get_dset_string g s = (s, Return dname) →
  child dname cs = None →
  ∃ e, get_emdgroup_try g memmap s = (s, Raise e).
Proof.
  intros Hg Hname Hchild. exists (KeyError (h5_name (g ++ [dname]))).
  unfold get_emdgroup_try, bind at 1. rewrite Hname.
  unfold bind at 1, h5_get. by rewrite (get_node_snoc _ g a cs dname Hg), Hchild.
Qed.

Lemma get_emdgroup_try_no_dim g memmap s a cs dname da arr i :
  get_node (root (file_hdl s)) g = Some (Group a cs) →
  _get_dset_string g s = (s, Return dname) →
  child dname cs = Some (Dataset da arr) →
  i < ndim arr →
  child (dim_label i) cs = None →
  ∃ e, get_emdgroup_try g memmap s = (s, Raise e).
Proof.
  intros Hg Hname Hchild Hi Hdim.
  assert (Hget : h5_get (g ++ [dname]) s = (s, Return (Dataset da arr))).
  { unfold h5_get. by rewrite (get_node_snoc _ g a cs dname Hg), Hchild. }
  destruct (for_collect_raises (seq 0 (length (shape arr))) (get_emddim g) s
              (unchanged_get_emddim g)) with (acc := @nil dim) as [e He].
  { exists i, (KeyError (h5_name (g ++ [dim_label i]))).
    split; [apply elem_of_seq; unfold ndim in Hi; lia |].
    unfold get_emddim, bind at 1, h5_get.
    by rewrite (get_node_snoc _ g a cs _ Hg), Hdim. }
  assert (Hdims : get_emddims g s = (s, Raise e)).
  { unfold get_emddims, bind at 1. rewrite Hname. unfold bind at 1. rewrite Hget.
    unfold bind at 1, lift at 1. cbn [dataset_value]. exact He. }
  unfold get_emdgroup_try, bind at 1. rewrite Hname. unfold bind at 1. rewrite Hget.
  unfold bind at 1, lift at 1. cbn [dataset_value].
  destruct memmap.
  - exists e. unfold bind at 1. cbn [ret]. unfold bind. by rewrite Hdims.
  - unfold bind at 1, lift at 1, slice_all. destruct (shape arr) eqn:Hsh.
    + by eexists.
    + exists e. unfold bind. by rewrite Hdims.
Qed.

(** [get_emdgroup] on the handle of a group, by the outcome of the test of
    [emd_group_type]. *)
Lemma get_emdgroup_handle g memmap s a cs :
  get_node (root (file_hdl s)) g = Some (Group a cs) →
  get_emdgroup (GroupHandle g) memmap s
  = match emd_type_test a with
    | Return true =>
        try_except (get_emdgroup_try g memmap)
          (fun _ => print (content_message g) ;; ret None) s
    | Return false => (s, Raise not_emd_group)
    | Raise e => (s, Raise e)
    end.
Proof.
  intros Hg. unfold get_emdgroup, get_emdgroup_of, bind at 1.
  unfold h5_attrs, bind at 1, h5_get. rewrite Hg. cbn [ret node_attrs].
  unfold emd_type_test.
  destruct (a !! "emd_group_type") as [v |]; [| done].
  unfold bind at 1, lift. by destruct (py_eq_int v 1) as [[|] | e].
Qed.

Lemma get_emdgroup_emd g memmap s a cs :
  get_node (root (file_hdl s)) g = Some (Group a cs) →
  has_emd_type a = true →
  get_emdgroup (GroupHandle g) memmap s
  = try_except (get_emdgroup_try g memmap)
      (fun _ => print (content_message g) ;; ret None) s.
Proof.
  intros Hg Ha. apply has_emd_type_test in Ha.
  by rewrite (get_emdgroup_handle g memmap s a cs Hg), Ha.
Qed.

Lemma try_except_raised {A : Type} (m : M A) (h : exn → M A) s e :
  m s = (s, Raise e) → try_except m h s = h e s.
Proof. intros H. unfold try_except. by rewrite H. Qed.

(** The read of a group is one of two things. *)
Lemma get_emdgroup_emd_outcomes g memmap s a cs :
  get_node (root (file_hdl s)) g = Some (Group a cs) →
  has_emd_type a = true →
  get_emdgroup (GroupHandle g) memmap s
  = (set_stdout (emd_stdout s ++ [content_message g]) s, Return None)
  ∨ ∃ arr dims,
      get_emdgroup (GroupHandle g) memmap s = (s, Return (Some (arr, dims)))
      ∧ length dims = ndim arr.
Proof.
  intros Hg Ha. rewrite (get_emdgroup_emd g memmap s a cs Hg Ha).
  pose proof (get_emdgroup_try_complete g memmap s) as Hcomplete.
  unfold try_except.
  rewrite (unchanged_run _ s (unchanged_get_emdgroup_try g memmap)) in *.
  destruct (get_emdgroup_try g memmap s).2 as [r | e]; [| by left].
  right. destruct (Hcomplete r eq_refl) as (arr & dims & -> & Hlen).
  by exists arr, dims.
Qed.

Lemma attr_scalar_stores_text a k txt :
  stores_text a k txt →
  attr_scalar a k = Return (ABytes txt) ∧ decode (ABytes txt) = Return txt.
Proof.
  intros [Hutf Hk]. split; [| by apply decode_utf8].
  unfold attr_scalar. by destruct Hk as [-> | [rest ->]].
Qed.

Lemma get_emddim_stored g i s a cs d :
  get_node (root (file_hdl s)) g = Some (Group a cs) →
  dim_stored cs i d →
  get_emddim g i s = (s, Return d).
Proof.
  intros Hg (da & Hc & Hname & Hunits & Hvec). destruct d as [[vec name] units].
  cbn [fst snd] in *. unfold get_emddim, bind at 1, h5_get.
  rewrite (get_node_snoc _ _ _ _ (dim_label i) Hg), Hc. cbn [ret node_attrs].
  destruct (attr_scalar_stores_text _ _ _ Hname) as [Hn1 Hn2].
  destruct (attr_scalar_stores_text _ _ _ Hunits) as [Hu1 Hu2].
  unfold bind, lift. rewrite Hn1, Hu1. cbn [dataset_value].
  unfold slice_all. destruct (shape vec); [done |]. by rewrite Hn2, Hu2.
Qed.

Lemma get_emddims_stored (s : fileEMD) (g : path)
  (a : gmap string attr_val) (cs : list (string * node)) (dname : string)
  (da : gmap string attr_val) (arr : ndarray) (dims : list dim) :
  get_node (root (file_hdl s)) g = Some (Group a cs) →
  _get_dset_string g s = (s, Return dname) →
  child dname cs = Some (Dataset da arr) →
  length dims = ndim arr →
  (∀ i d, dims !! i = Some d → dim_stored cs i d) →
  get_emddims g s = (s, Return dims).
Proof.
  intros Hg Hname Hdata Hlen Hdims.
  assert (Hget : h5_get (g ++ [dname]) s = (s, Return (Dataset da arr))).
  { unfold h5_get. by rewrite (get_node_snoc _ g a cs dname Hg), Hdata. }
  unfold get_emddims, bind at 1. rewrite Hname. unfold bind at 1. rewrite Hget.
  unfold bind at 1, lift at 1. cbn [dataset_value].
  apply (for_collect_returns (get_emddim g) s _ dims []).
  - by rewrite length_seq.
  - intros j x d Hx Hj. apply lookup_seq in Hx as [-> _].
    apply (get_emddim_stored g j s a cs d Hg). by apply Hdims.
Qed.

Lemma get_emdgroup_stored (s : fileEMD) (g : path) (memmap : bool)
  (a : gmap string attr_val) (cs : list (string * node)) (dname : string)
  (da : gmap string attr_val) (arr : ndarray) (dims : list dim) :
  get_node (root (file_hdl s)) g = Some (Group a cs) →
  has_emd_type a = true →
  _get_dset_string g s = (s, Return dname) →
  child dname cs = Some (Dataset da arr) →
  memmap = true ∨ shape arr ≠ [] →
  length dims = ndim arr →
  (∀ i d, dims !! i = Some d → dim_stored cs i d) →
  get_emdgroup (GroupHandle g) memmap s = (s, Return (Some (arr, dims))).
Proof.
  intros Hg Ha Hname Hdata Hmem Hlen Hdims.
  assert (Hget : h5_get (g ++ [dname]) s = (s, Return (Dataset da arr))).
  { unfold h5_get. by rewrite (get_node_snoc _ g a cs dname Hg), Hdata. }
  rewrite (get_emdgroup_emd g memmap s a cs Hg Ha).
  unfold try_except, get_emdgroup_try, bind at 1. rewrite Hname.
  unfold bind at 1. rewrite Hget. unfold bind at 1, lift at 1. cbn [dataset_value].
  assert (Hslice : (if memmap then ret arr else lift (slice_all arr)) s
                   = (s, Return arr)).
  { destruct memmap; [done |]. destruct Hmem as [? | Hsh]; [done |].
    unfold lift, slice_all. by destruct (shape arr). }
  unfold bind at 1. rewrite Hslice. unfold bind.
  by rewrite (get_emddims_stored s g a cs dname da arr dims Hg Hname Hdata Hlen Hdims).
Qed.

(** C9, amended.  Let [g] be the handle of a group of the open file.  If
    the group has no [emd_group_type] or the comparison of the attribute
    with 1 comes out false, [get_emdgroup] raises its type error and changes
    nothing; if the comparison has no truth value, as for an array of two or
    more elements, [ValueError] comes out instead.  If the group carries
    [emd_group_type] equal to 1, the call either returns the array with one
    dim triple per axis, changing nothing, or prints the content message,
    which quotes the name of the group, and returns [None]: nothing in
    between.  It prints and returns [None] in particular when the dataset is
    missing, and when the dim vector of some axis is missing, as it is when
    the group holds fewer dim vectors than the array has axes.  Nothing else
    about the dim vectors is checked: when the dataset is there and every
    axis has its dim vector, with name and units stored as UTF-8 byte
    strings, the array and the dims are returned, whatever else the group
    holds and whatever the lengths of the vectors. *)
Theorem get_emdgroup_errors (s : fileEMD) (g : path) (memmap : bool)
  (a : gmap string attr_val) (cs : list (string * node)) :
  get_node (root (file_hdl s)) g = Some (Group a cs) →
  (emd_type_test a = Return false →
     get_emdgroup (GroupHandle g) memmap s = (s, Raise not_emd_group))
  ∧ (∀ e, emd_type_test a = Raise e →
       get_emdgroup (GroupHandle g) memmap s = (s, Raise ambiguous_truth))
  ∧ (has_emd_type a = true →
     get_emdgroup (GroupHandle g) memmap s
     = (set_stdout (emd_stdout s ++ [content_message g]) s, Return None)
     ∨ ∃ arr dims,
         get_emdgroup (GroupHandle g) memmap s = (s, Return (Some (arr, dims)))
         ∧ length dims = ndim arr)
  ∧ (has_emd_type a = true →
     ∀ dname, _get_dset_string g s = (s, Return dname) →
       child dname cs = None
       ∨ (∃ da arr i, child dname cs = Some (Dataset da arr)
                      ∧ i < ndim arr ∧ child (dim_label i) cs = None) →
       get_emdgroup (GroupHandle g) memmap s
       = (set_stdout (emd_stdout s ++ [content_message g]) s, Return None))
  ∧ (has_emd_type a = true →
     ∀ dname da arr dims, _get_dset_string g s = (s, Return dname) →
       child dname cs = Some (Dataset da arr) →
       memmap = true ∨ shape arr ≠ [] →
       length dims = ndim arr →
       (∀ i d, dims !! i = Some d → dim_stored cs i d) →
       get_emdgroup (GroupHandle g) memmap s = (s, Return (Some (arr, dims)))).
Proof.
  intros Hg. split; [| split; [| split; [| split]]].
  - intros Ha. by rewrite (get_emdgroup_handle g memmap s a cs Hg), Ha.
  - intros e Ha. rewrite (get_emdgroup_handle g memmap s a cs Hg), Ha.
    by rewrite (emd_type_test_raise a e Ha).
  - by apply (get_emdgroup_emd_outcomes g memmap s a cs).
  - intros Ha dname Hname Hmissing.
    rewrite (get_emdgroup_emd g memmap s a cs Hg Ha).
    assert (Hraise : ∃ e, get_emdgroup_try g memmap s = (s, Raise e)).
    { destruct Hmissing as [Hnone | (da & arr & i & Hd & Hi & Hdim)].
      - by apply (get_emdgroup_try_no_dataset g memmap s a cs dname).
      - by apply (get_emdgroup_try_no_dim g memmap s a cs dname da arr i). }
    destruct Hraise as [e He]. by rewrite (try_except_raised _ _ s e He).
  - intros Ha dname da arr dims Hname Hdata Hmem Hlen Hdims.
    by apply (get_emdgroup_stored s g memmap a cs dname da arr dims).
Qed.

(** ** Construction in read-only mode *)

Lemma keeps_file_unchanged {A : Type} (m : M A) : unchanged m → keeps_file m.
Proof. intros Hm s Hro. by rewrite (Hm s). Qed.

Lemma keeps_file_modify (f : fileEMD → fileEMD) :
  (∀ s, readonly (f s) = readonly s ∧ file_hdl (f s) = file_hdl s) →
  keeps_file (modify f).
Proof. intros Hf s Hro. cbn. destruct (Hf s) as [-> ->]. by split. Qed.

Lemma keeps_file_bind {A B : Type} (m : M A) (k : A → M B) :
  keeps_file m → (∀ a, keeps_file (k a)) → keeps_file (bind m k).
Proof.
  intros Hm Hk s Hro. unfold bind. destruct (Hm s Hro) as [Hro' Hf'].
  destruct (m s) as [s' [a | e]]; simpl in *; [| done].
  destruct (Hk a s' Hro') as [? ?]. split; [done | congruence].
Qed.

Lemma keeps_file_print line : keeps_file (print line).
Proof. by apply keeps_file_modify. Qed.

Lemma bind_gets {A B : Type} (f : fileEMD → A) (k : A → M B) s :
  bind (gets f) k s = k (f s) s.
Proof. reflexivity. Qed.

Lemma bind_h5_attrs_root {B : Type} (k : gmap string attr_val → M B) s :
  bind (h5_attrs []) k s = k (root_attrs s) s.
Proof. reflexivity. Qed.

Lemma bind_unchanged {A B : Type} (m : M A) (k : A → M B) s :
  unchanged m →
  bind m k s = match (m s).2 with
               | Return a => k a s
               | Raise e => (s, Raise e)
               end.
Proof. intros Hm. unfold bind. by rewrite (unchanged_run m s Hm). Qed.

Lemma keeps_file_check_version : keeps_file check_version.
Proof.
  intros s Hro. unfold check_version. rewrite bind_gets.
  assert (Hpresent : ∀ major minor z line,
    keeps_file (modify (set_version (Some (major, minor))) ;;
                same <- lift (version_is (major, minor) 0 z) ;;
                if negb same then print line else ret tt)).
  { intros major minor z line. apply keeps_file_bind; [by apply keeps_file_modify |].
    intros _. apply keeps_file_bind; [apply keeps_file_unchanged, unchanged_lift |].
    intros same.
    destruct (negb same); [apply keeps_file_print | by apply keeps_file_unchanged]. }
  destruct (self_class s).
  - unfold check_version_fileEMD. rewrite bind_h5_attrs_root.
    destruct (root_attrs s !! "version_major") as [major |];
      [destruct (root_attrs s !! "version_minor") as [minor |] |].
    + by apply Hpresent.
    + rewrite bind_gets. by rewrite Hro.
    + rewrite bind_gets. by rewrite Hro.
  - unfold check_version_fileEMD_v05. rewrite bind_h5_attrs_root.
    destruct (root_attrs s !! "version_major") as [major |];
      [destruct (root_attrs s !! "version_minor") as [minor |] |]; [| done | done].
    by apply Hpresent.
Qed.

Lemma keeps_file_init_group name set_field :
  (∀ p s, readonly (set_field p s) = readonly s
          ∧ file_hdl (set_field p s) = file_hdl s) →
  keeps_file (init_group name set_field).
Proof.
  intros Hset s Hro. unfold init_group.
  rewrite (bind_unchanged _ _ s (unchanged_h5_contains [] name)).
  destruct (h5_contains [] name s).2 as [[|] | e]; [| | done].
  - cbn. destruct (Hset (Some [name]) s) as [-> ->]. by split.
  - cbn [negb]. rewrite bind_gets. by rewrite Hro.
Qed.

(** On a read-only object the constructor creates nothing in the file. *)
Lemma keeps_file_init_opened : keeps_file init_opened.
Proof.
  unfold init_opened.
  apply keeps_file_bind; [apply keeps_file_check_version | intros _].
  repeat (apply keeps_file_bind; [by apply keeps_file_init_group | intros _]).
  apply keeps_file_bind; [by apply keeps_file_unchanged | intros r].
  apply keeps_file_bind; [apply keeps_file_unchanged, unchanged_lift | intros l].
  by apply keeps_file_modify.
Qed.

(** C10.  Whatever positional and keyword arguments follow the file name,
    constructing a [fileEMD_v05] is constructing the base class with
    [readonly=True].  If it yields an object, the object is read-only, its
    file is open in mode ['r'], and the file holds what was stored under the
    name before; when nothing is stored under the name it raises, creating
    nothing. *)
Theorem fileEMD_v05_opens_readonly (disk : option node) (fname : filename_arg)
  (args : list pyval) (kwargs : list (string * pyval)) :
  fileEMD_v05__init__ disk fname args kwargs
  = __init__ Class_fileEMD_v05 disk fname true
  ∧ (∀ out s, fileEMD_v05__init__ disk fname args kwargs = (out, Return s) →
       readonly s = true
       ∧ writable (file_hdl s) = false
       ∧ disk = Some (root (file_hdl s)))
  ∧ (disk = None →
     ∃ out e, fileEMD_v05__init__ disk fname args kwargs = (out, Raise e)).
Proof.
  split; [done |]. unfold fileEMD_v05__init__, __init__. split.
  - intros out s. destruct (filename_text fname) as [f |]; [| done].
    destruct disk as [r |]; [| done]. cbn [h5py_File negb].
    pose proof (keeps_file_init_opened
      (mk_fileEMD Class_fileEMD_v05 fname true (mk_h5file false r)
         None None None None None None [] []) eq_refl) as [Hro Hfile].
    destruct (init_opened _) as [s' [[] | e]]; [| done].
    intros [= _ <-]. cbn in Hro, Hfile. rewrite Hfile. by repeat split.
  - intros ->. destruct (filename_text fname) as [f |]; by eexists _, _.
Qed.

(** ** Writing a group *)

Lemma child_del_child {A : Type} k (l : list (string * A)) :
  child k (del_child k l) = None.
Proof.
  unfold del_child. induction l as [| [k' y] l IH]; [done |].
  rewrite filter_cons. cbn [fst]. case_decide; [| done].
  cbn [child]. by rewrite decide_False.
Qed.

Lemma child_del_child_ne {A : Type} k k' (l : list (string * A)) :
  k' ≠ k → child k' (del_child k l) = child k' l.
Proof.
  intros Hne. unfold del_child. induction l as [| [k0 y] l IH]; [done |].
  rewrite filter_cons. cbn [fst].
  destruct (decide (k0 = k)) as [-> | Hk0].
  - rewrite decide_False by (by intros H; apply H). cbn [child].
    by rewrite decide_False.
  - rewrite decide_True by done. cbn [child].
    destruct (decide (k' = k0)); [done | apply IH].
Qed.

Lemma set_child_fst {A : Type} k (x : A) l : (set_child k x l).*1 = l.*1.
Proof.
  induction l as [| [k' y] l IH]; [done |]. cbn [set_child].
  destruct (decide (k = k')); cbn; [done | by rewrite IH].
Qed.

Lemma set_child_Forall {A : Type} (P : string * A → Prop) k (x : A) l :
  Forall P l → (∀ k', P (k', x)) → Forall P (set_child k x l).
Proof.
  intros Hl Hx. induction l as [| [k' y] l IH]; [done |].
  apply Forall_cons in Hl as [Hy Hl]. cbn [set_child].
  destruct (decide (k = k')); apply Forall_cons; split; auto.
Qed.

Lemma set_child_set_child {A : Type} k (x y : A) l :
  set_child k y (set_child k x l) = set_child k y l.
Proof.
  induction l as [| [k' z] l IH]; [done |]. cbn [set_child].
  destruct (decide (k = k')) as [-> | Hne]; cbn [set_child].
  - by rewrite decide_True.
  - rewrite decide_False by done. by rewrite IH.
Qed.

Lemma child_set_child_ne {A : Type} k k' (x : A) l :
  k' ≠ k → child k' (set_child k x l) = child k' l.
Proof.
  intros Hne. induction l as [| [k0 z] l IH]; [done |]. cbn [set_child].
  destruct (decide (k = k0)) as [-> | Hne0]; cbn [child].
  - by rewrite !decide_False by done.
  - destruct (decide (k' = k0)); [done | apply IH].
Qed.

Lemma alter_node_app f q : ∀ p r,
  alter_node f r (p ++ q) = alter_node (fun n => alter_node f n q) r p.
Proof.
  induction p as [| k p IH]; intros r; [done |].
  destruct r as [a cs | a d]; [| done]. cbn [alter_node app].
  destruct (child k cs) as [c |]; [| done]. by rewrite IH.
Qed.

Lemma alter_node_refused f p : ∀ r n,
  get_node r p = Some n → f n = None → alter_node f r p = None.
Proof.
  induction p as [| k p IH]; intros r n Hget Hf.
  - by injection Hget as ->.
  - destruct r as [a cs | a d]; [| done]. cbn [get_node alter_node] in *.
    destruct (child k cs) as [c |]; [| done]. by rewrite (IH c n Hget Hf).
Qed.

Lemma alter_node_compose f g p : ∀ r r1,
  alter_node f r p = Some r1 →
  alter_node g r1 p
  = alter_node (fun n => match f n with Some n1 => g n1 | None => None end) r p.
Proof.
  induction p as [| k p IH]; intros r r1 Hf.
  - cbn [alter_node] in *. by rewrite Hf.
  - destruct r as [a cs | a d]; [| done]. cbn [alter_node] in *.
    destruct (child k cs) as [c |] eqn:Hc; [| done].
    destruct (alter_node f c p) as [c1 |] eqn:Hc1; [| done].
    injection Hf as <-. cbn [alter_node].
    rewrite (child_set_child k c c1 cs Hc), (IH c c1 Hc1).
    destruct (alter_node
                (fun n => match f n with Some n1 => g n1 | None => None end) c p);
      [| done].
    by rewrite set_child_set_child.
Qed.

Lemma alter_node_ext f g p : ∀ r n,
  get_node r p = Some n → f n = g n → alter_node f r p = alter_node g r p.
Proof.
  induction p as [| k p IH]; intros r n Hget Hfg.
  - by injection Hget as ->.
  - destruct r as [a cs | a d]; [| done]. cbn [get_node alter_node] in *.
    destruct (child k cs) as [c |]; [| done]. by rewrite (IH c n Hget Hfg).
Qed.

Lemma h5_change_run f p e s n n' :
  writable (file_hdl s) = true →
  get_node (root (file_hdl s)) p = Some n →
  f n = Some n' →
  ∃ r', h5_change f p e s = (set_file_hdl (mk_h5file true r') s, Return tt)
        ∧ get_node r' p = Some n'.
Proof.
  intros Hw Hget Hf.
  destruct (alter_node_get f p _ n n' Hget Hf) as (r' & Hr' & Hg').
  exists r'. split; [| done]. unfold h5_change. by rewrite Hw, Hr'.
Qed.

Lemma put_target_run s parent target :
  target_of s parent = Some target → put_target parent s = (s, Return target).
Proof.
  destruct parent as [p |]; cbn; [by intros [= ->] |].
  intros H. unfold bind. cbn [gets]. by rewrite H.
Qed.

(** For a label that is one link name, the h5py calls come down to the link
    table of the parent. *)
Lemma h5_contains_run s target a cs label :
  link_name label = true →
  get_node (root (file_hdl s)) target = Some (Group a cs) →
  h5_contains target label s
  = (s, Return (bool_decide (is_Some (child label cs)))).
Proof.
  intros Hl Hg. unfold h5_contains, bind at 1, h5_get. rewrite Hg.
  destruct (link_name_inv label Hl) as (Hne & Hdot & _).
  rewrite decide_False by done. rewrite bind_gets. cbn [ret].
  rewrite (is_absolute_link_name label Hl), (path_pieces_link_name label Hl).
  cbn [path_valid]. rewrite decide_False by done.
  destruct (child label cs) as [c |].
  - by rewrite bool_decide_eq_true_2 by (by eexists).
  - by rewrite bool_decide_eq_false_2 by (by intros [? ?]).
Qed.

Lemma h5_group_method_run p method s a cs :
  get_node (root (file_hdl s)) p = Some (Group a cs) →
  h5_group_method p method s = (s, Return tt).
Proof. intros Hg. unfold h5_group_method, bind, h5_get. by rewrite Hg. Qed.

Lemma h5_create_group_link parent label s a cs :
  link_name label = true →
  get_node (root (file_hdl s)) parent = Some (Group a cs) →
  h5_create_group parent label s
  = (h5_change (link_new label (Group ∅ [])) parent
       (ValueError "unable to create group") ;;
     ret (parent ++ [label])) s.
Proof.
  intros Hl Hg. unfold h5_create_group, bind at 1.
  rewrite (h5_group_method_run parent _ s a cs Hg).
  by rewrite (name_pieces_link_name label Hl), (name_base_link_name parent label Hl).
Qed.

Lemma h5_create_dataset_link parent label arr s a cs :
  link_name label = true →
  get_node (root (file_hdl s)) parent = Some (Group a cs) →
  h5_create_dataset parent label arr s
  = (h5_change (link_new label (Dataset ∅ arr)) parent
       (ValueError "unable to create dataset") ;;
     ret (parent ++ [label])) s.
Proof.
  intros Hl Hg. unfold h5_create_dataset, bind at 1.
  rewrite (h5_group_method_run parent _ s a cs Hg).
  by rewrite (name_pieces_link_name label Hl), (name_base_link_name parent label Hl).
Qed.

Lemma h5_delete_unlink parent label s a cs :
  link_name label = true →
  get_node (root (file_hdl s)) parent = Some (Group a cs) →
  h5_delete parent label s = h5_change (unlink label) parent (KeyError label) s.
Proof.
  intros Hl Hg. unfold h5_delete, bind at 1, h5_get. rewrite Hg.
  by rewrite (name_pieces_link_name label Hl), (name_base_link_name parent label Hl).
Qed.

Lemma link_name_data : link_name "data" = true.
Proof. reflexivity. Qed.

Lemma put_emdgroup_dims_ok label data_arr dims parent overwrite s :
  dims_consistent data_arr dims →
  put_emdgroup (PyStr label) (PyArray data_arr) dims parent overwrite s
  = try_except (put_emdgroup_body label data_arr dims parent overwrite)
      (fun _ => print write_failed_message ;; ret None) s.
Proof.
  intros Hd. unfold put_emdgroup, put_emdgroup_checked, bind at 1, try_except at 1.
  by rewrite (check_dims_consistent data_arr dims s Hd).
Qed.

(** What the creation part of [put_emdgroup] does under a free label: the
    group, its attribute and its dataset are made, which comes to linking
    the group with its dataset under the target.  With no dims the list of
    EMD groups is then refreshed and the group returned; with dims the call
    of [write_dim] raises before any dim vector is written. *)
Lemma put_emdgroup_create_run target label data_arr dims s a cs :
  link_name label = true →
  writable (file_hdl s) = true →
  get_node (root (file_hdl s)) target = Some (Group a cs) →
  child label cs = None →
  ∃ r', alter_node (link_new label (new_emd_group data_arr))
          (root (file_hdl s)) target = Some r'
        ∧ get_node r' target
          = Some (Group a (insert_child label (new_emd_group data_arr) cs))
        ∧ put_emdgroup_create target label data_arr dims s
          = match dims with
            | [] =>
                match find_emdgroups r' [] with
                | Return l =>
                    (set_list_emds l (set_file_hdl (mk_h5file true r') s),
                     Return (Some (target ++ [label])))
                | Raise e => (set_file_hdl (mk_h5file true r') s, Raise e)
                end
            | _ :: _ => (set_file_hdl (mk_h5file true r') s, Raise write_dim_arity)
            end.
Proof.
  intros Hl Hw Hg Hfree. set (r := root (file_hdl s)) in *.
  set (f1 := link_new label (Group ∅ [])).
  set (f2 := put_attr "emd_group_type" (AInt 1)).
  set (f3 := link_new "data" (Dataset ∅ data_arr)).
  set (F2 := link_new label (Group {[ "emd_group_type" := AInt 1 ]} [])).
  set (F3 := link_new label (new_emd_group data_arr)).
  destruct (alter_node_get f1 target r (Group a cs)
              (Group a (insert_child label (Group ∅ []) cs)) Hg)
    as (r1 & Hr1 & Hg1); [by unfold f1; cbn; rewrite Hfree |].
  assert (H2 : alter_node f2 r1 (target ++ [label]) = alter_node F2 r target).
  { rewrite alter_node_app, (alter_node_compose f1 _ target r r1 Hr1).
    apply (alter_node_ext _ _ target r (Group a cs) Hg).
    unfold f1, F2. cbn [link_new]. rewrite Hfree. cbn [alter_node].
    rewrite (child_insert_child label _ cs Hfree). cbn [f2 put_attr].
    by rewrite (set_child_insert_child label _ _ cs Hfree). }
  destruct (alter_node_get F2 target r (Group a cs)
              (Group a (insert_child label
                          (Group {[ "emd_group_type" := AInt 1 ]} []) cs))
              Hg) as (r2 & Hr2 & Hg2); [by unfold F2; cbn; rewrite Hfree |].
  assert (H3 : alter_node f3 r2 (target ++ [label]) = alter_node F3 r target).
  { rewrite alter_node_app, (alter_node_compose F2 _ target r r2 Hr2).
    apply (alter_node_ext _ _ target r (Group a cs) Hg).
    unfold F2, F3. cbn [link_new]. rewrite Hfree. cbn [alter_node].
    rewrite (child_insert_child label _ cs Hfree).
    cbn [f3 link_new child insert_child].
    by rewrite (set_child_insert_child label _ _ cs Hfree). }
  destruct (alter_node_get F3 target r (Group a cs)
              (Group a (insert_child label (new_emd_group data_arr) cs)) Hg)
    as (r' & Hr' & Hg'); [by unfold F3; cbn; rewrite Hfree |].
  exists r'. split; [done |]. split; [done |].
  unfold put_emdgroup_create.
  unfold bind at 1. rewrite (h5_create_group_link target label s a cs Hl Hg).
  unfold bind at 1, h5_change at 1. rewrite Hw. fold r f1. rewrite Hr1. cbn [ret].
  unfold bind at 1, h5_set_attr, h5_change at 1.
  cbn [file_hdl set_file_hdl writable root]. fold f2. rewrite H2, Hr2.
  unfold bind at 1.
  rewrite (h5_create_dataset_link (target ++ [label]) "data" data_arr _
             {[ "emd_group_type" := AInt 1 ]} [] link_name_data).
  2: { cbn [file_hdl set_file_hdl root].
       rewrite (get_node_snoc _ _ _ _ label Hg2). by apply child_insert_child. }
  unfold bind at 1, h5_change at 1.
  cbn [file_hdl set_file_hdl writable root]. fold f3. rewrite H3, Hr'. cbn [ret].
  destruct dims as [| d dims].
  - cbn [length seq for_each]. unfold bind at 1. cbn [ret].
    rewrite bind_gets. cbn [file_hdl set_file_hdl root].
    unfold bind at 1, lift. by destruct (find_emdgroups r' []).
  - cbn [length seq for_each]. by unfold bind.
Qed.

Lemma put_emdgroup_body_free label data_arr dims parent overwrite s target a cs :
  link_name label = true →
  target_of s parent = Some target →
  get_node (root (file_hdl s)) target = Some (Group a cs) →
  child label cs = None →
  put_emdgroup_body label data_arr dims parent overwrite s
  = put_emdgroup_create target label data_arr dims s.
Proof.
  intros Hl Ht Hg Hfree. unfold put_emdgroup_body, bind at 1.
  rewrite (put_target_run s parent target Ht). unfold bind at 1.
  rewrite (h5_contains_run s target a cs label Hl Hg), Hfree.
  rewrite bool_decide_eq_false_2 by (by intros [? ?]). by unfold bind at 1.
Qed.

(** C5.  Let the label be one link name that is occupied under the target,
    the parent if one is given and [self.data] otherwise, and let the dims
    fit the array.  With [overwrite=False], [put_emdgroup] prints the
    already-exists message and then the failure message, returns [None],
    and leaves the object and the file as they were.  With [overwrite=True]
    on a writable file it prints the overwriting message, unlinks the label
    and links a new group in its place, which holds [emd_group_type = 1] and
    the dataset [data] with the new array and nothing else; the other
    members of the target are kept.  For an array without axes, with no
    dims, the list of EMD groups is then refreshed and the new group
    returned.  For every array with at least one axis the creation does not
    proceed to the end: no dim vector is written, the failure message is
    printed and [None] is returned, the old group being gone. *)
Theorem put_emdgroup_overwrite (s : fileEMD) (label : string)
  (data_arr : ndarray) (dims : list dim) (parent : option path)
  (target : path) (a : gmap string attr_val) (cs : list (string * node))
  (old : node) :
  link_name label = true →
  dims_consistent data_arr dims →
  target_of s parent = Some target →
  get_node (root (file_hdl s)) target = Some (Group a cs) →
  child label cs = Some old →
  put_emdgroup (PyStr label) (PyArray data_arr) dims parent false s
  = (set_stdout
       (emd_stdout s ++ [exists_message label target; write_failed_message]) s,
     Return None)
  ∧ (writable (file_hdl s) = true →
     ∃ r0 r1 cs1,
       alter_node (unlink label) (root (file_hdl s)) target = Some r0
       ∧ get_node r0 target = Some (Group a (del_child label cs))
       ∧ alter_node (link_new label (new_emd_group data_arr)) r0 target = Some r1
       ∧ get_node r1 target = Some (Group a cs1)
       ∧ child label cs1 = Some (new_emd_group data_arr)
       ∧ (∀ k, k ≠ label → child k cs1 = child k cs)
       ∧ (dims ≠ [] →
          put_emdgroup (PyStr label) (PyArray data_arr) dims parent true s
          = (set_file_hdl (mk_h5file true r1)
               (set_stdout
                  (emd_stdout s
                   ++ [overwriting_message label target; write_failed_message]) s),
             Return None))
       ∧ (dims = [] → ∀ l, find_emdgroups r1 [] = Return l →
          put_emdgroup (PyStr label) (PyArray data_arr) dims parent true s
          = (set_list_emds l
               (set_file_hdl (mk_h5file true r1)
                  (set_stdout
                     (emd_stdout s ++ [overwriting_message label target]) s)),
             Return (Some (target ++ [label]))))).
Proof.
  intros Hl Hd Ht Hg Hold. split.
  - rewrite (put_emdgroup_dims_ok _ _ _ _ _ _ Hd).
    unfold try_except, put_emdgroup_body, bind at 1.
    rewrite (put_target_run s parent target Ht). unfold bind at 1.
    rewrite (h5_contains_run s target a cs label Hl Hg), Hold.
    rewrite bool_decide_eq_true_2 by (by eexists).
    cbn. unfold set_stdout. cbn. by rewrite <- app_assoc.
  - intros Hw.
    set (s0 := set_stdout (emd_stdout s ++ [overwriting_message label target]) s).
    destruct (h5_change_run (unlink label) target (KeyError label) s0
                (Group a cs) (Group a (del_child label cs)) Hw Hg)
      as (r0 & H0 & Hg0); [by cbn; rewrite Hold |].
    set (s1 := set_file_hdl (mk_h5file true r0) s0) in *.
    assert (Hfree : child label (del_child label cs) = None)
      by apply child_del_child.
    assert (Halter : alter_node (unlink label) (root (file_hdl s)) target = Some r0).
    { unfold h5_change in H0. cbn in H0. rewrite Hw in H0.
      destruct (alter_node (unlink label) (root (file_hdl s)) target); [| done].
      by injection H0 as ->. }
    destruct (put_emdgroup_create_run target label data_arr dims s1 a
                (del_child label cs) Hl eq_refl Hg0 Hfree)
      as (r1 & Hr1 & Hg1 & Hcreate).
    assert (Hrun : put_emdgroup (PyStr label) (PyArray data_arr) dims parent true s
                   = try_except (put_emdgroup_create target label data_arr dims)
                       (fun _ => print write_failed_message ;; ret None) s1).
    { rewrite (put_emdgroup_dims_ok _ _ _ _ _ _ Hd). unfold try_except.
      unfold put_emdgroup_body, bind at 1.
      rewrite (put_target_run s parent target Ht). unfold bind at 1.
      rewrite (h5_contains_run s target a cs label Hl Hg), Hold.
      rewrite bool_decide_eq_true_2 by (by eexists).
      unfold bind at 1, bind at 1. cbn [print modify]. fold s0.
      by rewrite (h5_delete_unlink target label s0 a cs Hl Hg), H0. }
    exists r0, r1, (insert_child label (new_emd_group data_arr) (del_child label cs)).
    split; [done |]. split; [done |]. split; [done |]. split; [done |].
    split; [by apply child_insert_child |]. split; [| split].
    + intros k Hk. by rewrite child_insert_child_ne, child_del_child_ne.
    + intros Hdims. rewrite Hrun. unfold try_except. rewrite Hcreate.
      destruct dims as [| d dims]; [done |]. cbn. unfold set_stdout. cbn.
      by rewrite <- app_assoc.
    + intros -> l Hfind. rewrite Hrun. unfold try_except. rewrite Hcreate.
      cbn [file_hdl set_file_hdl root] in Hfind |- *. by rewrite Hfind.
Qed.

(** ** Writing and reading back *)

(** With at least one dim, [put_emdgroup] under a free label makes the group
    and its dataset, fails at the first call of [write_dim] and returns
    [None]; reading the group back then fails on [dim1] and returns [None]
    as well. *)
Lemma put_emdgroup_drops_dims (s : fileEMD) label data_arr d dims parent overwrite
  target a cs :
  link_name label = true →
  self_class s = Class_fileEMD →
  writable (file_hdl s) = true →
  dims_consistent data_arr (d :: dims) →
  target_of s parent = Some target →
  get_node (root (file_hdl s)) target = Some (Group a cs) →
  child label cs = None →
  ∃ s1, put_emdgroup (PyStr label) (PyArray data_arr) (d :: dims) parent overwrite s
        = (s1, Return None)
        ∧ get_node (root (file_hdl s1)) (target ++ [label])
          = Some (new_emd_group data_arr)
        ∧ ∀ memmap,
            get_emdgroup (GroupHandle (target ++ [label])) memmap s1
            = (set_stdout (emd_stdout s1 ++ [content_message (target ++ [label])]) s1,
               Return None).
Proof.
  intros Hl Hc Hw Hd Ht Hg Hfree.
  destruct (put_emdgroup_create_run target label data_arr (d :: dims) s a cs
              Hl Hw Hg Hfree) as (r4 & _ & Hg4 & Hrun).
  set (s1 := set_stdout (emd_stdout s ++ [write_failed_message])
               (set_file_hdl (mk_h5file true r4) s)).
  assert (Hg1 : get_node (root (file_hdl s1)) (target ++ [label])
                = Some (new_emd_group data_arr)).
  { cbn [s1 file_hdl set_stdout set_file_hdl root].
    rewrite (get_node_snoc _ _ _ _ label Hg4). by apply child_insert_child. }
  exists s1. split; [| split; [done |]].
  - rewrite (put_emdgroup_dims_ok _ _ _ _ _ _ Hd). unfold try_except.
    by rewrite (put_emdgroup_body_free _ _ _ _ _ _ target a cs Hl Ht Hg Hfree), Hrun.
  - intros memmap.
    rewrite (get_emdgroup_emd _ memmap s1 _ _ Hg1) by done.
    destruct (get_emdgroup_try_no_dim (target ++ [label]) memmap s1 _ _
                "data" ∅ data_arr 0 Hg1) as [e He]; [| done | | done |].
    + unfold _get_dset_string, bind. cbn [gets].
      change (self_class s1) with (self_class s). by rewrite Hc.
    + destruct Hd as [Hlen _]. simpl in Hlen. lia.
    + by rewrite (try_except_raised _ _ s1 e He).
Qed.

(** * Further properties of the module *)

(** ** Files opened in mode ['r'] *)

(** A method body that leaves a file that is not writable as it is. *)
Definition frozen {A : Type} (m : M A) : Prop :=
  ∀ s, writable (file_hdl s) = false → file_hdl (m s).1 = file_hdl s.

Lemma frozen_unchanged {A : Type} (m : M A) : unchanged m → frozen m.
Proof. intros Hm s _. by rewrite (Hm s). Qed.

Lemma frozen_modify (f : fileEMD → fileEMD) :
  (∀ s, file_hdl (f s) = file_hdl s) → frozen (modify f).
Proof. intros Hf s _. apply Hf. Qed.

Lemma frozen_print line : frozen (print line).
Proof. by apply frozen_modify. Qed.

Lemma frozen_bind {A B : Type} (m : M A) (k : A → M B) :
  frozen m → (∀ a, frozen (k a)) → frozen (bind m k).
Proof.
  intros Hm Hk s Hw. unfold bind. specialize (Hm s Hw).
  destruct (m s) as [s' [a | e]]; simpl in *; [| done].
  rewrite <- Hm. apply Hk. by rewrite Hm.
Qed.

Lemma frozen_try_except {A : Type} (m : M A) (h : exn → M A) :
  frozen m → (∀ e, frozen (h e)) → frozen (try_except m h).
Proof.
  intros Hm Hh s Hw. unfold try_except. specialize (Hm s Hw).
  destruct (m s) as [s' [a | e]]; simpl in *; [done |].
  rewrite <- Hm. apply Hh. by rewrite Hm.
Qed.

Lemma frozen_for_each {A : Type} (l : list A) (body : A → M unit) :
  (∀ x, frozen (body x)) → frozen (for_each l body).
Proof.
  intros Hb. induction l as [| x l IH]; [by apply frozen_unchanged |].
  apply frozen_bind; [apply Hb | by intros _].
Qed.

Lemma h5_change_readonly f p e s :
  writable (file_hdl s) = false →
  h5_change f p e s = (s, Raise (OSError "file is not open for writing")).
Proof. intros Hw. unfold h5_change. by rewrite Hw. Qed.

Lemma frozen_h5_change f p e : frozen (h5_change f p e).
Proof. intros s Hw. by rewrite (h5_change_readonly f p e s Hw). Qed.

Lemma frozen_h5_create_group parent label : frozen (h5_create_group parent label).
Proof.
  apply frozen_bind; [apply frozen_unchanged, unchanged_h5_group_method | intros _].
  apply frozen_bind; [apply frozen_h5_change | intros _].
  apply frozen_unchanged, unchanged_ret.
Qed.

Lemma frozen_h5_create_dataset parent label arr :
  frozen (h5_create_dataset parent label arr).
Proof.
  apply frozen_bind; [apply frozen_unchanged, unchanged_h5_group_method | intros _].
  apply frozen_bind; [apply frozen_h5_change | intros _].
  apply frozen_unchanged, unchanged_ret.
Qed.

Lemma frozen_h5_delete parent label : frozen (h5_delete parent label).
Proof.
  apply frozen_bind; [apply frozen_unchanged, unchanged_h5_get |].
  intros [a cs | a d]; [apply frozen_h5_change |].
  apply frozen_unchanged, unchanged_raise.
Qed.

Lemma frozen_write_dim args : frozen (write_dim args).
Proof.
  unfold write_dim.
  destruct args as [| l [| d [| p [| x args]]]];
    try (apply frozen_unchanged, unchanged_raise).
  apply frozen_try_except; [| intros e; apply frozen_unchanged, unchanged_raise].
  destruct l; try (apply frozen_unchanged, unchanged_raise).
  destruct d as [| | | | | [[vec name] units] |];
    try (apply frozen_unchanged, unchanged_raise).
  destruct p; try (apply frozen_unchanged, unchanged_raise).
  apply frozen_bind; [apply frozen_h5_create_dataset | intros dset].
  apply frozen_bind; [apply frozen_unchanged, unchanged_lift | intros name'].
  apply frozen_bind; [apply frozen_h5_change | intros _].
  apply frozen_bind; [apply frozen_unchanged, unchanged_lift | intros units'].
  apply frozen_bind; [apply frozen_h5_change | intros _].
  apply frozen_unchanged, unchanged_ret.
Qed.

Lemma unchanged_put_target parent : unchanged (put_target parent).
Proof.
  destruct parent as [p |]; [apply unchanged_ret |].
  apply unchanged_bind; [apply unchanged_gets |].
  intros [p |]; [apply unchanged_ret | apply unchanged_raise].
Qed.

Lemma frozen_put_emdgroup label data dims parent overwrite :
  frozen (put_emdgroup label data dims parent overwrite).
Proof.
  unfold put_emdgroup.
  destruct label; try (apply frozen_unchanged, unchanged_raise).
  destruct data; try (apply frozen_unchanged, unchanged_raise).
  apply frozen_bind.
  { apply frozen_unchanged, unchanged_try_except; [apply check_dims_unchanged |].
    intros e. apply unchanged_raise. }
  intros _. apply frozen_try_except.
  2: { intros e. apply frozen_bind; [apply frozen_print | intros _].
       apply frozen_unchanged, unchanged_ret. }
  apply frozen_bind; [apply frozen_unchanged, unchanged_put_target | intros target].
  apply frozen_bind; [apply frozen_unchanged, unchanged_h5_contains | intros occ].
  apply frozen_bind.
  { destruct occ; [| apply frozen_unchanged, unchanged_ret].
    destruct overwrite.
    - apply frozen_bind; [apply frozen_print | intros _]. apply frozen_h5_delete.
    - apply frozen_bind; [apply frozen_print | intros _].
      apply frozen_unchanged, unchanged_raise. }
  intros _. unfold put_emdgroup_create.
  apply frozen_bind; [apply frozen_h5_create_group | intros grp].
  apply frozen_bind; [apply frozen_h5_change | intros _].
  apply frozen_bind; [apply frozen_h5_create_dataset | intros _].
  apply frozen_bind.
  { apply frozen_for_each. intros i.
    apply frozen_bind; [apply frozen_unchanged, unchanged_lift | intros d].
    apply frozen_bind; [apply frozen_write_dim | intros _].
    apply frozen_unchanged, unchanged_ret. }
  intros _. apply frozen_bind; [apply frozen_unchanged, unchanged_gets | intros r].
  apply frozen_bind; [apply frozen_unchanged, unchanged_lift | intros l].
  apply frozen_bind; [by apply frozen_modify | intros _].
  apply frozen_unchanged, unchanged_ret.
Qed.

(** On a file that is not writable the second [try] block always raises. *)
Lemma put_emdgroup_body_readonly label data_arr dims parent overwrite s :
  writable (file_hdl s) = false →
  ∃ s' e, put_emdgroup_body label data_arr dims parent overwrite s = (s', Raise e).
Proof.
  intros Hw. unfold put_emdgroup_body.
  rewrite (bind_unchanged _ _ s (unchanged_put_target parent)).
  destruct (put_target parent s).2 as [target | e]; [| by eexists _, _].
  rewrite (bind_unchanged _ _ s (unchanged_h5_contains target label)).
  destruct (h5_contains target label s).2 as [occ | e]; [| by eexists _, _].
  destruct occ; [destruct overwrite |].
  - unfold bind at 1, bind at 1. cbn [print modify].
    set (s0 := set_stdout _ s). unfold h5_delete.
    rewrite (bind_unchanged _ _ s0 (unchanged_h5_get target)).
    destruct (h5_get target s0).2 as [[a cs | a d] | e];
      [| by eexists _, _ | by eexists _, _].
    rewrite (h5_change_readonly _ _ _ s0 Hw). by eexists _, _.
  - eexists _, _. unfold bind at 1, bind at 1. by cbn [print modify].
  - unfold bind at 1. cbn [ret].
    unfold put_emdgroup_create, bind at 1, h5_create_group.
    rewrite (bind_unchanged _ _ s (unchanged_h5_group_method target _)).
    destruct (h5_group_method target _ s).2; [| by eexists _, _].
    unfold bind at 1. rewrite (h5_change_readonly _ _ _ s Hw). by eexists _, _.
Qed.

Lemma put_emdgroup_unfold label data_arr dims parent overwrite s :
  put_emdgroup (PyStr label) (PyArray data_arr) dims parent overwrite s
  = match (check_dims data_arr dims s).2 with
    | Return _ =>
        try_except (put_emdgroup_body label data_arr dims parent overwrite)
          (fun _ => print write_failed_message ;; ret None) s
    | Raise _ => (s, Raise dims_error)
    end.
Proof.
  unfold put_emdgroup, put_emdgroup_checked, bind at 1, try_except at 1.
  rewrite (unchanged_run _ s (check_dims_unchanged data_arr dims)).
  by destruct (check_dims data_arr dims s).2.
Qed.


(** X2.  On an object whose file is not open for writing, [put_emdgroup]
    leaves the file as it is and never returns a group.  Called with a
    [str] label and an array it returns [None] or raises its dims error;
    otherwise it raises the [TypeError] of the label check or of the data
    check.  Whenever it raises, nothing is changed. *)
Theorem put_emdgroup_readonly (s : fileEMD) (label data : pyval)
  (dims : list dim) (parent : option path) (overwrite : bool) :
  writable (file_hdl s) = false →
  file_hdl (put_emdgroup label data dims parent overwrite s).1 = file_hdl s
  ∧ (∀ l d, label = PyStr l → data = PyArray d →
       (put_emdgroup label data dims parent overwrite s).2 = Return None
       ∨ put_emdgroup label data dims parent overwrite s
         = (s, Raise (TypeError "Something wrong with the provided dims")))
  ∧ ((∀ l, label ≠ PyStr l) →
     put_emdgroup label data dims parent overwrite s
     = (s, Raise (TypeError "label needs to be string!")))
  ∧ ((∃ l, label = PyStr l) → (∀ d, data ≠ PyArray d) →
     put_emdgroup label data dims parent overwrite s
     = (s, Raise (TypeError "data needs to be a numpy.ndarray!"))).
Proof.
  intros Hw. split; [by apply frozen_put_emdgroup |]. split; [| split].
  - intros l arr -> ->. rewrite put_emdgroup_unfold.
    destruct (check_dims arr dims s).2 as [[] | e0]; [left | by right].
    unfold try_except.
    by destruct (put_emdgroup_body_readonly l arr dims parent overwrite s Hw)
      as (s1 & e1 & ->).
  - intros Hl. destruct label; try done. by destruct (Hl s0).
  - intros [l ->] Hd. destruct data; try done. by destruct (Hd a).
Qed.

(** X3.  On an object whose file is not open for writing, [put_comment]
    always raises and changes nothing, whatever the message and whether or
    not the file has a comments group. *)
Theorem put_comment_readonly_raises (s : fileEMD) (msg : pyval)
  (timestamp : option string) (utcnow : string) :
  writable (file_hdl s) = false →
  ∃ e, put_comment msg timestamp utcnow s = (s, Raise e).
Proof.
  intros Hw. unfold put_comment. destruct msg; try by eexists.
  rewrite bind_gets.
  destruct (comments s) as [cg |]; [| by eexists].
  rewrite (bind_unchanged _ _ s (unchanged_h5_attrs cg)).
  destruct (h5_attrs cg s).2 as [a | e]; [| by eexists].
  destruct (a !! comment_key timestamp utcnow) as [old |].
  - unfold bind at 1, lift at 1. destruct (np_string_ _); [| by eexists].
    unfold bind at 1, lift at 1. destruct (bytes_add old _); [| by eexists].
    unfold bind at 1, lift at 1. destruct (vlen_of_bytes _); [| by eexists].
    unfold h5_set_attr. rewrite (h5_change_readonly _ _ _ s Hw). by eexists.
  - unfold bind at 1, lift at 1. destruct (np_string_ _); [| by eexists].
    unfold h5_set_attr. rewrite (h5_change_readonly _ _ _ s Hw). by eexists.
Qed.

(** ** [write_dim] *)

(** A change of a member of the group [p], seen from [p]. *)
Lemma h5_change_child f p k e s a cs c c' :
  writable (file_hdl s) = true →
  get_node (root (file_hdl s)) p = Some (Group a cs) →
  child k cs = Some c →
  f c = Some c' →
  ∃ r', h5_change f (p ++ [k]) e s = (set_file_hdl (mk_h5file true r') s, Return tt)
        ∧ get_node r' p = Some (Group a (set_child k c' cs)).
Proof.
  intros Hw Hget Hc Hf.
  destruct (alter_node_get (fun n => alter_node f n [k]) p _
              (Group a cs) (Group a (set_child k c' cs)) Hget)
    as (r' & Hr' & Hg').
  { cbn [alter_node]. by rewrite Hc, Hf. }
  exists r'. split; [| done].
  unfold h5_change. by rewrite Hw, alter_node_app, Hr'.
Qed.

Definition write_dim_error : exn := RuntimeError "Error during writing dim dataset".

Lemma try_except_reraise {A : Type} (m : M A) (e0 : exn) s s' e :
  try_except m (fun _ => raise e0) s = (s', Raise e) → e = e0.
Proof.
  unfold try_except. destruct (m s) as [s1 [r | e1]]; [done |].
  by intros [= _ <-].
Qed.

(** Where h5py's test [name in group] finds the name, nothing can be linked
    under it. *)
Lemma link_at_occupied new : ∀ pieces n,
  path_valid n pieces = true →
  link_at (filter (fun p => p ≠ ".") pieces) new n = None.
Proof.
  induction pieces as [| p rest IH]; intros n Hvalid; [done |].
  cbn [path_valid] in Hvalid. rewrite filter_cons.
  destruct (decide (p = ".")) as [-> | Hp].
  - rewrite decide_False by (by intros H; apply H). by apply IH.
  - rewrite decide_True by done.
    destruct n as [a cs | a d]; [| done].
    destruct (child p cs) as [c |] eqn:Hc; [| done].
    cbn [link_at]. destruct (filter (fun p => p ≠ ".") rest) as [| k ks] eqn:Hrest.
    + cbn [link_new]. by rewrite Hc.
    + rewrite Hc. destruct rest as [| p' rest']; [done |].
      apply andb_true_iff in Hvalid as [_ Hvalid].
      by rewrite (IH c Hvalid).
Qed.

Lemma h5_contains_true parent label s :
  h5_contains parent label s = (s, Return true) →
  (∃ a cs, get_node (root (file_hdl s)) parent = Some (Group a cs))
  ∧ ∃ n, get_node (root (file_hdl s)) (name_base parent label) = Some n
         ∧ path_valid n (path_pieces label) = true.
Proof.
  unfold h5_contains, bind at 1, h5_get.
  destruct (get_node (root (file_hdl s)) parent) as [[a cs | a d] |] eqn:Hg;
    [| | done].
  2: { unfold lift, dataset_contains.
       destruct (shape d) as [| [| n] rest]; [done | done |]. by case_decide. }
  destruct (decide (label = "")); [done |].
  rewrite bind_gets. cbn [ret]. intros [= Hvalid]. split; [by eexists _, _ |].
  unfold name_base. destruct (is_absolute label).
  - by exists (root (file_hdl s)).
  - by exists (Group a cs).
Qed.

(** X4.  [write_dim] applied to other than three arguments raises the
    interpreter's [TypeError] and changes nothing.  Applied to three
    arguments it lets out no exception but its own [RuntimeError]; it raises
    it, changing nothing, when the label is already linked in the parent:
    for a label that is one link name, when the parent has a member of that
    name, and for every label, when h5py's test [label in parent] holds. *)
Theorem write_dim_outcomes (args : list pyval) (s : fileEMD) :
  (length args ≠ 3 → write_dim args s = (s, Raise write_dim_arity))
  ∧ (length args = 3 →
     ∀ s' e, write_dim args s = (s', Raise e) → e = write_dim_error)
  ∧ (∀ label d parent a cs,
       args = [PyStr label; PyDim d; PyGroup parent] →
       link_name label = true →
       get_node (root (file_hdl s)) parent = Some (Group a cs) →
       is_Some (child label cs) →
       write_dim args s = (s, Raise write_dim_error))
  ∧ (∀ label d parent,
       args = [PyStr label; PyDim d; PyGroup parent] →
       h5_contains parent label s = (s, Return true) →
       write_dim args s = (s, Raise write_dim_error)).
Proof.
  assert (Hocc : ∀ label d parent,
            args = [PyStr label; PyDim d; PyGroup parent] →
            h5_contains parent label s = (s, Return true) →
            write_dim args s = (s, Raise write_dim_error)).
  { intros label [[vec name] units] parent -> Hin.
    apply h5_contains_true in Hin as [(a & cs & Hparent) (n & Hbase & Hvalid)].
    unfold write_dim, try_except, bind at 1, h5_create_dataset, bind at 1.
    rewrite (h5_group_method_run parent _ s a cs Hparent).
    unfold bind at 1, h5_change. destruct (writable (file_hdl s)); [| done].
    rewrite (alter_node_refused _ _ _ n Hbase); [done |].
    by apply link_at_occupied. }
  split; [| split; [| split; [| done]]].
  - intros Hlen. by destruct args as [| x [| y [| z [| w args]]]].
  - intros Hlen s' e. destruct args as [| x [| y [| z [| w args]]]]; try done.
    unfold write_dim. apply try_except_reraise.
  - intros label d parent a cs Hargs Hl Hget [c Hc].
    apply (Hocc label d parent Hargs).
    rewrite (h5_contains_run s parent a cs label Hl Hget), Hc.
    by rewrite bool_decide_eq_true_2 by (by eexists).
Qed.

(** The decimal text of a number holds digits only, so [dim1], [dim2], ...
    are link names. *)
Definition is_digit (c : ascii) : bool := byte_between 48 57 c.

Lemma pretty_N_char_digit x : is_digit (pretty_N_char x) = true.
Proof. unfold pretty_N_char. by repeat case_match. Qed.

Lemma pretty_N_go_digits x : ∀ s,
  string_forall is_digit s = true →
  string_forall is_digit (pretty_N_go x s) = true.
Proof.
  induction (N.lt_wf_0 x) as [x _ IH]; intros s Hs.
  assert (x = 0 ∨ 0 < x)%N as [-> | Hx] by lia.
  - by rewrite pretty_N_go_0.
  - rewrite pretty_N_go_step by done. apply IH; [by apply N.div_lt |].
    cbn [string_forall]. by rewrite pretty_N_char_digit.
Qed.

Lemma pretty_nat_digits (n : nat) : string_forall is_digit (pretty n) = true.
Proof.
  unfold pretty, pretty_nat, pretty, pretty_N. case_decide; [done |].
  by apply pretty_N_go_digits.
Qed.

Lemma digits_slash_free s : string_forall is_digit s = true → slash_free s = true.
Proof.
  induction s as [| c s IH]; [done |]. cbn [string_forall slash_free].
  rewrite !andb_true_iff. intros [Hc Hs]. split; [| by apply IH].
  apply negb_true_iff, Ascii.eqb_neq. intros ->. done.
Qed.

Lemma digits_no_nul s : string_forall is_digit s = true → no_nul s = true.
Proof. apply string_forall_weaken. intros c. by apply byte_between_weaken. Qed.

Lemma link_name_dim_label i : link_name (dim_label i) = true.
Proof.
  pose proof (pretty_nat_digits (i + 1)) as Hd.
  unfold link_name, dim_label.
  change ("dim" +:+ pretty (i + 1))
    with (String "d" (String "i" (String "m" (pretty (i + 1))))).
  cbn [String.eqb slash_free Ascii.eqb Bool.eqb negb andb].
  unfold no_nul. cbn [string_forall]. rewrite (digits_slash_free _ Hd).
  apply (digits_no_nul _) in Hd. unfold no_nul in Hd. by rewrite Hd.
Qed.

(** X5.  On a writable file, [write_dim] called with the label [dim{i+1}],
    a dim triple, and a group that has no member of that label links the
    new dataset under the label; the other members of the group are kept.
    When name and units are ASCII text without NUL, it returns the handle
    of the new dataset, which holds the vector with the name and the units
    stored as byte strings, and prints nothing; if the vector has at least
    one axis, the loop body of [get_emddims] for axis [i] then reads the
    triple back.  When the name holds a character outside ASCII, the
    dataset is linked all the same, without attributes, and [write_dim]
    raises its [RuntimeError]. *)
Theorem write_dim_then_get_emddim (s : fileEMD) (grp : path)
  (a : gmap string attr_val) (cs : list (string * node)) (i : nat)
  (vec : ndarray) (name units : string) :
  writable (file_hdl s) = true →
  get_node (root (file_hdl s)) grp = Some (Group a cs) →
  child (dim_label i) cs = None →
  (plain_text name = true → plain_text units = true →
   ∃ s1 cs1,
     write_dim [PyStr (dim_label i); PyDim (vec, name, units); PyGroup grp] s
     = (s1, Return (grp ++ [dim_label i]))
     ∧ get_node (root (file_hdl s1)) grp = Some (Group a cs1)
     ∧ child (dim_label i) cs1
       = Some (Dataset (<["units" := ABytes units]>
                          (<["name" := ABytes name]> ∅)) vec)
     ∧ (∀ k, k ≠ dim_label i → child k cs1 = child k cs)
     ∧ length cs1 = S (length cs)
     ∧ emd_stdout s1 = emd_stdout s
     ∧ (shape vec ≠ [] → get_emddim grp i s1 = (s1, Return (vec, name, units))))
  ∧ (is_ascii name = false →
     ∃ s1 cs1,
       write_dim [PyStr (dim_label i); PyDim (vec, name, units); PyGroup grp] s
       = (s1, Raise write_dim_error)
       ∧ get_node (root (file_hdl s1)) grp = Some (Group a cs1)
       ∧ child (dim_label i) cs1 = Some (Dataset ∅ vec)
       ∧ (∀ k, k ≠ dim_label i → child k cs1 = child k cs)).
Proof.
  intros Hw Hget Hfree. set (l := dim_label i) in *.
  pose proof (link_name_dim_label i) as Hl. fold l in Hl.
  destruct (h5_change_run (link_new l (Dataset ∅ vec)) grp
              (ValueError "unable to create dataset") s _
              (Group a (insert_child l (Dataset ∅ vec) cs)) Hw Hget)
    as (r1 & H1 & Hg1); [by cbn; rewrite Hfree |].
  set (s1 := set_file_hdl (mk_h5file true r1) s) in *.
  assert (Hcreate : h5_create_dataset grp l vec s = (s1, Return (grp ++ [l]))).
  { rewrite (h5_create_dataset_link grp l vec s a cs Hl Hget).
    unfold bind. by rewrite H1. }
  split.
  - intros Hname Hunits.
    destruct (h5_change_child (put_attr "name" (ABytes name)) grp l
                (KeyError (h5_name (grp ++ [l]))) s1 a _ (Dataset ∅ vec)
                (Dataset (<["name" := ABytes name]> ∅) vec) eq_refl Hg1)
      as (r2 & H2 & Hg2); [by apply child_insert_child | done |].
    rewrite (set_child_insert_child l _ _ cs Hfree) in Hg2.
    set (s2 := set_file_hdl (mk_h5file true r2) s1) in *.
    destruct (h5_change_child (put_attr "units" (ABytes units)) grp l
                (KeyError (h5_name (grp ++ [l]))) s2 a _
                (Dataset (<["name" := ABytes name]> ∅) vec)
                (Dataset (<["units" := ABytes units]> (<["name" := ABytes name]> ∅))
                   vec)
                eq_refl Hg2)
      as (r3 & H3 & Hg3); [by apply child_insert_child | done |].
    rewrite (set_child_insert_child l _ _ cs Hfree) in Hg3.
    exists (set_file_hdl (mk_h5file true r3) s2), (insert_child l
      (Dataset (<["units" := ABytes units]> (<["name" := ABytes name]> ∅)) vec) cs).
    split; [| split; [done | split; [by apply child_insert_child | split;
      [| split; [| split; [done |]]]]]].
    + unfold write_dim, try_except, h5_set_attr.
      unfold bind at 1. rewrite Hcreate.
      unfold bind at 1, lift at 1. rewrite (np_string_plain name Hname).
      unfold bind at 1. rewrite H2.
      unfold bind at 1, lift at 1. rewrite (np_string_plain units Hunits).
      unfold bind at 1. fold s2. by rewrite H3.
    + intros k Hk. by apply child_insert_child_ne.
    + by rewrite (insert_child_perm l _ cs).
    + intros Hvec. unfold get_emddim, bind at 1, h5_get.
      cbn [file_hdl set_file_hdl root].
      fold l. rewrite (get_node_snoc _ _ _ _ l Hg3), (child_insert_child l _ cs Hfree).
      cbn [ret node_attrs]. unfold bind, lift, attr_scalar.
      rewrite lookup_insert_ne by done. rewrite !lookup_insert_eq.
      cbn [dataset_value]. unfold slice_all.
      rewrite (decode_utf8 name (plain_text_utf8_valid name Hname)).
      rewrite (decode_utf8 units (plain_text_utf8_valid units Hunits)).
      by destruct (shape vec).
  - intros Hname. exists s1, (insert_child l (Dataset ∅ vec) cs).
    split; [| split; [done | split; [by apply child_insert_child |]]].
    + unfold write_dim, try_except.
      unfold bind at 1. rewrite Hcreate.
      unfold bind at 1, lift at 1. by rewrite (np_string_not_ascii name Hname).
    + intros k Hk. by apply child_insert_child_ne.
Qed.

(** ** [get_emdgroup] by position *)

(** X6.  [get_emdgroup] called with an integer reads the group at that
    position of [list_emds], counting from the end for a negative integer;
    an integer outside both ranges makes it print that the group does not
    exist and return [None].  An argument that is neither a group nor an
    integer raises [TypeError]. *)
Theorem get_emdgroup_by_index (s : fileEMD) (i : Z) (memmap : bool) :
  (0 ≤ i < Z.of_nat (length (list_emds s)) →
     ∃ g, list_emds s !! Z.to_nat i = Some g
          ∧ get_emdgroup (GroupInt i) memmap s
            = get_emdgroup (GroupHandle g) memmap s)%Z
  ∧ (- Z.of_nat (length (list_emds s)) ≤ i < 0 →
     ∃ g, list_emds s !! Z.to_nat (Z.of_nat (length (list_emds s)) + i) = Some g
          ∧ get_emdgroup (GroupInt i) memmap s
            = get_emdgroup (GroupHandle g) memmap s)%Z
  ∧ (i < - Z.of_nat (length (list_emds s)) ∨ Z.of_nat (length (list_emds s)) ≤ i →
     get_emdgroup (GroupInt i) memmap s
     = (set_stdout (emd_stdout s ++ ["group does not exist"]) s, Return None))%Z
  ∧ get_emdgroup GroupOther memmap s
    = (s, Raise (TypeError "group needs to refer to a valid HDF5 group!")).
Proof.
  split; [| split; [| split; [| done]]].
  - intros Hi.
    destruct (list_emds s !! Z.to_nat i) as [g |] eqn:Hg;
      [| apply lookup_ge_None in Hg; lia].
    exists g. split; [done |].
    unfold get_emdgroup. rewrite bind_gets. unfold py_index.
    rewrite decide_True by lia. by rewrite Hg.
  - intros Hi.
    destruct (list_emds s !! Z.to_nat (Z.of_nat (length (list_emds s)) + i))
      as [g |] eqn:Hg; [| apply lookup_ge_None in Hg; lia].
    exists g. split; [done |].
    unfold get_emdgroup. rewrite bind_gets. unfold py_index, index_from_end.
    rewrite decide_False by lia. rewrite decide_True by lia.
    replace (length (list_emds s) - Z.to_nat (- i))
      with (Z.to_nat (Z.of_nat (length (list_emds s)) + i)) by lia.
    by rewrite Hg.
  - intros Hi. unfold get_emdgroup. rewrite bind_gets.
    unfold py_index, index_from_end.
    destruct (decide (0 ≤ i)%Z) as [Hpos | Hneg].
    + destruct Hi as [Hi | Hi]; [lia |].
      by rewrite (proj2 (lookup_ge_None (list_emds s) (Z.to_nat i))) by lia.
    + destruct Hi as [Hi | Hi]; [| lia]. by rewrite decide_False by lia.
Qed.

(** ** Reading a stored group *)

(** X7.  [get_emdgroup] on a group that carries [emd_group_type = 1], holds
    its dataset under the name the class resolves, and holds one dim vector
    per axis under [dim1], [dim2], ... with name and units stored as byte
    strings of well-formed UTF-8, scalar or as an array read at its first
    element, returns the array and the dim triples in axis order and changes
    nothing; [get_emddims] returns the same triples.  Without [memmap] the
    array must have at least one axis. *)
Theorem get_emdgroup_reads_stored_group (s : fileEMD) (g : path) (memmap : bool)
  (a : gmap string attr_val) (cs : list (string * node)) (dname : string)
  (da : gmap string attr_val) (arr : ndarray) (dims : list dim) :
  get_node (root (file_hdl s)) g = Some (Group a cs) →
  emd_type_test a = Return true →
  _get_dset_string g s = (s, Return dname) →
  child dname cs = Some (Dataset da arr) →
  memmap = true ∨ shape arr ≠ [] →
  length dims = ndim arr →
  (∀ i d, dims !! i = Some d → dim_stored cs i d) →
  get_emdgroup (GroupHandle g) memmap s = (s, Return (Some (arr, dims)))
  ∧ get_emddims g s = (s, Return dims).
Proof.
  intros Hg Ha Hname Hdata Hmem Hlen Hdims. apply has_emd_type_test in Ha. split.
  - by apply (get_emdgroup_stored s g memmap a cs dname da arr dims).
  - by apply (get_emddims_stored s g a cs dname da arr dims).
Qed.

(** ** [defaultDims] and [put_emdgroup] *)

Lemma try_except_print_returns {A : Type} (m : M (option A)) line s :
  ∃ s' r, try_except m (fun _ => print line ;; ret None) s = (s', Return r).
Proof.
  unfold try_except. destruct (m s) as [s1 [r | e]]; by eexists _, _.
Qed.

(** X8.  The dims [defaultDims] returns for an array always fit it: there is
    one per axis and each vector is as long as its axis.  So [put_emdgroup]
    called with a [str] label, the array and these dims never raises. *)
Theorem defaultDims_fits_put_emdgroup (data_arr : ndarray)
  (pixel_size : pixel_arg) (dims : list dim) :
  defaultDims data_arr pixel_size = Return dims →
  dims_consistent data_arr dims
  ∧ ∀ label parent overwrite s,
      ∃ s' r, put_emdgroup (PyStr label) (PyArray data_arr) dims parent overwrite s
              = (s', Return r).
Proof.
  intros Hrun.
  assert (Hfit : dims_consistent data_arr dims).
  { set (pxs := match pixel_size with
                | PixelSeq (x :: l) => x :: l
                | _ => replicate (ndim data_arr) one
                end).
    assert (Hps : ∀ a, pixel_size ≠ PixelArray a).
    { intros a ->. discriminate Hrun. }
    assert (Hlen : length pxs = ndim data_arr).
    { destruct (decide (length pxs = ndim data_arr)) as [| Hne]; [done |].
      exfalso. unfold defaultDims in Hrun. fold pxs in Hrun.
      rewrite bool_decide_eq_false_2 in Hrun by done.
      by destruct pixel_size. }
    destruct (defaultDims_with data_arr pixel_size pxs Hps eq_refl Hlen)
      as (dims' & Hrun' & Hl & Hlk).
    rewrite Hrun in Hrun'. injection Hrun' as <-.
    split; [done |]. intros i d Hd.
    assert (Hi : i < ndim data_arr) by (rewrite <- Hl; by apply lookup_lt_Some in Hd).
    destruct (lookup_lt_is_Some_2 (shape data_arr) i Hi) as [n Hn].
    destruct (lookup_lt_is_Some_2 pxs i) as [px Hpx]; [by rewrite Hlen |].
    rewrite (Hlk i n px Hn Hpx) in Hd. injection Hd as <-. by rewrite Hn. }
  split; [done |]. intros label parent overwrite s.
  rewrite (put_emdgroup_dims_ok _ _ _ _ _ _ Hfit).
  apply try_except_print_returns.
Qed.

(** ** Discovery below a group, and reading what was discovered *)

Lemma get_node_app q : ∀ p r,
  get_node r (p ++ q)
  = match get_node r p with Some n => get_node n q | None => None end.
Proof.
  induction p as [| k p IH]; intros r; [done |].
  destruct r as [a cs | a d]; [| done]. cbn [get_node app].
  destruct (child k cs) as [c |]; [apply IH | done].
Qed.

Lemma wf_node_get_node p : ∀ r n,
  wf_node r = true → get_node r p = Some n → wf_node n = true.
Proof.
  induction p as [| k p IH]; intros r n Hwf Hget.
  - by injection Hget as <-.
  - destruct r as [a cs | a d]; [| done]. cbn [get_node] in Hget.
    destruct (child k cs) as [c |] eqn:Hc; [| done].
    apply wf_node_group in Hwf as [_ Hwf].
    apply child_Some_elem_of in Hc.
    rewrite Forall_forall in Hwf. apply (IH c n); [| done].
    by apply (Hwf (k, c)).
Qed.

Lemma map_app_nil (l : list path) : map (app []) l = l.
Proof. exact (map_id l). Qed.

(** What discovery from a root returns, when it returns. *)
Lemma find_emdgroups_returns r l :
  find_emdgroups r [] = Return l → l = emd_groups_below r.
Proof.
  destruct r as [a cs | a d].
  - rewrite find_emdgroups_group. destruct (types_comparable _); [| done].
    intros [= <-]. apply map_app_nil.
  - unfold find_emdgroups. cbn [proc_group].
    destruct (shape d) as [| [| n] sh]; [done | | done]. by intros [= <-].
Qed.

(** X9.  In a tree with unique link names on which discovery from the root
    returns, [find_emdgroups] applied to a group of the tree returns as
    well, and what it returns are exactly the groups that discovery from the
    root finds strictly below that group, each once. *)
Theorem find_emdgroups_under_parent (r : node) (here : path)
  (a : gmap string attr_val) (cs : list (string * node)) (lr : list path) :
  wf_node r = true →
  find_emdgroups r [] = Return lr →
  get_node r here = Some (Group a cs) →
  ∃ l, find_emdgroups (Group a cs) here = Return l
       ∧ (∀ p, p ∈ l ↔ p ∈ lr ∧ here `prefix_of` p ∧ p ≠ here)
       ∧ NoDup l.
Proof.
  intros Hwf Hfind Hget.
  pose proof (wf_node_get_node here r _ Hwf Hget) as Hwfn.
  assert (Hcmp : types_comparable (Group a cs) = true).
  { destruct r as [a0 cs0 | a0 d0].
    - rewrite find_emdgroups_group in Hfind.
      destruct (types_comparable (Group a0 cs0)) eqn:Hr; [| done].
      destruct here as [| k q]; [by injection Hget as <- <- |].
      by apply (types_comparable_get (k :: q) (Group a0 cs0) a cs Hr).
    - by destruct here. }
  apply find_emdgroups_returns in Hfind as ->.
  exists (map (app here) (emd_groups_below (Group a cs))).
  split; [by rewrite find_emdgroups_group, Hcmp |]. split.
  - intros p. rewrite (emd_groups_below_elem r Hwf p). split.
    + intros Hin. apply list_elem_of_In, in_map_iff in Hin as (q & <- & Hq).
      apply list_elem_of_In, (emd_groups_below_elem _ Hwfn) in Hq
        as [Hne (a1 & cs1 & Hq & Ha)].
      split; [split |].
      * by destruct here, q.
      * exists a1, cs1. by rewrite get_node_app, Hget.
      * split; [by exists q |]. intros Heq. apply Hne.
        apply (app_inv_head here). by rewrite app_nil_r.
    + intros [[_ (a1 & cs1 & Hp & Ha)] [[q ->] Hne]].
      apply list_elem_of_In, in_map_iff. exists q. split; [done |].
      apply list_elem_of_In, (emd_groups_below_elem _ Hwfn). split.
      * intros ->. by rewrite app_nil_r in Hne.
      * exists a1, cs1. by rewrite get_node_app, Hget in Hp.
  - apply (NoDup_fmap_2 (app here)), emd_groups_below_NoDup. done.
Qed.

(** X10.  In a file with unique link names, [get_emdgroup] on a handle that
    discovery from the root returned never raises: it returns the array with
    one dim per axis and changes nothing, or prints the content message and
    returns [None]. *)
Theorem discovered_groups_are_readable (s : fileEMD) (p : path) (memmap : bool)
  (l : list path) :
  wf_node (root (file_hdl s)) = true →
  find_emdgroups (root (file_hdl s)) [] = Return l →
  p ∈ l →
  get_emdgroup (GroupHandle p) memmap s
  = (set_stdout (emd_stdout s ++ [content_message p]) s, Return None)
  ∨ ∃ arr dims,
      get_emdgroup (GroupHandle p) memmap s = (s, Return (Some (arr, dims)))
      ∧ length dims = ndim arr.
Proof.
  intros Hwf Hfind Hin. apply find_emdgroups_returns in Hfind as ->.
  apply (emd_groups_below_elem _ Hwf) in Hin as [_ (a & cs & Hg & Ha)].
  by apply (get_emdgroup_emd_outcomes p memmap s a cs).
Qed.

Lemma get_dset_string_v05_unsupported g s pn :
  self_class s = Class_fileEMD_v05 →
  parent_name g = Some pn →
  pn ∉ v05_parents →
  _get_dset_string g s = (s, Raise (ValueError "dset name not supported")).
Proof.
  intros Hc Hpn Hnot. unfold _get_dset_string. rewrite bind_gets, Hc.
  unfold _get_dset_string_fileEMD_v05. rewrite Hpn.
  unfold v05_parents in Hnot.
  repeat (apply not_elem_of_cons in Hnot as [? Hnot]).
  by rewrite !decide_False by done.
Qed.

(** X11.  On an object of class [fileEMD_v05], for an EMD-typed group whose
    parent name is none of the five the 0.5 layout knows, [get_emddims]
    raises the unsupported-name [ValueError], while [get_emdgroup] catches
    it: it prints the content message and returns [None]. *)
Theorem get_emdgroup_v05_unsupported_parent (s : fileEMD) (g : path)
  (memmap : bool) (a : gmap string attr_val) (cs : list (string * node))
  (pn : string) :
  self_class s = Class_fileEMD_v05 →
  get_node (root (file_hdl s)) g = Some (Group a cs) →
  has_emd_type a = true →
  parent_name g = Some pn →
  pn ∉ v05_parents →
  get_emddims g s = (s, Raise (ValueError "dset name not supported"))
  ∧ get_emdgroup (GroupHandle g) memmap s
    = (set_stdout (emd_stdout s ++ [content_message g]) s, Return None).
Proof.
  intros Hc Hg Ha Hpn Hnot.
  pose proof (get_dset_string_v05_unsupported g s pn Hc Hpn Hnot) as Hname.
  split.
  - unfold get_emddims, bind at 1. by rewrite Hname.
  - rewrite (get_emdgroup_emd g memmap s a cs Hg Ha).
    rewrite (try_except_raised _ _ s (ValueError "dset name not supported")); [done |].
    unfold get_emdgroup_try, bind at 1. by rewrite Hname.
Qed.

(** ** The constructor *)

(** The link table of the root once a group called [name] is there. *)
Definition ensure_group (name : string) (cs : list (string * node))
  : list (string * node) :=
  match child name cs with
  | Some _ => cs
  | None => insert_child name (Group ∅ []) cs
  end.

(** The five root groups, in the order [__init__] looks for them. *)
Definition root_groups : list string :=
  ["data"; "microscope"; "sample"; "user"; "comments"].

(** The root attributes once [fileEMD.check_version] has run on a writable
    file. *)
Definition attrs_after_init (a : gmap string attr_val) : gmap string attr_val :=
  match version_read a with
  | Some _ => a
  | None => <["version_minor" := AInt 2]> (<["version_major" := AInt 0]> a)
  end.

(** What [check_version] prints for an object of class [c]. *)
Definition init_output (c : emd_class) (a : gmap string attr_val) : list string :=
  match version_read a with
  | Some v =>
      match version_is v 0 (expected_minor c) with
      | Return false => [warning_of c v]
      | _ => []
      end
  | None => []
  end.

(** The handle [__init__] stores for a root group on a read-only object. *)
Definition found_group (name : string) (cs : list (string * node)) : option path :=
  match child name cs with
  | Some _ => Some [name]
  | None => None
  end.

(** The root attributes once [check_version] has run in [__init__]: only an
    object of class [fileEMD] that is not read-only writes them. *)
Definition init_attrs (c : emd_class) (ro : bool) (a : gmap string attr_val)
  : gmap string attr_val :=
  match c with
  | Class_fileEMD => if ro then a else attrs_after_init a
  | Class_fileEMD_v05 => a
  end.

(** The link table of the root once [__init__] has looked for the five root
    groups on an object that is not read-only. *)
Definition init_children (cs : list (string * node)) : list (string * node) :=
  foldl (fun cs name => ensure_group name cs) cs root_groups.

Lemma set_file_hdl_id s : set_file_hdl (file_hdl s) s = s.
Proof. by destruct s. Qed.

Lemma init_group_writable name set_field s a cs :
  link_name name = true →
  file_hdl s = mk_h5file true (Group a cs) →
  readonly s = false →
  init_group name set_field s
  = (set_field (Some [name])
       (set_file_hdl (mk_h5file true (Group a (ensure_group name cs))) s),
     Return tt).
Proof.
  intros Hl Hf Hro.
  assert (Hg : get_node (root (file_hdl s)) [] = Some (Group a cs))
    by (by rewrite Hf).
  unfold init_group, bind at 1.
  rewrite (h5_contains_run s [] a cs name Hl Hg).
  unfold ensure_group.
  destruct (child name cs) as [c |] eqn:Hc.
  - rewrite bool_decide_eq_true_2 by (by eexists). cbn [negb modify].
    by rewrite <- Hf, set_file_hdl_id.
  - rewrite bool_decide_eq_false_2 by (by intros [? ?]). cbn [negb].
    rewrite bind_gets, Hro. cbn [negb].
    unfold bind at 1. rewrite (h5_create_group_link [] name s a cs Hl Hg).
    unfold bind, h5_change. rewrite Hf. cbn. by rewrite Hc.
Qed.

Lemma init_group_readonly name set_field s a cs :
  link_name name = true →
  root (file_hdl s) = Group a cs →
  readonly s = true →
  init_group name set_field s
  = (match child name cs with
     | Some _ => set_field (Some [name]) s
     | None => s
     end, Return tt).
Proof.
  intros Hl Hf Hro. unfold init_group, bind at 1.
  rewrite (h5_contains_run s [] a cs name Hl) by (cbn; by rewrite Hf).
  destruct (child name cs) as [c |] eqn:Hc.
  - by rewrite bool_decide_eq_true_2 by (by eexists).
  - rewrite bool_decide_eq_false_2 by (by intros [? ?]). cbn [negb].
    by rewrite bind_gets, Hro.
Qed.

(** [check_version] as [__init__] calls it, on the object just made. *)
Lemma check_version_run c fname ro w a cs :
  (c = Class_fileEMD → w = negb ro) →
  check_version
    (mk_fileEMD c fname ro (mk_h5file w (Group a cs))
       None None None None None None [] [])
  = if version_comparable c a
    then (mk_fileEMD c fname ro
            (mk_h5file w (Group (init_attrs c ro a) cs))
            (version_read a) None None None None None [] (init_output c a),
          Return tt)
    else (mk_fileEMD c fname ro (mk_h5file w (Group a cs))
            (version_read a) None None None None None [] [],
          Raise ambiguous_truth).
Proof.
  intros Hmode.
  unfold version_comparable, init_attrs, attrs_after_init, init_output, version_read.
  destruct (a !! "version_major") as [major |] eqn:Hmaj;
    [destruct (a !! "version_minor") as [minor |] eqn:Hmin |].
  - rewrite (check_version_present
               (mk_fileEMD c fname ro (mk_h5file w (Group a cs))
                  None None None None None None [] []) major minor Hmaj Hmin).
    cbn [self_class].
    destruct (version_is (major, minor) 0 (expected_minor c)) as [[|] | e] eqn:Hv;
      cbn [is_return].
    + by destruct c, ro.
    + by destruct c, ro.
    + by rewrite (version_is_raise _ _ _ _ Hv).
  - unfold check_version. rewrite bind_gets. cbn [self_class]. destruct c.
    + unfold check_version_fileEMD. rewrite bind_h5_attrs_root.
      unfold root_attrs. cbn [file_hdl root node_attrs]. rewrite Hmaj, Hmin.
      rewrite bind_gets. cbn [readonly]. rewrite (Hmode eq_refl).
      by destruct ro.
    + unfold check_version_fileEMD_v05. rewrite bind_h5_attrs_root.
      unfold root_attrs. cbn [file_hdl root node_attrs]. by rewrite Hmaj, Hmin.
  - unfold check_version. rewrite bind_gets. cbn [self_class]. destruct c.
    + unfold check_version_fileEMD. rewrite bind_h5_attrs_root.
      unfold root_attrs. cbn [file_hdl root node_attrs]. rewrite Hmaj.
      rewrite bind_gets. cbn [readonly]. rewrite (Hmode eq_refl).
      by destruct ro.
    + unfold check_version_fileEMD_v05. rewrite bind_h5_attrs_root.
      unfold root_attrs. cbn [file_hdl root node_attrs]. by rewrite Hmaj.
Qed.

Lemma ensure_group_child name cs :
  child name (ensure_group name cs)
  = Some (default (Group ∅ []) (child name cs)).
Proof.
  unfold ensure_group. destruct (child name cs) as [c |] eqn:Hc.
  - by rewrite Hc.
  - by rewrite (child_insert_child name _ cs Hc).
Qed.

Lemma ensure_group_child_ne name cs k :
  k ≠ name → child k (ensure_group name cs) = child k cs.
Proof.
  intros Hne. unfold ensure_group.
  destruct (child name cs); [done | by apply child_insert_child_ne].
Qed.

Lemma init_children_root_group cs name :
  name ∈ root_groups →
  child name (init_children cs) = Some (default (Group ∅ []) (child name cs)).
Proof.
  intros Hin. unfold init_children, root_groups in *. cbn [foldl].
  repeat (apply elem_of_cons in Hin as [-> | Hin];
          [rewrite ?ensure_group_child_ne by done; rewrite ensure_group_child;
           by rewrite ?ensure_group_child_ne by done |]).
  by apply elem_of_nil in Hin.
Qed.

Lemma init_children_other cs k :
  k ∉ root_groups → child k (init_children cs) = child k cs.
Proof.
  intros Hk. unfold init_children, root_groups in *. cbn [foldl].
  repeat (apply not_elem_of_cons in Hk as [? Hk]).
  by rewrite !ensure_group_child_ne by done.
Qed.

(** Members that were there stay as they are. *)
Lemma init_children_keeps cs k n :
  child k cs = Some n → child k (init_children cs) = Some n.
Proof.
  intros Hk. destruct (decide (k ∈ root_groups)) as [Hin | Hout].
  - by rewrite (init_children_root_group cs k Hin), Hk.
  - by rewrite (init_children_other cs k Hout).
Qed.

Lemma comparable_in_cons kc cs :
  comparable_in (kc :: cs) = comparable_in [kc] && comparable_in cs.
Proof. unfold comparable_in. cbn [forallb]. by rewrite andb_true_r. Qed.

Lemma comparable_in_insert_child k n cs :
  comparable_in (insert_child k n cs) = comparable_in ((k, n) :: cs).
Proof.
  induction cs as [| [k' y] cs IH]; [done |]. cbn [insert_child].
  destruct (String.ltb k k'); [done |].
  rewrite (comparable_in_cons (k', y)), IH, (comparable_in_cons (k, n)).
  rewrite (comparable_in_cons (k, n) ((k', y) :: cs)), (comparable_in_cons (k', y) cs).
  by destruct (comparable_in [(k', y)]), (comparable_in [(k, n)]).
Qed.

Lemma comparable_in_ensure_group name cs :
  comparable_in (ensure_group name cs) = comparable_in cs.
Proof.
  unfold ensure_group. destruct (child name cs); [done |].
  by rewrite comparable_in_insert_child.
Qed.

Lemma types_comparable_init_children a a' cs :
  types_comparable (Group a' (init_children cs)) = types_comparable (Group a cs).
Proof.
  rewrite !types_comparable_group. unfold init_children, root_groups.
  cbn [foldl]. by rewrite !comparable_in_ensure_group.
Qed.

(** What the constructor does on an object that is not read-only. *)
Lemma init_writable_run c disk fname f a cs :
  filename_text fname = Some f →
  h5py_File disk true = Return (mk_h5file true (Group a cs)) →
  __init__ c disk fname false
  = if version_comparable c a
    then
      if types_comparable (Group a cs)
      then
        (init_output c a,
         Return
           (mk_fileEMD c fname false
              (mk_h5file true (Group (init_attrs c false a) (init_children cs)))
              (version_read a)
              (Some ["data"]) (Some ["microscope"]) (Some ["sample"])
              (Some ["user"]) (Some ["comments"])
              (emd_groups_below
                 (Group (init_attrs c false a) (init_children cs)))
              (init_output c a)))
      else (init_output c a, Raise ambiguous_truth)
    else ([], Raise ambiguous_truth).
Proof.
  intros Hfn Hopen. unfold __init__. rewrite Hfn. cbn [negb]. rewrite Hopen.
  unfold init_opened, bind at 1.
  rewrite (check_version_run c fname false true a cs) by done.
  destruct (version_comparable c a); [| done].
  unfold bind at 1.
  rewrite (init_group_writable "data" set_data _ (init_attrs c false a) cs)
    by done.
  cbn [set_data set_file_hdl self_class filename readonly file_hdl version data
       microscope sample user comments list_emds emd_stdout].
  unfold bind at 1.
  rewrite (init_group_writable "microscope" set_microscope _
             (init_attrs c false a) (ensure_group "data" cs)) by done.
  cbn [set_microscope set_file_hdl self_class filename readonly file_hdl version
       data microscope sample user comments list_emds emd_stdout].
  unfold bind at 1.
  rewrite (init_group_writable "sample" set_sample _ (init_attrs c false a)
             (ensure_group "microscope" (ensure_group "data" cs))) by done.
  cbn [set_sample set_file_hdl self_class filename readonly file_hdl version
       data microscope sample user comments list_emds emd_stdout].
  unfold bind at 1.
  rewrite (init_group_writable "user" set_user _ (init_attrs c false a)
             (ensure_group "sample"
                (ensure_group "microscope" (ensure_group "data" cs)))) by done.
  cbn [set_user set_file_hdl self_class filename readonly file_hdl version
       data microscope sample user comments list_emds emd_stdout].
  unfold bind at 1.
  rewrite (init_group_writable "comments" set_comments _ (init_attrs c false a)
             (ensure_group "user"
                (ensure_group "sample"
                   (ensure_group "microscope" (ensure_group "data" cs))))) by done.
  cbn [set_comments set_file_hdl self_class filename readonly file_hdl version
       data microscope sample user comments list_emds emd_stdout].
  rewrite bind_gets. unfold bind at 1, lift.
  cbn [set_data set_microscope set_sample set_user set_comments set_file_hdl
       self_class filename readonly file_hdl version data microscope sample
       user comments list_emds emd_stdout root].
  change (ensure_group "comments"
            (ensure_group "user"
               (ensure_group "sample"
                  (ensure_group "microscope" (ensure_group "data" cs)))))
    with (init_children cs).
  rewrite find_emdgroups_group.
  rewrite (types_comparable_init_children a (init_attrs c false a) cs).
  destruct (types_comparable (Group a cs)); [| done].
  by rewrite map_app_nil.
Qed.

(** What the constructor does on a read-only object. *)
Lemma init_readonly_run c fname f a cs :
  filename_text fname = Some f →
  __init__ c (Some (Group a cs)) fname true
  = if version_comparable c a
    then
      if types_comparable (Group a cs)
      then
        (init_output c a,
         Return
           (mk_fileEMD c fname true (mk_h5file false (Group a cs))
              (version_read a)
              (found_group "data" cs) (found_group "microscope" cs)
              (found_group "sample" cs) (found_group "user" cs)
              (found_group "comments" cs)
              (emd_groups_below (Group a cs))
              (init_output c a)))
      else (init_output c a, Raise ambiguous_truth)
    else ([], Raise ambiguous_truth).
Proof.
  intros Hfn. unfold __init__. rewrite Hfn. cbn [negb h5py_File].
  unfold init_opened, bind at 1.
  rewrite (check_version_run c fname true false a cs) by done.
  destruct (version_comparable c a); [| done].
  replace (init_attrs c true a) with a by (by destruct c).
  unfold found_group.
  unfold bind at 1. rewrite (init_group_readonly "data" set_data _ a cs) by done.
  destruct (child "data" cs);
    (unfold bind at 1;
     rewrite (init_group_readonly "microscope" set_microscope _ a cs) by done;
     destruct (child "microscope" cs));
    (unfold bind at 1;
     rewrite (init_group_readonly "sample" set_sample _ a cs) by done;
     destruct (child "sample" cs));
    (unfold bind at 1;
     rewrite (init_group_readonly "user" set_user _ a cs) by done;
     destruct (child "user" cs));
    (unfold bind at 1;
     rewrite (init_group_readonly "comments" set_comments _ a cs) by done;
     destruct (child "comments" cs));
    (rewrite bind_gets; unfold bind at 1, lift;
     cbn [set_data set_microscope set_sample set_user set_comments file_hdl root];
     rewrite find_emdgroups_group;
     destruct (types_comparable (Group a cs)); [| done];
     by rewrite map_app_nil).
Qed.


(** X13.  Constructing a read-only object on a file whose root is a group,
    and in which the version and the [emd_group_type] attributes are such
    that their comparisons have a truth value, succeeds and writes nothing:
    the file is open in mode ['r'] with its contents as stored, no version
    is persisted, each of the five fields holds the handle of its root
    group if the file has a member of that name and is [None] otherwise,
    and [list_emds] is what discovery finds. *)
Theorem init_readonly_finds_groups (c : emd_class) (fname : filename_arg)
  (f : string) (a : gmap string attr_val) (cs : list (string * node)) :
  filename_text fname = Some f →
  version_comparable c a = true →
  types_comparable (Group a cs) = true →
  ∃ s, __init__ c (Some (Group a cs)) fname true = (init_output c a, Return s)
       ∧ readonly s = true
       ∧ file_hdl s = mk_h5file false (Group a cs)
       ∧ version s = version_read a
       ∧ data s = found_group "data" cs
       ∧ microscope s = found_group "microscope" cs
       ∧ sample s = found_group "sample" cs
       ∧ user s = found_group "user" cs
       ∧ comments s = found_group "comments" cs
       ∧ find_emdgroups (Group a cs) [] = Return (list_emds s).
Proof.
  intros Hfn Hv Ht. eexists.
  split; [by rewrite (init_readonly_run c fname f a cs Hfn), Hv, Ht |].
  cbn [readonly file_hdl version data microscope sample user comments list_emds].
  repeat (split; [done |]).
  by rewrite find_emdgroups_group, Ht, map_app_nil.
Qed.


(** ** A write that succeeds *)

Lemma wf_alter_node f p :
  (∀ n n', wf_node n = true → f n = Some n' → wf_node n' = true) →
  ∀ r r', wf_node r = true → alter_node f r p = Some r' → wf_node r' = true.
Proof.
  intros Hf. induction p as [| k p IH]; intros r r' Hwf Halter.
  - by apply (Hf r).
  - destruct r as [a cs | a d]; [| done]. cbn [alter_node] in Halter.
    destruct (child k cs) as [c |] eqn:Hc; [| done].
    destruct (alter_node f c p) as [c' |] eqn:Hc'; [| done].
    injection Halter as <-. apply wf_node_group in Hwf as [Hnd Hall].
    apply wf_node_group. split; [by rewrite set_child_fst |].
    apply set_child_Forall; [done |]. intros k'. cbn [snd].
    apply (IH c c'); [| done].
    rewrite Forall_forall in Hall. by apply (Hall (k, c)), child_Some_elem_of.
Qed.

Lemma wf_link_new label new n n' :
  wf_node new = true → wf_node n = true →
  link_new label new n = Some n' → wf_node n' = true.
Proof.
  intros Hnew Hwf. destruct n as [a cs | a d]; [| done]. cbn [link_new].
  destruct (child label cs) eqn:Hc; [done |]. intros [= <-].
  apply wf_node_group in Hwf as [Hnd Hall]. apply wf_node_group. split.
  - by apply insert_child_NoDup.
  - by apply insert_child_Forall.
Qed.

Lemma comparable_in_Forall cs :
  comparable_in cs = true ↔ Forall (fun kc => comparable_in [kc] = true) cs.
Proof.
  induction cs as [| kc cs IH]; [done |].
  by rewrite comparable_in_cons, andb_true_iff, Forall_cons, IH.
Qed.

Lemma comparable_in_child k c cs :
  comparable_in cs = true → child k cs = Some c → comparable_in [(k, c)] = true.
Proof.
  intros Hcs Hc. apply comparable_in_Forall in Hcs.
  rewrite Forall_forall in Hcs. by apply Hcs, child_Some_elem_of.
Qed.

(** A change that keeps the comparisons of [emd_group_type] decidable where
    it is made keeps them so in the whole tree. *)
Lemma comparable_alter_node f p :
  (∀ n n', f n = Some n' →
     (types_comparable n = true → types_comparable n' = true)
     ∧ ∀ k, comparable_in [(k, n)] = true → comparable_in [(k, n')] = true) →
  ∀ r r', alter_node f r p = Some r' →
    (types_comparable r = true → types_comparable r' = true)
    ∧ ∀ k, comparable_in [(k, r)] = true → comparable_in [(k, r')] = true.
Proof.
  intros Hf. induction p as [| k p IH]; intros r r' Halter.
  - by apply (Hf r).
  - destruct r as [a cs | a d]; [| done]. cbn [alter_node] in Halter.
    destruct (child k cs) as [c |] eqn:Hc; [| done].
    destruct (alter_node f c p) as [c' |] eqn:Hc'; [| done].
    injection Halter as <-. destruct (IH c c' Hc') as [_ Hmember].
    assert (Hgroup : types_comparable (Group a cs) = true →
                     types_comparable (Group a (set_child k c' cs)) = true).
    { rewrite !types_comparable_group. intros Hcs.
      apply comparable_in_Forall. apply set_child_Forall.
      - by apply comparable_in_Forall.
      - intros k'. apply (Hmember k), (comparable_in_child k c cs Hcs Hc). }
    split; [done |]. intros k0. unfold comparable_in. cbn [forallb snd].
    rewrite !andb_true_r, !andb_true_iff. intros [Ha Hcs]. auto.
Qed.

Lemma comparable_link_new label new n n' :
  comparable_in [(label, new)] = true →
  link_new label new n = Some n' →
  (types_comparable n = true → types_comparable n' = true)
  ∧ ∀ k, comparable_in [(k, n)] = true → comparable_in [(k, n')] = true.
Proof.
  intros Hnew. destruct n as [a cs | a d]; [| done]. cbn [link_new].
  destruct (child label cs); [done |]. intros [= <-].
  assert (Hgroup : types_comparable (Group a cs) = true →
            types_comparable (Group a (insert_child label new cs)) = true).
  { rewrite !types_comparable_group, comparable_in_insert_child.
    rewrite (comparable_in_cons (label, new)). intros ->. by rewrite Hnew. }
  split; [done |]. intros k0. unfold comparable_in. cbn [forallb snd].
  rewrite !andb_true_r, !andb_true_iff. intros [Ha Hcs]. auto.
Qed.

(** Linking a new member changes no group that was there. *)
Lemma alter_link_new_keeps label new q : ∀ r r' p a0 cs0,
  alter_node (link_new label new) r q = Some r' →
  get_node r p = Some (Group a0 cs0) →
  ∃ cs1, get_node r' p = Some (Group a0 cs1).
Proof.
  induction q as [| k q IH]; intros r r' p a0 cs0 Halter Hget.
  - destruct r as [a cs | a d]; [| done]. cbn [alter_node link_new] in Halter.
    destruct (child label cs) eqn:Hfree; [done |]. injection Halter as <-.
    destruct p as [| k p].
    + injection Hget as <- <-. by eexists.
    + cbn [get_node] in *. destruct (child k cs) as [c |] eqn:Hc; [| done].
      rewrite child_insert_child_ne, Hc by congruence. by exists cs0.
  - destruct r as [a cs | a d]; [| done]. cbn [alter_node] in Halter.
    destruct (child k cs) as [c |] eqn:Hc; [| done].
    destruct (alter_node (link_new label new) c q) as [c' |] eqn:Hc'; [| done].
    injection Halter as <-. destruct p as [| k2 p].
    + injection Hget as <- <-. by eexists.
    + cbn [get_node] in *. destruct (decide (k2 = k)) as [-> | Hne].
      * rewrite (child_set_child k c c' cs Hc). rewrite Hc in Hget.
        by apply (IH c c' p a0 cs0).
      * rewrite (child_set_child_ne k k2 c' cs Hne). by exists cs0.
Qed.

(** A group of the tree after linking was there before, or lies in what was
    linked. *)
Lemma alter_link_new_groups label new q : ∀ r r' p a0 cs1,
  alter_node (link_new label new) r q = Some r' →
  get_node r' p = Some (Group a0 cs1) →
  (∃ cs0, get_node r p = Some (Group a0 cs0))
  ∨ ∃ p', p = q ++ label :: p' ∧ get_node new p' = Some (Group a0 cs1).
Proof.
  induction q as [| k q IH]; intros r r' p a0 cs1 Halter Hget.
  - destruct r as [a cs | a d]; [| done]. cbn [alter_node link_new] in Halter.
    destruct (child label cs) eqn:Hfree; [done |]. injection Halter as <-.
    destruct p as [| k p].
    + injection Hget as <- <-. left. by eexists.
    + cbn [get_node] in Hget. destruct (decide (k = label)) as [-> | Hne].
      * rewrite (child_insert_child label new cs Hfree) in Hget.
        right. by exists p.
      * rewrite (child_insert_child_ne label k new cs Hne) in Hget.
        left. exists cs1. done.
  - destruct r as [a cs | a d]; [| done]. cbn [alter_node] in Halter.
    destruct (child k cs) as [c |] eqn:Hc; [| done].
    destruct (alter_node (link_new label new) c q) as [c' |] eqn:Hc'; [| done].
    injection Halter as <-. destruct p as [| k2 p].
    + injection Hget as <- <-. left. by eexists.
    + cbn [get_node] in Hget. destruct (decide (k2 = k)) as [-> | Hne].
      * rewrite (child_set_child k c c' cs Hc) in Hget.
        destruct (IH c c' p a0 cs1 Hc' Hget) as [[cs0 H0] | (p' & -> & Hp')].
        -- left. exists cs0. cbn [get_node]. by rewrite Hc.
        -- right. by exists p'.
      * rewrite (child_set_child_ne k k2 c' cs Hne) in Hget.
        left. exists cs1. done.
Qed.

Lemma wf_new_emd_group data_arr : wf_node (new_emd_group data_arr) = true.
Proof. reflexivity. Qed.

Lemma comparable_new_emd_group label data_arr :
  comparable_in [(label, new_emd_group data_arr)] = true.
Proof. reflexivity. Qed.

Lemma new_emd_group_groups data_arr p a0 cs1 :
  get_node (new_emd_group data_arr) p = Some (Group a0 cs1) → p = [].
Proof.
  destruct p as [| k p]; [done |]. cbn [new_emd_group get_node child].
  destruct (decide (k = "data")); [| done]. by destruct p.
Qed.

Lemma dims_consistent_nil data_arr : shape data_arr = [] → dims_consistent data_arr [].
Proof. intros Hsh. split; [by unfold ndim; rewrite Hsh | by intros i d Hd]. Qed.

(** [put_emdgroup] of an array without axes, with no dims, under a free
    label of a writable file in which discovery returns. *)
Lemma put_scalar_run (s : fileEMD) label data_arr parent overwrite
  target a cs l0 :
  link_name label = true →
  shape data_arr = [] →
  writable (file_hdl s) = true →
  find_emdgroups (root (file_hdl s)) [] = Return l0 →
  target_of s parent = Some target →
  get_node (root (file_hdl s)) target = Some (Group a cs) →
  child label cs = None →
  ∃ r',
    alter_node (link_new label (new_emd_group data_arr))
      (root (file_hdl s)) target = Some r'
    ∧ get_node r' target
      = Some (Group a (insert_child label (new_emd_group data_arr) cs))
    ∧ find_emdgroups r' [] = Return (emd_groups_below r')
    ∧ put_emdgroup (PyStr label) (PyArray data_arr) [] parent overwrite s
      = (set_list_emds (emd_groups_below r') (set_file_hdl (mk_h5file true r') s),
         Return (Some (target ++ [label]))).
Proof.
  intros Hl Hsh Hw Hfind Ht Hg Hfree.
  destruct (put_emdgroup_create_run target label data_arr [] s a cs Hl Hw Hg Hfree)
    as (r' & Hr' & Hg' & Hrun).
  assert (Hcmp : types_comparable r' = true).
  { destruct (comparable_alter_node (link_new label (new_emd_group data_arr)) target)
      with (r := root (file_hdl s)) (r' := r') as [Hroot _]; [| done |].
    - intros n n'. apply comparable_link_new, comparable_new_emd_group.
    - apply Hroot. destruct (root (file_hdl s)) as [a0 cs0 | a0 d0].
      + rewrite find_emdgroups_group in Hfind.
        by destruct (types_comparable (Group a0 cs0)).
      + done. }
  assert (Hfind' : find_emdgroups r' [] = Return (emd_groups_below r')).
  { destruct r' as [a1 cs1 | a1 d1]; [by apply find_emdgroups_root |].
    by destruct target. }
  exists r'. split; [done |]. split; [done |]. split; [done |].
  rewrite (put_emdgroup_dims_ok _ _ _ _ _ _ (dims_consistent_nil _ Hsh)).
  unfold try_except.
  rewrite (put_emdgroup_body_free _ _ _ _ _ _ target a cs Hl Ht Hg Hfree), Hrun.
  by rewrite Hfind'.
Qed.

(** X15.  [put_emdgroup] of an array without axes, with no dims, under a
    label that is one link name and is free in the target, on a writable
    file with unique link names in which discovery from the root returns:
    the new group, holding [emd_group_type = 1] and the dataset, is linked
    under the label in the target, whose other members are kept; the handle
    of the new group is returned; link names stay unique; and [list_emds] is
    refreshed by discovery from the root, which now finds the new group and
    the groups it found before, and no others. *)
Theorem put_emdgroup_without_dims (s : fileEMD) (label : string)
  (data_arr : ndarray) (parent : option path) (overwrite : bool)
  (target : path) (a : gmap string attr_val) (cs : list (string * node))
  (l0 : list path) :
  link_name label = true →
  shape data_arr = [] →
  writable (file_hdl s) = true →
  wf_node (root (file_hdl s)) = true →
  find_emdgroups (root (file_hdl s)) [] = Return l0 →
  target_of s parent = Some target →
  get_node (root (file_hdl s)) target = Some (Group a cs) →
  child label cs = None →
  ∃ r' cs' l',
    put_emdgroup (PyStr label) (PyArray data_arr) [] parent overwrite s
    = (set_list_emds l' (set_file_hdl (mk_h5file true r') s),
       Return (Some (target ++ [label])))
    ∧ find_emdgroups r' [] = Return l'
    ∧ get_node r' target = Some (Group a cs')
    ∧ child label cs' = Some (new_emd_group data_arr)
    ∧ (∀ k, k ≠ label → child k cs' = child k cs)
    ∧ wf_node r' = true
    ∧ (∀ p, p ∈ l' ↔ p = target ++ [label] ∨ p ∈ l0).
Proof.
  intros Hl Hsh Hw Hwf Hfind Ht Hg Hfree.
  destruct (put_scalar_run s label data_arr parent overwrite
              target a cs l0 Hl Hsh Hw Hfind Ht Hg Hfree)
    as (r' & Hr' & Hg' & Hfind' & Hrun).
  assert (Hwf' : wf_node r' = true).
  { apply (wf_alter_node (link_new label (new_emd_group data_arr)) target)
      with (r := root (file_hdl s)); [| done | done].
    intros n n'. by apply wf_link_new. }
  assert (Hnew : get_node r' (target ++ [label]) = Some (new_emd_group data_arr)).
  { rewrite (get_node_snoc _ _ _ _ label Hg'). by apply child_insert_child. }
  exists r', (insert_child label (new_emd_group data_arr) cs), (emd_groups_below r').
  split; [done |]. split; [done |]. split; [done |].
  split; [by apply child_insert_child |].
  split; [by intros k Hk; apply child_insert_child_ne |]. split; [done |].
  intros p. apply find_emdgroups_returns in Hfind as ->.
  rewrite (emd_groups_below_elem _ Hwf p), (emd_groups_below_elem r' Hwf' p). split.
  - intros [Hne (a0 & cs1 & Hp & Ha0)].
    destruct (alter_link_new_groups _ _ _ _ _ p a0 cs1 Hr' Hp)
      as [[cs0 H0] | (p' & -> & Hp')].
    + right. split; [done |]. by exists a0, cs0.
    + left. by rewrite (new_emd_group_groups data_arr p' a0 cs1 Hp').
  - intros [-> | [Hne (a0 & cs0 & Hp & Ha0)]].
    + split; [by destruct target |].
      by exists {[ "emd_group_type" := AInt 1 ]}, [("data", Dataset ∅ data_arr)].
    + split; [done |].
      destruct (alter_link_new_keeps _ _ _ _ _ p a0 cs0 Hr' Hp) as [cs1 Hp'].
      by exists a0, cs1.
Qed.

(** ** [emdReader] *)

Lemma py_index_nat {A : Type} (l : list A) (n : nat) :
  py_index l (Z.of_nat n) = l !! n.
Proof. unfold py_index. rewrite decide_True by lia. by rewrite Nat2Z.id. Qed.

Lemma py_index_out_of_range {A : Type} (l : list A) (i : Z) :
  (i < - Z.of_nat (length l) ∨ Z.of_nat (length l) ≤ i)%Z → py_index l i = None.
Proof.
  intros Hi. unfold py_index, index_from_end.
  destruct (decide (0 ≤ i)%Z).
  - apply lookup_ge_None. lia.
  - by rewrite decide_False by lia.
Qed.

Lemma get_emdgroup_returns_complete g memmap s s' arr dims :
  get_emdgroup g memmap s = (s', Return (Some (arr, dims))) →
  length dims = ndim arr.
Proof.
  assert (Hof : ∀ p, get_emdgroup_of p memmap s = (s', Return (Some (arr, dims))) →
                     length dims = ndim arr).
  { intros p. unfold get_emdgroup_of.
    rewrite (bind_unchanged _ _ s (unchanged_h5_attrs p)).
    destruct (h5_attrs p s).2 as [a | e]; [| done].
    destruct (a !! "emd_group_type") as [v |]; [| done].
    unfold bind at 1, lift. destruct (py_eq_int v 1) as [[|] | e]; [| done | done].
    cbn [negb].
    pose proof (get_emdgroup_try_complete p memmap s) as Hcomplete.
    unfold try_except.
    rewrite (unchanged_run _ s (unchanged_get_emdgroup_try p memmap)) in *.
    destruct (get_emdgroup_try p memmap s).2 as [r | e]; [| done].
    intros [= _ ->]. destruct (Hcomplete _ eq_refl) as (arr' & dims' & [= <- <-] & Hlen).
    done. }
  destruct g as [p | i |]; [apply Hof | | done].
  unfold get_emdgroup. rewrite bind_gets.
  destruct (py_index (list_emds s) i) as [p |]; [apply Hof | done].
Qed.

(** The constructor [emdReader] calls, whichever class it chose. *)
Lemma emdReader_constructs c disk fname :
  match c with
  | Class_fileEMD_v05 =>
      fileEMD_v05__init__ disk fname [] [("readonly", PyBool true)]
  | Class_fileEMD => __init__ Class_fileEMD disk fname true
  end = __init__ c disk fname true.
Proof. by destruct c. Qed.

Lemma version_is_is_return v a b b' :
  is_return (version_is v a b) = is_return (version_is v a b').
Proof.
  unfold version_is. destruct (py_eq_int v.1 a) as [[|] | e]; [| done | done].
  apply py_eq_int_is_return.
Qed.

(** When [emdReader] could choose a class, the version check of the
    constructor has a truth value as well. *)
Lemma emdReader_version_comparable a cs v c :
  emdReader_version (Group a cs) = Return v →
  emdReader_class v = Return c →
  version_comparable c a = true.
Proof.
  intros Hv Hc. unfold version_comparable, version_read.
  unfold emdReader_version in Hv. cbn [node_attrs] in Hv.
  destruct (a !! "version_major") as [major |]; [| done].
  destruct (a !! "version_minor") as [minor |]; [| done].
  injection Hv as <-. rewrite (version_is_is_return _ 0 _ 5).
  unfold emdReader_class in Hc.
  by destruct (version_is (major, minor) 0 5) as [[|] | e].
Qed.

(** [emdReader] up to the read of the group. *)
Lemma emdReader_run fname f a cs v c l dsetNum repr :
  filename_text fname = Some f →
  emdReader_version (Group a cs) = Return v →
  emdReader_class v = Return c →
  find_emdgroups (Group a cs) [] = Return l →
  ∃ emd0,
    emdReader (Some (Group a cs)) fname dsetNum repr
    = (let (s, o) := emdReader_body fname dsetNum repr emd0 in (emd_stdout s, o))
    ∧ self_class emd0 = c
    ∧ file_hdl emd0 = mk_h5file false (Group a cs)
    ∧ list_emds emd0 = l
    ∧ emd_stdout emd0 = init_output c a.
Proof.
  intros Hfn Hv Hc Hfind.
  pose proof (emdReader_version_comparable a cs v c Hv Hc) as Hcmp.
  assert (Ht : types_comparable (Group a cs) = true).
  { rewrite find_emdgroups_group in Hfind.
    by destruct (types_comparable (Group a cs)). }
  rewrite (find_emdgroups_root a cs Ht) in Hfind. injection Hfind as <-.
  exists (mk_fileEMD c fname true (mk_h5file false (Group a cs))
            (version_read a)
            (found_group "data" cs) (found_group "microscope" cs)
            (found_group "sample" cs) (found_group "user" cs)
            (found_group "comments" cs)
            (emd_groups_below (Group a cs)) (init_output c a)).
  split; [| done].
  unfold emdReader. cbn [h5py_File root]. rewrite Hv, Hc.
  by rewrite emdReader_constructs, (init_readonly_run _ fname f a cs Hfn), Hcmp, Ht.
Qed.

(** X16.  On a file whose root is a group, with a version [emdReader] can
    make out and compare and with discovery returning, [emdReader] called
    with a position outside [list_emds], in particular on a file without
    EMD groups, does not return: after the lines of the constructor, the
    text of the object and the message that the group does not exist, it
    raises the [TypeError] of unpacking [None]. *)
Theorem emdReader_no_such_group (fname : filename_arg) (f : string)
  (a : gmap string attr_val) (cs : list (string * node))
  (v : attr_val * attr_val) (c : emd_class) (l : list path)
  (dsetNum : Z) (repr : string) :
  filename_text fname = Some f →
  emdReader_version (Group a cs) = Return v →
  emdReader_class v = Return c →
  find_emdgroups (Group a cs) [] = Return l →
  (dsetNum < - Z.of_nat (length l) ∨ Z.of_nat (length l) ≤ dsetNum)%Z →
  emdReader (Some (Group a cs)) fname dsetNum repr
  = (init_output c a ++ [repr; "group does not exist"], Raise unpack_error).
Proof.
  intros Hfn Hv Hc Hfind Hi.
  destruct (emdReader_run fname f a cs v c l dsetNum repr Hfn Hv Hc Hfind)
    as (emd0 & -> & _ & _ & Hl & Hout).
  unfold emdReader_body, bind at 1. cbn [print modify]. unfold bind at 1.
  unfold get_emdgroup. rewrite bind_gets.
  cbn [list_emds set_stdout emd_stdout]. rewrite Hl.
  rewrite (py_index_out_of_range _ dsetNum Hi).
  unfold bind. cbn. by rewrite Hout, <- app_assoc.
Qed.

(** X17.  Whenever [emdReader] returns, the dictionary names the file it was
    given, and [pixelSize], [pixelUnit] and [pixelName] each have one entry
    per axis of [data]. *)
Theorem emdReader_result_shape (disk : option node) (fname : filename_arg)
  (dsetNum : Z) (repr : string) (out : list string) (r : reader_out) :
  emdReader disk fname dsetNum repr = (out, Return r) →
  out_filename r = fname
  ∧ length (out_pixelSize r) = ndim (out_data r)
  ∧ length (out_pixelUnit r) = ndim (out_data r)
  ∧ length (out_pixelName r) = ndim (out_data r).
Proof.
  unfold emdReader. destruct (h5py_File disk false) as [f0 | e]; [| done].
  destruct (emdReader_version (root f0)) as [v | e]; [| done].
  destruct (emdReader_class v) as [c | e]; [| done].
  rewrite emdReader_constructs.
  destruct (__init__ c disk fname true) as [out0 [emd0 | e]]; [| done].
  unfold emdReader_body, bind at 1. cbn [print modify]. unfold bind at 1.
  destruct (get_emdgroup (GroupInt dsetNum) false _) as [s1 [[[arr dims] |] | e]]
    eqn:Hget; [| done | done].
  apply get_emdgroup_returns_complete in Hget. cbn [ret]. intros [= _ <-].
  cbn. by rewrite !length_map.
Qed.

(** X18.  The pixel size [emdReader] reports for a one-dimensional dim
    vector of at least two values is the second value minus the first; for
    a vector of fewer than two values the subtraction fails on the index and
    the entry is the integer 0. *)
Theorem pixel_size_of_vector (n : nat) (values : list scalar) (name units : string) :
  (∀ e0 e1 rest, values = e0 :: e1 :: rest → 2 ≤ n →
     pixel_size_of (mk_ndarray [n] values, name, units)
     = PixelDiff (mk_ndarray [] [fsub e1 e0]))
  ∧ (n < 2 → pixel_size_of (mk_ndarray [n] values, name, units) = PixelZero).
Proof.
  split.
  - intros e0 e1 rest -> Hn. unfold pixel_size_of, np_index0. cbn [fst snd shape].
    by rewrite !decide_True by lia.
  - intros Hn. unfold pixel_size_of, np_index0. cbn [fst snd shape].
    by rewrite decide_False by lia.
Qed.

(** X19.  On a file whose root is a group, with a version [emdReader] can
    make out and compare and with discovery returning, [emdReader] called
    with the position of a discovered group that carries
    [emd_group_type = 1] and holds, under the dataset name of the class
    chosen for the version, an array of at least one axis, and one dim
    vector per axis with name and units stored as byte strings of
    well-formed UTF-8: it prints the lines of the constructor and the text
    of the object and returns the array, the file name, and per axis the
    pixel size, the units and the name, in axis order. *)
Theorem emdReader_reads_stored_group (fname : filename_arg) (f : string)
  (a : gmap string attr_val) (cs : list (string * node))
  (v : attr_val * attr_val) (c : emd_class) (l : list path)
  (i : nat) (repr : string) (g : path)
  (ag : gmap string attr_val) (cg : list (string * node)) (dname : string)
  (da : gmap string attr_val) (arr : ndarray) (dims : list dim) :
  filename_text fname = Some f →
  emdReader_version (Group a cs) = Return v →
  emdReader_class v = Return c →
  find_emdgroups (Group a cs) [] = Return l →
  l !! i = Some g →
  get_node (Group a cs) g = Some (Group ag cg) →
  emd_type_test ag = Return true →
  (∀ s, self_class s = c → _get_dset_string g s = (s, Return dname)) →
  child dname cg = Some (Dataset da arr) →
  shape arr ≠ [] →
  length dims = ndim arr →
  (∀ j d, dims !! j = Some d → dim_stored cg j d) →
  emdReader (Some (Group a cs)) fname (Z.of_nat i) repr
  = (init_output c a ++ [repr],
     Return (mk_reader_out arr fname (map pixel_size_of dims)
               (map (fun aa => aa.2) dims) (map (fun aa => aa.1.2) dims))).
Proof.
  intros Hfn Hv Hc Hfind Hi Hg Ha Hname Hdata Hsh Hlen Hdims.
  apply has_emd_type_test in Ha.
  destruct (emdReader_run fname f a cs v c l (Z.of_nat i) repr Hfn Hv Hc Hfind)
    as (emd0 & -> & Hclass & Hfile & Hl & Hout).
  unfold emdReader_body, bind at 1. cbn [print modify]. unfold bind at 1.
  unfold get_emdgroup at 1. rewrite bind_gets.
  cbn [list_emds set_stdout emd_stdout]. rewrite Hl, py_index_nat, Hi.
  fold (get_emdgroup (GroupHandle g) false).
  rewrite (get_emdgroup_stored _ g false ag cg dname da arr dims);
    [by rewrite Hout | by cbn; rewrite Hfile | done | by apply Hname | done
    | by right | done | done].
Qed.

(** ** [get_memmap] *)

Lemma get_emdgroup_try_memmap p s x :
  get_emdgroup_try p false s = (s, Return x) →
  get_emdgroup_try p true s = (s, Return x).
Proof.
  unfold get_emdgroup_try.
  rewrite !(bind_unchanged _ _ s (unchanged_get_dset_string p)).
  destruct (_get_dset_string p s).2 as [dname | e]; [| done].
  rewrite !(bind_unchanged _ _ s (unchanged_h5_get (p ++ [dname]))).
  destruct (h5_get (p ++ [dname]) s).2 as [dset | e]; [| done].
  unfold bind at 1 3, lift at 1 3.
  destruct (dataset_value dset) as [arr | e]; [| done].
  unfold bind at 1 3, lift at 1, slice_all. cbn [ret].
  by destruct (shape arr).
Qed.

Lemma get_emdgroup_of_memmap p s s' r :
  get_emdgroup_of p false s = (s', Return (Some r)) →
  get_emdgroup_of p true s = (s', Return (Some r)).
Proof.
  unfold get_emdgroup_of.
  rewrite !(bind_unchanged _ _ s (unchanged_h5_attrs p)).
  destruct (h5_attrs p s).2 as [a | e]; [| done].
  destruct (a !! "emd_group_type") as [v |]; [| done].
  assert (Hlift : ∀ k : bool → M (option (ndarray * list dim)),
            (is_emd <- lift (py_eq_int v 1) ;; k is_emd) s
            = match py_eq_int v 1 with
              | Return b => k b s
              | Raise e => (s, Raise e)
              end) by done.
  rewrite !Hlift. destruct (py_eq_int v 1) as [[|] | e]; [| done | done].
  cbn [negb]. unfold try_except.
  pose proof (get_emdgroup_try_memmap p s) as Hmem.
  rewrite (unchanged_run _ s (unchanged_get_emdgroup_try p false)) in *.
  destruct (get_emdgroup_try p false s).2 as [x | e]; [| done].
  intros [= <- ->]. by rewrite (Hmem _ eq_refl).
Qed.

(** X20.  Whenever [get_emdgroup] without [memmap] returns an array and its
    dims, [get_memmap] on the same argument returns the same, with the same
    effect on the object. *)
Theorem get_memmap_agrees (g : group_arg) (s s' : fileEMD)
  (r : ndarray * list dim) :
  get_emdgroup g false s = (s', Return (Some r)) →
  get_memmap g s = (s', Return (Some r)).
Proof.
  unfold get_memmap. destruct g as [p | i |]; [apply get_emdgroup_of_memmap | | done].
  unfold get_emdgroup. rewrite !bind_gets.
  destruct (py_index (list_emds s) i) as [p |]; [apply get_emdgroup_of_memmap | done].
Qed.

(** X21.  An array without axes that [put_emdgroup] has written, with no
    dims, under a label that is one link name and is free, on a writable
    [fileEMD] object in whose file discovery returns, is read back by
    [get_memmap] as the array with no dims.  [get_emdgroup] without
    [memmap] does not read it back: the slice [[:]] is refused on a dataset
    without axes, so it prints the content message and returns [None]. *)
Theorem put_without_dims_then_get_memmap (s : fileEMD) (label : string)
  (data_arr : ndarray) (parent : option path) (overwrite : bool)
  (target : path) (a : gmap string attr_val) (cs : list (string * node))
  (l0 : list path) :
  link_name label = true →
  self_class s = Class_fileEMD →
  shape data_arr = [] →
  writable (file_hdl s) = true →
  find_emdgroups (root (file_hdl s)) [] = Return l0 →
  target_of s parent = Some target →
  get_node (root (file_hdl s)) target = Some (Group a cs) →
  child label cs = None →
  ∃ s1,
    put_emdgroup (PyStr label) (PyArray data_arr) [] parent overwrite s
    = (s1, Return (Some (target ++ [label])))
    ∧ get_memmap (GroupHandle (target ++ [label])) s1
      = (s1, Return (Some (data_arr, [])))
    ∧ get_emdgroup (GroupHandle (target ++ [label])) false s1
      = (set_stdout (emd_stdout s1 ++ [content_message (target ++ [label])]) s1,
         Return None).
Proof.
  intros Hl Hc Hsh Hw Hfind Ht Hg Hfree.
  destruct (put_scalar_run s label data_arr parent overwrite
              target a cs l0 Hl Hsh Hw Hfind Ht Hg Hfree)
    as (r4 & _ & Hg4 & _ & Hrun).
  set (s1 := set_list_emds (emd_groups_below r4)
               (set_file_hdl (mk_h5file true r4) s)) in *.
  assert (Hg1 : get_node (root (file_hdl s1)) (target ++ [label])
                = Some (new_emd_group data_arr)).
  { cbn [s1 file_hdl set_list_emds set_file_hdl root].
    rewrite (get_node_snoc _ _ _ _ label Hg4). by apply child_insert_child. }
  assert (Hname : _get_dset_string (target ++ [label]) s1 = (s1, Return "data")).
  { unfold _get_dset_string. rewrite bind_gets.
    change (self_class s1) with (self_class s). by rewrite Hc. }
  exists s1. split; [done | split].
  - unfold get_memmap.
    apply (get_emdgroup_stored s1 _ true _ _ "data" ∅ data_arr [] Hg1);
      [done | done | done | by left | by unfold ndim; rewrite Hsh | done].
  - rewrite (get_emdgroup_emd _ false s1 _ _ Hg1) by done.
    rewrite (try_except_raised _ _ s1
               (ValueError "Illegal slicing argument for scalar dataspace"));
      [done |].
    unfold get_emdgroup_try, bind at 1. rewrite Hname.
    unfold bind at 1, h5_get. rewrite (get_node_snoc _ _ _ _ "data" Hg1).
    cbn [child]. rewrite decide_True by done.
    unfold bind, lift, slice_all. cbn [dataset_value]. by rewrite Hsh.
Qed.

(** ** [check_version] and the rest of the file *)

(** X22.  [check_version] changes nothing in the file but the two version
    attributes of the root: the members of the root and every other root
    attribute stay as they are, whether it returns or raises.  On an object
    of class [fileEMD_v05], on a read-only object, and when both version
    attributes are present, it leaves the whole file as it is. *)
Theorem check_version_only_version_attrs (s : fileEMD)
  (a : gmap string attr_val) (cs : list (string * node)) :
  root (file_hdl s) = Group a cs →
  (∃ a', root (file_hdl (check_version s).1) = Group a' cs
         ∧ ∀ k, k ≠ "version_major" → k ≠ "version_minor" → a' !! k = a !! k)
  ∧ (self_class s = Class_fileEMD_v05 ∨ readonly s = true
     ∨ is_Some (version_read a) →
     file_hdl (check_version s).1 = file_hdl s).
Proof.
  intros Hroot.
  assert (Hattrs : root_attrs s = a) by (unfold root_attrs; by rewrite Hroot).
  assert (Hsame : file_hdl (check_version s).1 = file_hdl s →
    ∃ a', root (file_hdl (check_version s).1) = Group a' cs
          ∧ ∀ k, k ≠ "version_major" → k ≠ "version_minor" → a' !! k = a !! k).
  { intros ->. by exists a. }
  assert (Hpresent : is_Some (version_read a) →
                     file_hdl (check_version s).1 = file_hdl s).
  { unfold version_read. intros [v Hv].
    destruct (a !! "version_major") as [major |] eqn:Hmaj; [| done].
    destruct (a !! "version_minor") as [minor |] eqn:Hmin; [| done].
    rewrite <- Hattrs in Hmaj, Hmin.
    rewrite (check_version_present s major minor Hmaj Hmin).
    by destruct (version_is (major, minor) 0 _) as [[|] | e]. }
  assert (Hv05 : self_class s = Class_fileEMD_v05 →
                 file_hdl (check_version s).1 = file_hdl s).
  { intros Hc. unfold check_version. rewrite bind_gets, Hc.
    unfold check_version_fileEMD_v05. rewrite bind_h5_attrs_root.
    destruct (root_attrs s !! "version_major") as [major |];
      [destruct (root_attrs s !! "version_minor") as [minor |] |]; [| done | done].
    unfold bind, modify, lift.
    by destruct (version_is (major, minor) 0 5) as [[|] | e]. }
  assert (Hro : readonly s = true → file_hdl (check_version s).1 = file_hdl s).
  { intros Hro. by apply keeps_file_check_version. }
  split; [| by intros [? | [? | ?]]; auto].
  destruct (version_read a) as [v |] eqn:Hv; [by apply Hsame, Hpresent |].
  destruct (self_class s) eqn:Hc; [| by apply Hsame, Hv05].
  destruct (readonly s) eqn:Hr; [by apply Hsame, Hro |].
  assert (Habsent : root_attrs s !! "version_major" = None
                    ∨ root_attrs s !! "version_minor" = None).
  { rewrite Hattrs. unfold version_read in Hv.
    destruct (a !! "version_major"); [| by left].
    destruct (a !! "version_minor"); [done | by right]. }
  destruct (writable (file_hdl s)) eqn:Hw.
  - destruct (h5_set_attr_root "version_major" (AInt 0) s Hw) as (r1 & H1 & Ha1).
    destruct (h5_set_attr_root "version_minor" (AInt 2)
                (set_file_hdl (mk_h5file true r1) s) eq_refl) as (r2 & H2 & Ha2).
    assert (Hrun : check_version s = (set_file_hdl (mk_h5file true r2) s, Return tt)).
    { unfold check_version. rewrite bind_gets, Hc.
      unfold check_version_fileEMD. rewrite bind_h5_attrs_root.
      assert (Helse : (ro <- gets readonly ;;
                       if negb ro then
                         h5_set_attr [] "version_major" (AInt 0) ;;
                         h5_set_attr [] "version_minor" (AInt 2)
                       else ret tt) s
                      = (set_file_hdl (mk_h5file true r2) s, Return tt)).
      { rewrite bind_gets, Hr. cbn [negb]. unfold bind. by rewrite H1, H2. }
      destruct Habsent as [Hn | Hn]; rewrite Hn; [done |].
      by destruct (root_attrs s !! "version_major"). }
    rewrite Hrun. cbn [fst file_hdl set_file_hdl root].
    unfold h5_set_attr, h5_change in H1, H2. cbn in H1, H2. rewrite Hw in H1.
    rewrite Hroot in H1. cbn in H1. injection H1 as <-. cbn in H2.
    injection H2 as <-. eexists. split; [done |].
    intros k Hk1 Hk2. by rewrite !lookup_insert_ne.
  - apply Hsame. unfold check_version. rewrite bind_gets, Hc.
    unfold check_version_fileEMD. rewrite bind_h5_attrs_root.
    assert (Helse : file_hdl ((ro <- gets readonly ;;
                       if negb ro then
                         h5_set_attr [] "version_major" (AInt 0) ;;
                         h5_set_attr [] "version_minor" (AInt 2)
                       else ret tt) s).1 = file_hdl s).
    { rewrite bind_gets, Hr. cbn [negb]. unfold bind, h5_set_attr.
      by rewrite (h5_change_readonly _ _ _ s Hw). }
    destruct Habsent as [Hn | Hn]; rewrite Hn; [done |].
    by destruct (root_attrs s !! "version_major").
Qed.

End EMD.

Arguments mk_ndarray {scalar}.
Arguments shape {scalar}.
Arguments ndim {scalar}.
Arguments Group {scalar}.
Arguments Dataset {scalar}.
Arguments mk_h5file {scalar}.
Arguments writable {scalar}.
Arguments root {scalar}.
Arguments mk_fileEMD {scalar}.
Arguments self_class {scalar}.
Arguments readonly {scalar}.
Arguments file_hdl {scalar}.
Arguments version {scalar}.
Arguments data {scalar}.
Arguments comments {scalar}.
Arguments list_emds {scalar}.
Arguments emd_stdout {scalar}.
Arguments set_stdout {scalar}.
Arguments set_file_hdl {scalar}.
Arguments set_list_emds {scalar}.
Arguments set_version {scalar}.
Arguments node_attrs {scalar}.
Arguments root_attrs {scalar}.
Arguments get_node {scalar}.
Arguments is_group {scalar}.
Arguments wf_node {scalar}.
Arguments types_comparable {scalar}.
Arguments is_emd_group {scalar}.
Arguments find_emdgroups {scalar}.
Arguments emd_groups_below {scalar}.
Arguments new_emd_group {scalar}.
Arguments mode_consistent {scalar}.
Arguments target_of {scalar}.
Arguments dims_mismatch {scalar}.
Arguments dims_consistent {scalar}.
Arguments check_version {scalar}.
Arguments _get_dset_string {scalar}.
Arguments get_emddim {scalar}.
Arguments get_emddims {scalar}.
Arguments get_emdgroup {scalar}.
Arguments get_memmap {scalar}.
Arguments write_dim {scalar}.
Arguments put_emdgroup {scalar}.
Arguments put_comment {scalar}.
Arguments __init__ {scalar}.
Arguments fileEMD_v05__init__ {scalar}.
Arguments defaultDims {scalar}.
Arguments default_dim {scalar}.
Arguments dim_stored {scalar}.
Arguments found_group {scalar}.
Arguments emdReader_version {scalar}.
Arguments emdReader {scalar}.
Arguments pixel_size_of {scalar}.
Arguments mk_reader_out {scalar}.
Arguments out_data {scalar}.
Arguments out_filename {scalar}.
Arguments out_pixelSize {scalar}.
Arguments out_pixelUnit {scalar}.
Arguments out_pixelName {scalar}.
Arguments PixelNone {scalar}.
Arguments PixelSeq {scalar}.
Arguments PixelArray {scalar}.
Arguments PixelDiff {scalar}.
Arguments PixelZero {scalar}.
Arguments PyNone {scalar}.
Arguments PyBool {scalar}.
Arguments PyInt {scalar}.
Arguments PyStr {scalar}.
Arguments PyArray {scalar}.
Arguments PyDim {scalar}.
Arguments PyGroup {scalar}.

(** * Concrete stores *)

(** The instances below take integers for the array elements. *)

Definition emd_attrs : gmap string attr_val := {[ "emd_group_type" := AInt 1 ]}.

(** The members of the root of [sample_tree]. *)
Definition sample_members : list (string * node Z) :=
  [ ("a", Group emd_attrs []);
    ("b", Group ∅
            [ ("c", Group ∅
                      [ ("d", Group emd_attrs []);
                        ("v", Dataset ∅ (mk_ndarray [1] [5%Z])) ]) ]);
    ("e", Group {[ "emd_group_type" := AInt 2 ]} []) ].

(** A tree whose root is flagged as an EMD group, with flagged groups at
    depths 1 and 3, and a group flagged with the value 2. *)
Definition sample_tree : node Z := Group emd_attrs sample_members.

(** A tree with a group whose [emd_group_type] is an array of two numbers. *)
Definition array_typed_tree : node Z :=
  Group ∅ [ ("a", Group emd_attrs []);
            ("z", Group {[ "emd_group_type" := AIntArr [1%Z; 1%Z] ]} []) ].

(** The root attributes [fileEMD] writes to a new file. *)
Definition complete_attrs : gmap string attr_val :=
  <["version_minor" := AInt 2]> (<["version_major" := AInt 0]> ∅).

(** The store [fileEMD('new.emd', readonly=False)] makes of a new file. *)
Definition new_store : fileEMD Z :=
  mk_fileEMD Class_fileEMD (FnStr "new.emd") false
    (mk_h5file true
       (Group complete_attrs
          [ ("comments", Group ∅ []); ("data", Group ∅ []);
            ("microscope", Group ∅ []); ("sample", Group ∅ []);
            ("user", Group ∅ []) ]))
    None (Some ["data"]) (Some ["microscope"]) (Some ["sample"])
    (Some ["user"]) (Some ["comments"]) [] [].

(** An object on an empty file opened for writing, before [check_version]. *)
Definition blank_store : fileEMD Z :=
  mk_fileEMD Class_fileEMD (FnStr "new.emd") false
    (mk_h5file true (Group ∅ [])) None None None None None None [] [].

(** A read-only object on a file whose [version_major] is an array of two
    numbers, before [check_version]. *)
Definition array_version_store : fileEMD Z :=
  mk_fileEMD Class_fileEMD (FnStr "odd.emd") true
    (mk_h5file false
       (Group (<["version_minor" := AInt 2]>
                 (<["version_major" := AIntArr [0%Z; 1%Z]]> ∅)) []))
    None None None None None None [] [].

(** A one-dimensional array of two elements and a dim vector that fits. *)
Definition array2 : ndarray Z := mk_ndarray [2] [7%Z; 9%Z].
Definition dims2 : list (dim Z) := [(mk_ndarray [2] [0%Z; 1%Z], "x", "nm")].

(** A dim vector of three elements, which does not fit [array2]. *)
Definition dims3 : list (dim Z) := [(mk_ndarray [3] [0%Z; 1%Z; 2%Z], "x", "nm")].

(** An array without axes. *)
Definition array0 : ndarray Z := mk_ndarray [] [5%Z].

(** The members of the root of a new file, with what is in [/data]. *)
Definition members_with (in_data : list (string * node Z))
  : list (string * node Z) :=
  [ ("comments", Group ∅ []); ("data", Group ∅ in_data);
    ("microscope", Group ∅ []); ("sample", Group ∅ []);
    ("user", Group ∅ []) ].

(** The object of [new_store] on a file with the members [in_data] in
    [/data] and the list of EMD groups [emds]. *)
Definition store_with (in_data : list (string * node Z)) (emds : list path)
  : fileEMD Z :=
  mk_fileEMD Class_fileEMD (FnStr "new.emd") false
    (mk_h5file true (Group complete_attrs (members_with in_data)))
    None (Some ["data"]) (Some ["microscope"]) (Some ["sample"])
    (Some ["user"]) (Some ["comments"]) emds [].

(** [new_store] with a group [x] under [/data], as [put_emdgroup] leaves it. *)
Definition store_with_x : fileEMD Z :=
  store_with [("x", new_emd_group array2)] [].

(** The dim vector of [dims2] as a dataset, the name stored as a scalar and
    the units as an array of length one. *)
Definition dim1_dataset : node Z :=
  Dataset (<["units" := ABytesArr ["nm"]]> (<["name" := ABytes "x"]> ∅))
    (mk_ndarray [2] [0%Z; 1%Z]).

(** The members of a complete EMD group for [array2]. *)
Definition complete_group : list (string * node Z) :=
  [ ("data", Dataset ∅ array2); ("dim1", dim1_dataset) ].

(** [new_store] with a complete EMD group [x] under [/data]. *)
Definition store_complete : fileEMD Z :=
  store_with [("x", Group emd_attrs complete_group)] [["data"; "x"]].

Definition complete_members : list (string * node Z) :=
  members_with [("x", Group emd_attrs complete_group)].

(** A dim vector of three values, one more than the axis of [array2] has. *)
Definition dim2_dataset : node Z :=
  Dataset (<["units" := ABytes "s"]> (<["name" := ABytes "t"]> ∅))
    (mk_ndarray [3] [0%Z; 1%Z; 2%Z]).

(** The members of an EMD group for [array2], of rank one, that holds two
    dim vectors. *)
Definition extra_dim_group : list (string * node Z) :=
  [ ("data", Dataset ∅ array2); ("dim1", dim1_dataset); ("dim2", dim2_dataset) ].

Definition store_extra_dim : fileEMD Z :=
  store_with [("x", Group emd_attrs extra_dim_group)] [["data"; "x"]].

(** A read-only 0.5 object on [sample_tree]. *)
Definition v05_store : fileEMD Z :=
  mk_fileEMD Class_fileEMD_v05 (FnStr "old.h5") true
    (mk_h5file false sample_tree) None None None None None None [] [].

(** A read-only [fileEMD] object on the file of [store_complete]. *)
Definition readonly_store : fileEMD Z :=
  mk_fileEMD Class_fileEMD (FnStr "new.emd") true
    (mk_h5file false (root (file_hdl store_complete)))
    (Some (AInt 0, AInt 2)) (Some ["data"]) (Some ["microscope"])
    (Some ["sample"]) (Some ["user"]) (Some ["comments"]) [["data"; "x"]] [].

Example init_new_store :
  __init__ Class_fileEMD None (FnStr "new.emd") false = ([], Return new_store).
Proof. by vm_compute. Qed.

Example find_emdgroups_sample :
  find_emdgroups sample_tree [] = Return [["a"]; ["b"; "c"; "d"]].
Proof. by vm_compute. Qed.

Example find_emdgroups_array_typed :
  find_emdgroups array_typed_tree [] = Raise ambiguous_truth.
Proof. by vm_compute. Qed.

Example find_emdgroups_complete :
  find_emdgroups (root (file_hdl store_complete)) [] = Return [["data"; "x"]].
Proof. by vm_compute. Qed.

Example get_emdgroup_complete :
  get_emdgroup (GroupInt 0) false store_complete
  = (store_complete, Return (Some (array2, dims2))).
Proof. by vm_compute. Qed.

Example defaultDims_2x3 :
  defaultDims Z.of_nat Z.mul 1%Z (mk_ndarray [2; 3] []) (PixelSeq [10%Z; 2%Z])
  = Return [ (mk_ndarray [2] [0%Z; 10%Z], "dim1", "unit1");
             (mk_ndarray [3] [0%Z; 2%Z; 4%Z], "dim2", "unit2") ].
Proof. by vm_compute. Qed.

Example init_readonly_store :
  __init__ Class_fileEMD (Some (root (file_hdl store_complete)))
    (FnStr "new.emd") true
  = ([], Return readonly_store).
Proof. by vm_compute. Qed.

Example emdReader_complete :
  emdReader Z.sub (Some (root (file_hdl store_complete))) (FnStr "new.emd") 0
    "<fileEMD object>"
  = (["<fileEMD object>"],
     Return (mk_reader_out array2 (FnStr "new.emd")
               [PixelDiff (mk_ndarray [] [1%Z])] ["nm"] ["x"])).
Proof. by vm_compute. Qed.

Lemma dims2_consistent : dims_consistent array2 dims2.
Proof.
  split; [reflexivity |]. intros [| i] d Hd; [| done].
  injection Hd as <-. reflexivity.
Qed.

Lemma dims2_stored : ∀ i d, dims2 !! i = Some d → dim_stored complete_group i d.
Proof.
  intros [| i] d Hd; [| discriminate Hd]. injection Hd as <-.
  exists (<["units" := ABytesArr ["nm"]]> (<["name" := ABytes "x"]> ∅)).
  split; [reflexivity |]. split; [split; [reflexivity | by left] |].
  split; [split; [reflexivity | right; by eexists] | discriminate].
Qed.

(** * Instances of the theorems *)

Lemma put_emdgroup_rejects_mismatch_witness :
  dims_mismatch array2 dims3
  ∧ put_emdgroup (PyStr "x") (PyArray array2) dims3 None true new_store
    = (new_store, Raise (TypeError "Something wrong with the provided dims")).
Proof.
  assert (H : dims_mismatch array2 dims3).
  { right. exists 0, (mk_ndarray [3] [0%Z; 1%Z; 2%Z], "x", "nm").
    split; [reflexivity | discriminate]. }
  split; [exact H |].
  exact (put_emdgroup_rejects_mismatch Z "x" array2 dims3 None true new_store H).
Defined.



Lemma get_dset_string_layout_witness :
  self_class v05_store = Class_fileEMD_v05
  ∧ parent_name ["4DSTEM"; "datacubes"; "cube0"] = Some "datacubes"
  ∧ _get_dset_string ["4DSTEM"; "datacubes"; "cube0"] v05_store
    = (v05_store, Return "datacube").
Proof.
  split; [reflexivity |]. split; [reflexivity |].
  destruct (get_dset_string_layout Z ["4DSTEM"; "datacubes"; "cube0"] v05_store)
    as (_ & H & _).
  exact (proj1 (H eq_refl "datacubes" eq_refl) eq_refl).
Defined.

Lemma put_emdgroup_overwrite_witness :
  link_name "x" = true
  ∧ dims_consistent array2 dims2
  ∧ target_of store_with_x None = Some ["data"]
  ∧ get_node (root (file_hdl store_with_x)) ["data"]
    = Some (Group ∅ [("x", new_emd_group array2)])
  ∧ writable (file_hdl store_with_x) = true
  ∧ dims2 ≠ []
  ∧ put_emdgroup (PyStr "x") (PyArray array2) dims2 None false store_with_x
    = (set_stdout
         (emd_stdout store_with_x
          ++ [exists_message "x" ["data"]; write_failed_message])
         store_with_x,
       Return None)
  ∧ ∃ r1 cs1,
      put_emdgroup (PyStr "x") (PyArray array2) dims2 None true store_with_x
      = (set_file_hdl (mk_h5file true r1)
           (set_stdout
              (emd_stdout store_with_x
               ++ [overwriting_message "x" ["data"]; write_failed_message])
              store_with_x),
         Return None)
      ∧ get_node r1 ["data"] = Some (Group ∅ cs1)
      ∧ child "x" cs1 = Some (new_emd_group array2).
Proof.
  split; [reflexivity |]. split; [exact dims2_consistent |].
  split; [reflexivity |]. split; [reflexivity |]. split; [reflexivity |].
  split; [discriminate |].
  destruct (put_emdgroup_overwrite Z store_with_x "x" array2 dims2 None
              ["data"] ∅ [("x", new_emd_group array2)]
              (new_emd_group array2) eq_refl dims2_consistent eq_refl eq_refl
              eq_refl) as [Hkeep Hreplace].
  split; [exact Hkeep |].
  destruct (Hreplace eq_refl)
    as (r0 & r1 & cs1 & _ & _ & _ & Hg1 & Hc1 & _ & Hdims & _).
  exists r1, cs1. split; [exact (Hdims ltac:(discriminate)) |].
  split; [exact Hg1 | exact Hc1].
Defined.



Lemma put_comment_append_merge_witness :
  writable (file_hdl new_store) = true
  ∧ comments new_store = Some ["comments"]
  ∧ get_node (root (file_hdl new_store)) ["comments"] = Some (Group ∅ [])
  ∧ attr_name (comment_key (Some "2020-01-01") "12:00") = true
  ∧ plain_text "first" = true
  ∧ ∃ s1 s2 n2,
      put_comment (PyStr "first") (Some "2020-01-01") "12:00" new_store
      = (s1, Return tt)
      ∧ put_comment (PyStr "second") (Some "2020-01-01") "12:05" s1
        = (s2, Return tt)
      ∧ get_node (root (file_hdl s2)) ["comments"] = Some n2
      ∧ node_attrs n2
        = <["2020-01-01" := AStr ("first" +:+ nl +:+ "second")]> ∅
      ∧ ∃ m, put_comment (PyStr "third") (Some "2020-01-01") "12:10" s2
             = (s2, Raise (TypeError m)).
Proof.
  split; [reflexivity |]. split; [reflexivity |]. split; [reflexivity |].
  split; [reflexivity |]. split; [reflexivity |].
  destruct (put_comment_append_merge Z new_store "first" (Some "2020-01-01")
              "12:00" ["comments"] (Group ∅ []) eq_refl eq_refl eq_refl eq_refl
              eq_refl)
    as (_ & _ & _ & _ & H & _).
  destruct (H eq_refl "second" (Some "2020-01-01") "12:05"
              "third" (Some "2020-01-01") "12:10" eq_refl eq_refl eq_refl eq_refl)
    as (s1 & s2 & n2 & H1 & H2 & H3 & H4 & _ & H6).
  exists s1, s2, n2. split; [exact H1 |]. split; [exact H2 |].
  split; [exact H3 |]. split; [exact H4 | exact H6].
Defined.

Lemma defaultDims_spec_witness :
  [10%Z; 2%Z] ≠ []
  ∧ length [10%Z; 2%Z] = ndim (mk_ndarray (scalar:=Z) [2; 3] [])
  ∧ ∃ dims,
      defaultDims Z.of_nat Z.mul 1%Z (mk_ndarray [2; 3] []) (PixelSeq [10%Z; 2%Z])
      = Return dims
      ∧ length dims = 2.
Proof.
  split; [discriminate |]. split; [reflexivity |].
  destruct (defaultDims_spec Z Z.of_nat Z.mul 1%Z (mk_ndarray [2; 3] []))
    as (_ & _ & _ & _ & H).
  destruct (H [10%Z; 2%Z] ltac:(discriminate) eq_refl) as (dims & H1 & H2 & _).
  exists dims. split; [exact H1 | exact H2].
Defined.

(** C8 as stated fails: an empty [pixel_size] has a length other than the
    rank of a two-dimensional array, and [defaultDims] does not raise. *)
Lemma defaultDims_accepts_empty_pixel_size :
  ¬ (∀ (data_arr : ndarray Z) (l : list Z),
       length l ≠ ndim data_arr →
       defaultDims Z.of_nat Z.mul 1%Z data_arr (PixelSeq l)
       = Raise (ValueError "pixel_size and data dimensions must match")).
Proof.
  intros H. specialize (H (mk_ndarray [2; 3] []) [] ltac:(discriminate)).
  vm_compute in H. discriminate H.
Qed.

Lemma get_emdgroup_errors_witness :
  get_node (root (file_hdl store_with_x)) ["data"; "x"]
  = Some (new_emd_group array2)
  ∧ get_emdgroup (GroupHandle ["data"; "x"]) false store_with_x
    = (set_stdout (emd_stdout store_with_x ++ [content_message ["data"; "x"]])
         store_with_x,
       Return None).
Proof.
  split; [reflexivity |].
  destruct (get_emdgroup_errors Z store_with_x ["data"; "x"] false
              emd_attrs [("data", Dataset ∅ array2)] eq_refl)
    as (_ & _ & _ & H & _).
  apply (H eq_refl "data" eq_refl). right.
  exists ∅, array2, 0. split; [reflexivity |]. split; [| reflexivity].
  unfold ndim. cbn. lia.
Defined.

(** C9 as stated fails on the rank mismatch: a group whose array has one
    axis and which holds two dim vectors, the second of them longer than
    the axis, is read without any report; the second vector is ignored. *)
Lemma get_emdgroup_accepts_extra_dim :
  ¬ (∀ (s : fileEMD Z) (g : path) (a : gmap string attr_val)
       (cs : list (string * node Z)) (da : gmap string attr_val)
       (arr : ndarray Z) (i : nat),
       self_class s = Class_fileEMD →
       get_node (root (file_hdl s)) g = Some (Group a cs) →
       emd_type_test a = Return true →
       child "data" cs = Some (Dataset da arr) →
       ndim arr ≤ i → is_Some (child (dim_label i) cs) →
       get_emdgroup (GroupHandle g) false s
       = (set_stdout (emd_stdout s ++ [content_message g]) s, Return None)).
Proof.
  intros H.
  specialize (H store_extra_dim ["data"; "x"] emd_attrs extra_dim_group ∅ array2 1
                eq_refl eq_refl eq_refl eq_refl).
  assert (Hrank : ndim array2 ≤ 1) by (cbn; lia).
  assert (Hdim : is_Some (child (dim_label 1) extra_dim_group)) by (by eexists).
  specialize (H Hrank Hdim). vm_compute in H. discriminate H.
Qed.

Lemma fileEMD_v05_opens_readonly_witness :
  ∃ out s,
    fileEMD_v05__init__ (Some sample_tree) (FnStr "old.h5")
      [PyBool false] [("readonly", PyBool false)] = (out, Return s)
    ∧ readonly s = true
    ∧ writable (file_hdl s) = false.
Proof.
  destruct (fileEMD_v05_opens_readonly Z (Some sample_tree) (FnStr "old.h5")
              [PyBool false] [("readonly", PyBool false)]) as (_ & H & _).
  eexists _, _. split; [reflexivity |].
  split; [exact (proj1 (H _ _ eq_refl)) | exact (proj1 (proj2 (H _ _ eq_refl)))].
Defined.

(** C1.  On the store of a new file, [put_emdgroup] of a one-dimensional
    array with a fitting dim vector returns [None] instead of the group: the
    group and its dataset are written, no dim vector is.  Discovery finds the
    group, and [get_emdgroup] on it prints the content message and returns
    [None] instead of the array and the dims. *)
Theorem put_then_get_loses_dims :
  dims_consistent array2 dims2
  ∧ ∃ s1,
      put_emdgroup (PyStr "x") (PyArray array2) dims2 None false new_store
      = (s1, Return None)
      ∧ get_node (root (file_hdl s1)) ["data"; "x"] = Some (new_emd_group array2)
      ∧ find_emdgroups (root (file_hdl s1)) [] = Return [["data"; "x"]]
      ∧ get_emdgroup (GroupHandle ["data"; "x"]) false s1
        = (set_stdout (emd_stdout s1 ++ [content_message ["data"; "x"]]) s1,
           Return None)
      ∧ (get_emdgroup (GroupHandle ["data"; "x"]) false s1).2
        ≠ Return (Some (array2, dims2)).
Proof.
  split; [exact dims2_consistent |].
  eexists. split; [by vm_compute |].
  split; [by vm_compute |]. split; [by vm_compute |].
  split; [by vm_compute |]. by vm_compute.
Qed.

(** * Instances of the further properties *)


Lemma put_emdgroup_readonly_witness :
  writable (file_hdl readonly_store) = false
  ∧ file_hdl (put_emdgroup (PyStr "y") (PyArray array2) dims2 None false
                readonly_store).1
    = file_hdl readonly_store
  ∧ ((put_emdgroup (PyStr "y") (PyArray array2) dims2 None false
        readonly_store).2 = Return None
     ∨ put_emdgroup (PyStr "y") (PyArray array2) dims2 None false readonly_store
       = (readonly_store,
          Raise (TypeError "Something wrong with the provided dims"))).
Proof.
  split; [reflexivity |].
  destruct (put_emdgroup_readonly Z readonly_store (PyStr "y") (PyArray array2)
              dims2 None false eq_refl) as (H1 & H2 & _).
  split; [exact H1 | exact (H2 "y" array2 eq_refl eq_refl)].
Defined.

Lemma put_comment_readonly_raises_witness :
  writable (file_hdl readonly_store) = false
  ∧ ∃ e, put_comment (PyStr "note") None "2020-01-01 12:00:00 (UTC)" readonly_store
         = (readonly_store, Raise e).
Proof.
  split; [reflexivity |].
  exact (put_comment_readonly_raises Z readonly_store (PyStr "note") None
           "2020-01-01 12:00:00 (UTC)" eq_refl).
Defined.

Lemma write_dim_outcomes_witness :
  length [PyDim (mk_ndarray [2] [0%Z; 1%Z], "x", "nm"); PyGroup ["data"]] ≠ 3
  ∧ write_dim [PyDim (mk_ndarray [2] [0%Z; 1%Z], "x", "nm"); PyGroup ["data"]]
      new_store
    = (new_store, Raise (write_dim_arity)).
Proof.
  split; [discriminate |].
  exact (proj1 (write_dim_outcomes Z
                  [PyDim (mk_ndarray [2] [0%Z; 1%Z], "x", "nm"); PyGroup ["data"]]
                  new_store) ltac:(discriminate)).
Defined.

Lemma write_dim_then_get_emddim_witness :
  writable (file_hdl new_store) = true
  ∧ get_node (root (file_hdl new_store)) ["data"] = Some (Group ∅ [])
  ∧ plain_text "x" = true
  ∧ plain_text "nm" = true
  ∧ ∃ s1,
      write_dim [PyStr "dim1"; PyDim (mk_ndarray [2] [0%Z; 1%Z], "x", "nm");
                 PyGroup ["data"]] new_store
      = (s1, Return ["data"; "dim1"])
      ∧ get_emddim ["data"] 0 s1
        = (s1, Return (mk_ndarray [2] [0%Z; 1%Z], "x", "nm")).
Proof.
  split; [reflexivity |]. split; [reflexivity |]. split; [reflexivity |].
  split; [reflexivity |].
  destruct (proj1 (write_dim_then_get_emddim Z new_store ["data"] ∅ [] 0
                     (mk_ndarray [2] [0%Z; 1%Z]) "x" "nm" eq_refl eq_refl eq_refl)
              eq_refl eq_refl)
    as (s1 & cs1 & H1 & _ & _ & _ & _ & _ & H2).
  exists s1. split; [exact H1 | exact (H2 ltac:(discriminate))].
Defined.

Lemma get_emdgroup_by_index_witness :
  (0 ≤ 0 < Z.of_nat (length (list_emds store_complete)))%Z
  ∧ ∃ g, list_emds store_complete !! Z.to_nat 0 = Some g
         ∧ get_emdgroup (GroupInt 0) false store_complete
           = get_emdgroup (GroupHandle g) false store_complete.
Proof.
  assert (H : (0 ≤ 0 < Z.of_nat (length (list_emds store_complete)))%Z)
    by (cbn; lia).
  split; [exact H |].
  exact (proj1 (get_emdgroup_by_index Z store_complete 0 false) H).
Defined.

Lemma get_emdgroup_reads_stored_group_witness :
  get_node (root (file_hdl store_complete)) ["data"; "x"]
  = Some (Group emd_attrs complete_group)
  ∧ emd_type_test emd_attrs = Return true
  ∧ get_emdgroup (GroupHandle ["data"; "x"]) false store_complete
    = (store_complete, Return (Some (array2, dims2))).
Proof.
  split; [reflexivity |]. split; [reflexivity |].
  refine (proj1 (get_emdgroup_reads_stored_group Z store_complete ["data"; "x"]
                   false emd_attrs complete_group "data" ∅ array2 dims2
                   eq_refl eq_refl eq_refl eq_refl (or_intror _) eq_refl
                   dims2_stored)).
  discriminate.
Defined.

Lemma defaultDims_fits_put_emdgroup_witness :
  defaultDims Z.of_nat Z.mul 1%Z array2 PixelNone
  = Return [(mk_ndarray [2] [0%Z; 1%Z], "dim1", "unit1")]
  ∧ dims_consistent array2 [(mk_ndarray [2] [0%Z; 1%Z], "dim1", "unit1")].
Proof.
  assert (H : defaultDims Z.of_nat Z.mul 1%Z array2 PixelNone
              = Return [(mk_ndarray [2] [0%Z; 1%Z], "dim1", "unit1")])
    by reflexivity.
  split; [exact H |].
  exact (proj1 (defaultDims_fits_put_emdgroup Z Z.of_nat Z.mul 1%Z array2
                  PixelNone _ H)).
Defined.

Lemma find_emdgroups_under_parent_witness :
  wf_node sample_tree = true
  ∧ find_emdgroups sample_tree [] = Return [["a"]; ["b"; "c"; "d"]]
  ∧ get_node sample_tree ["b"]
    = Some (Group ∅
              [ ("c", Group ∅
                        [ ("d", Group emd_attrs []);
                          ("v", Dataset ∅ (mk_ndarray [1] [5%Z])) ]) ])
  ∧ ∃ l, find_emdgroups
           (Group ∅
              [ ("c", Group ∅
                        [ ("d", Group emd_attrs []);
                          ("v", Dataset ∅ (mk_ndarray [1] [5%Z])) ]) ])
           ["b"] = Return l
         ∧ (∀ p, p ∈ l ↔ p ∈ [["a"]; ["b"; "c"; "d"]]
                          ∧ ["b"] `prefix_of` p ∧ p ≠ ["b"])
         ∧ NoDup l.
Proof.
  split; [reflexivity |]. split; [exact find_emdgroups_sample |].
  split; [reflexivity |].
  exact (find_emdgroups_under_parent Z sample_tree ["b"] _ _ _ eq_refl
           find_emdgroups_sample eq_refl).
Defined.

Lemma discovered_groups_are_readable_witness :
  wf_node (root (file_hdl store_complete)) = true
  ∧ find_emdgroups (root (file_hdl store_complete)) [] = Return [["data"; "x"]]
  ∧ ["data"; "x"] ∈ [["data"; "x"]]
  ∧ (get_emdgroup (GroupHandle ["data"; "x"]) false store_complete
     = (set_stdout (emd_stdout store_complete ++ [content_message ["data"; "x"]])
          store_complete, Return None)
     ∨ ∃ arr dims,
         get_emdgroup (GroupHandle ["data"; "x"]) false store_complete
         = (store_complete, Return (Some (arr, dims)))
         ∧ length dims = ndim arr).
Proof.
  assert (Hin : ["data"; "x"] ∈ [["data"; "x"]]) by left.
  split; [reflexivity |]. split; [exact find_emdgroups_complete |].
  split; [exact Hin |].
  exact (discovered_groups_are_readable Z store_complete ["data"; "x"] false
           [["data"; "x"]] eq_refl find_emdgroups_complete Hin).
Defined.

Lemma get_emdgroup_v05_unsupported_parent_witness :
  self_class v05_store = Class_fileEMD_v05
  ∧ get_node (root (file_hdl v05_store)) ["a"] = Some (Group emd_attrs [])
  ∧ parent_name ["a"] = Some ""
  ∧ get_emdgroup (GroupHandle ["a"]) false v05_store
    = (set_stdout (emd_stdout v05_store ++ [content_message ["a"]]) v05_store,
       Return None).
Proof.
  split; [reflexivity |]. split; [reflexivity |]. split; [reflexivity |].
  refine (proj2 (get_emdgroup_v05_unsupported_parent Z v05_store ["a"] false
                   emd_attrs [] "" eq_refl eq_refl eq_refl eq_refl _)).
  unfold v05_parents. intros H.
  repeat (apply elem_of_cons in H as [H | H]; [discriminate H |]).
  by apply elem_of_nil in H.
Defined.


Lemma init_readonly_finds_groups_witness :
  filename_text (FnPath "old.h5") = Some "old.h5"
  ∧ version_comparable Class_fileEMD emd_attrs = true
  ∧ types_comparable sample_tree = true
  ∧ ∃ s, __init__ Class_fileEMD (Some sample_tree) (FnPath "old.h5") true
         = ([], Return s)
         ∧ file_hdl s = mk_h5file false sample_tree
         ∧ data s = None
         ∧ find_emdgroups sample_tree [] = Return (list_emds s).
Proof.
  split; [reflexivity |]. split; [reflexivity |]. split; [reflexivity |].
  destruct (init_readonly_finds_groups Z Class_fileEMD (FnPath "old.h5") "old.h5"
              emd_attrs sample_members eq_refl eq_refl eq_refl)
    as (s & H1 & _ & H3 & _ & H5 & _ & _ & _ & _ & H10).
  exists s. split; [exact H1 |]. split; [exact H3 |]. split; [exact H5 | exact H10].
Defined.


Lemma put_emdgroup_without_dims_witness :
  link_name "x" = true
  ∧ shape array0 = []
  ∧ writable (file_hdl new_store) = true
  ∧ wf_node (root (file_hdl new_store)) = true
  ∧ find_emdgroups (root (file_hdl new_store)) [] = Return []
  ∧ get_node (root (file_hdl new_store)) ["data"] = Some (Group ∅ [])
  ∧ ∃ r' l',
      put_emdgroup (PyStr "x") (PyArray array0) [] None false new_store
      = (set_list_emds l' (set_file_hdl (mk_h5file true r') new_store),
         Return (Some ["data"; "x"]))
      ∧ find_emdgroups r' [] = Return l'
      ∧ ∀ p, p ∈ l' ↔ p = ["data"; "x"] ∨ p ∈ [].
Proof.
  split; [reflexivity |]. split; [reflexivity |]. split; [reflexivity |].
  split; [reflexivity |]. split; [reflexivity |]. split; [reflexivity |].
  destruct (put_emdgroup_without_dims Z new_store "x" array0 None false ["data"]
              ∅ [] [] eq_refl eq_refl eq_refl eq_refl eq_refl eq_refl eq_refl
              eq_refl)
    as (r' & cs' & l' & H1 & H2 & _ & _ & _ & _ & H7).
  exists r', l'. split; [exact H1 |]. split; [exact H2 | exact H7].
Defined.

Lemma emdReader_no_such_group_witness :
  filename_text (FnStr "old.h5") = Some "old.h5"
  ∧ emdReader_version sample_tree = Return (AInt 0, AInt 2)
  ∧ emdReader_class (AInt 0, AInt 2) = Return Class_fileEMD
  ∧ find_emdgroups sample_tree [] = Return [["a"]; ["b"; "c"; "d"]]
  ∧ emdReader Z.sub (Some sample_tree) (FnStr "old.h5") 2 "<fileEMD object>"
    = (["<fileEMD object>"; "group does not exist"], Raise unpack_error).
Proof.
  split; [reflexivity |]. split; [reflexivity |]. split; [reflexivity |].
  split; [exact find_emdgroups_sample |].
  refine (emdReader_no_such_group Z Z.sub (FnStr "old.h5") "old.h5" emd_attrs
            sample_members (AInt 0, AInt 2) Class_fileEMD [["a"]; ["b"; "c"; "d"]]
            2 "<fileEMD object>" eq_refl eq_refl eq_refl find_emdgroups_sample _).
  right. cbn. lia.
Defined.

Lemma emdReader_result_shape_witness :
  emdReader Z.sub (Some (root (file_hdl store_complete))) (FnStr "new.emd") 0
    "<fileEMD object>"
  = (["<fileEMD object>"],
     Return (mk_reader_out array2 (FnStr "new.emd")
               [PixelDiff (mk_ndarray [] [1%Z])] ["nm"] ["x"]))
  ∧ length [PixelDiff (mk_ndarray [] [1%Z])] = ndim array2.
Proof.
  split; [exact emdReader_complete |].
  exact (proj1 (proj2 (emdReader_result_shape Z Z.sub _ _ _ _ _ _ emdReader_complete))).
Defined.

Lemma pixel_size_of_vector_witness :
  2 ≤ 2
  ∧ pixel_size_of Z.sub (mk_ndarray [2] [3%Z; 7%Z], "x", "nm")
    = PixelDiff (mk_ndarray [] [(7 - 3)%Z]).
Proof.
  split; [lia |].
  exact (proj1 (pixel_size_of_vector Z Z.sub 2 [3%Z; 7%Z] "x" "nm")
           3%Z 7%Z [] eq_refl ltac:(lia)).
Defined.

Lemma emdReader_reads_stored_group_witness :
  find_emdgroups (Group complete_attrs complete_members) []
  = Return [["data"; "x"]]
  ∧ emdReader_class (AInt 0, AInt 2) = Return Class_fileEMD
  ∧ emdReader Z.sub (Some (Group complete_attrs complete_members))
      (FnStr "new.emd") (Z.of_nat 0) "<fileEMD object>"
    = (init_output Class_fileEMD complete_attrs ++ ["<fileEMD object>"],
       Return (mk_reader_out array2 (FnStr "new.emd")
                 (map (pixel_size_of Z.sub) dims2)
                 (map (fun aa => aa.2) dims2) (map (fun aa => aa.1.2) dims2))).
Proof.
  split; [exact find_emdgroups_complete |]. split; [reflexivity |].
  refine (emdReader_reads_stored_group Z Z.sub (FnStr "new.emd") "new.emd"
            complete_attrs complete_members (AInt 0, AInt 2) Class_fileEMD
            [["data"; "x"]] 0 "<fileEMD object>" ["data"; "x"] emd_attrs
            complete_group "data" ∅ array2 dims2
            eq_refl eq_refl eq_refl find_emdgroups_complete eq_refl eq_refl eq_refl
            _ eq_refl _ eq_refl dims2_stored).
  - intros s Hs. unfold _get_dset_string, bind, gets. by rewrite Hs.
  - discriminate.
Defined.

Lemma get_memmap_agrees_witness :
  get_emdgroup (GroupInt 0) false store_complete
  = (store_complete, Return (Some (array2, dims2)))
  ∧ get_memmap (GroupInt 0) store_complete
    = (store_complete, Return (Some (array2, dims2))).
Proof.
  split; [exact get_emdgroup_complete |].
  exact (get_memmap_agrees Z (GroupInt 0) store_complete store_complete
           (array2, dims2) get_emdgroup_complete).
Defined.

Lemma put_without_dims_then_get_memmap_witness :
  link_name "x" = true
  ∧ self_class new_store = Class_fileEMD
  ∧ shape array0 = []
  ∧ writable (file_hdl new_store) = true
  ∧ find_emdgroups (root (file_hdl new_store)) [] = Return []
  ∧ ∃ s1,
      put_emdgroup (PyStr "x") (PyArray array0) [] None false new_store
      = (s1, Return (Some ["data"; "x"]))
      ∧ get_memmap (GroupHandle ["data"; "x"]) s1 = (s1, Return (Some (array0, []))).
Proof.
  split; [reflexivity |]. split; [reflexivity |]. split; [reflexivity |].
  split; [reflexivity |]. split; [reflexivity |].
  destruct (put_without_dims_then_get_memmap Z new_store "x" array0 None false
              ["data"] ∅ [] [] eq_refl eq_refl eq_refl eq_refl eq_refl eq_refl
              eq_refl eq_refl)
    as (s1 & H1 & H2 & _).
  exists s1. split; [exact H1 | exact H2].
Defined.

Lemma check_version_only_version_attrs_witness :
  root (file_hdl blank_store) = Group ∅ []
  ∧ ∃ a', root (file_hdl (check_version blank_store).1) = Group a' []
          ∧ ∀ k, k ≠ "version_major" → k ≠ "version_minor" →
                 a' !! k = (∅ : gmap string attr_val) !! k.
Proof.
  split; [reflexivity |].
  exact (proj1 (check_version_only_version_attrs Z blank_store ∅ [] eq_refl)).
Defined.
